(* ===== verification/_CoqProject ===== *)
-Q . S2P
Prelude.v
PyInt.v
Db.v
Http.v
Services.v
Trade.v
Auth.v
Views.v
App.v
Account.v
Scenario.v
Invariant.v
TradeFacts.v
Refinement.v
ViewFacts.v
Safety.v
Isolation.v
Ledger.v
AuthFacts.v
Concurrency.v
Schedules.v
Responses.v
Sessions.v
Statuses.v
FloatMoney.v
ReadSkew.v
Locality.v
LocalTrades.v
RoundTrips.v
