(* ===== verification/Prelude.v ===== *)
(** * A verification library for the CS50 Finance web application

    ** The program

    [src/finance/application.py] is a Flask application in which users
    register, log in, look up stock quotes and buy and sell simulated
    shares against a cash balance.  Its parts and how they interact:
    - the request handlers [index], [buy], [history], [login], [logout],
      [quote], [register] and [sell], each behind an [@app.route]
      decorator and, except [login], [logout] and [register], behind the
      [login_required] decorator of [helpers.py];
    - the SQLite database [finance.db] with the tables [users],
      [portfolio] and [history], which the handlers read and write through
      [db.execute]; every statement commits on its own;
    - the session of each client (Flask-Session), of which only
      ["user_id"] is used;
    - the collaborators the handlers call: the quote service [lookup] of
      [helpers.py] and werkzeug's password hashing;
    - the [errorhandler] that turns every exception into an apology page
      (500 for Python exceptions) and the [after_request] hook that adds
      the no-cache headers to every response.

    ** The files

    - [Prelude] (this file): the state-and-exception monad [st] in which
      the handlers are written ([bind], [ret], [raise], [gets], [modify],
      [first] for [rows[0]]), with its notation in [fin_scope], the hint
      databases [finance] and [finance_rw], and generic lemmas on lists
      and on the sums [sumZ].  The state survives an exception, because
      the statements executed before it have committed.
    - [PyInt]: Python's [int(s)] on form text ([py_int]), and [str(n)]
      ([py_str]).
    - [Db]: the three tables as lists of records in insertion order and
      every SQL statement of the handlers as a function ([select_cash],
      [sum_shares], [update_cash], [insert_history], [insert_portfolio],
      [update_portfolio_add], [update_portfolio_sub],
      [delete_zero_shares], [insert_user], ...).
    - [Http]: exceptions, pages and responses, [apology], [errorhandler],
      [after_request], the world (database and session) and the handler
      monad [M], the request form and [login_required].
    - [Services]: the environment of a request ([env]: the quote service
      and the salt), [lookup], and the interface [PasswordHasher] (a class
      whose law is that a generated hash verifies exactly its password),
      with the instance [plain_hasher].
    - [Trade]: [buy] and [sell] statement by statement ([buy_post],
      [sell_post]).  [Auth]: [register], [login], [logout].  [Views]:
      [index] (with its [for] loop [total_loop]), [history_view],
      [quote_view].
    - [App]: the route table, Flask's dispatch ([dispatch]: 404 and 405,
      the 308 redirect of Werkzeug's [merge_slashes] for a path that
      matches a route only once its repeated slashes are merged, HEAD
      served by the GET view, OPTIONS answered by Flask itself),
      [respond] (error handler and [after_request]), and the server as a
      state machine: [serve] runs one request of the client holding a
      cookie against the database and that client's session;
      [reachable] is the inductive set of states reachable from
      [init_server] by any requests of any clients.
    - [Account]: the abstract specification of an account (cash,
      holdings, ledger) with [acct_buy] and [acct_sell], and the
      abstraction function [account_of] from the database.
    - [Scenario]: traces of requests ([run_trace]) and the example of
      section 8 of the specification.
    - [Concurrency]: the POST branches of [buy], [sell] and [register],
      and the portfolio page [index], as programs of atomic statements
      ([prog]: [Read] for a [SELECT], [Write] for a committed [INSERT],
      [UPDATE] or [DELETE], [Check] for the [INSERT] into [users] that the
      UNIQUE index may refuse), [buy_prog], [sell_prog], [register_prog]
      and [index_prog]; [run] executes one alone, [interleave] and
      [concurrent] execute two against one database under a schedule.

    ** The theorems

    - [Invariant]: the well-formedness [wf_db] (unique ids and names,
      owned rows, at least one share per portfolio row, at most one row
      per (username, symbol)), its executable check [wf_dbb] with
      [wf_dbb_sound], and how the handlers' reads resolve under it.
    - [TradeFacts]: each trade handler on valid input reduces to its
      guards and one composite write, whose effect on the abstract
      accounts and on [wf_db] is computed.
    - [Refinement]: [buy] and [sell] refine [acct_buy] and [acct_sell]
      (C1, C2).  [RoundTrips]: a purchase followed by the sale of the
      same shares at the same price gives the account back its cash and
      holdings, with both trades in its history (C7); [Account] proves
      the same of [acct_buy] and [acct_sell].  A fresh registration can
      be logged into with exactly the registered password (C21).
    - [Safety]: every request's database effect is one of four kinds
      ([db_change], indexed by the user logged in on the request's
      cookie), each keeps [wf_db], hence every reachable state is
      well formed (C3); [reachable_db_invariant] lifts any invariant kept
      by the four kinds to all reachable states.
    - [Ledger]: in every reachable state cash and holdings reconcile with
      the history table (C4, C5) and cash is never negative when prices
      are not (C6).
    - [Concurrency]: run alone, [buy_prog], [sell_prog] and
      [register_prog] return and write what [buy_post], [sell_post] and
      [register_post] do, so the statement-level model is the handler;
      interleaved, two purchases of one user are charged once (C8) and
      two sales of one holding, each reading the held symbols (line 217)
      and the shares (line 232) before either writes, are paid twice
      (C9), breaking the invariants C4 and C5 that every sequential run
      keeps.
    - [Isolation]: a request changes no account but that of the user
      logged in with its cookie (C10); it never deletes or renames a user
      and only appends to the history (C27).
    - [Schedules]: a purchase reaches its outcome within 6 statements on
      every input and database ([buy_prog_within], used by [ReadSkew]).
      Two registrations of one fresh name are serialized by the UNIQUE
      index under every schedule: the first INSERT wins, the other raises
      [IntegrityError], one user is added (C31).
    - [ReadSkew]: run alone before or after a purchase, the portfolio page
      shows the same grand total, the account's value at the prices paid
      ([Account.acct_value], which [acct_buy] conserves); a purchase
      committed between its two reads makes it show that value minus the
      price (C32).
    - [Locality], [LocalTrades]: the statements of [buy_prog], [sell_prog]
      and [index_prog] are local to the user of the session
      ([Locality.local]): reads see only the user's rows, writes change
      only them (the DELETE of zero-share rows aside, which no view
      shows).  Two requests (purchase, sale, portfolio page) of different
      users, under any schedule, each end as alone, with each user's rows
      those its request leaves alone and every other user's untouched
      (C11): the races of C8, C9 and C32 need one user.
    - [Statuses]: every response has one of eight statuses, 302 exactly
      for the handlers' redirects and 308 exactly for the slash-merging
      redirect, and each keeps its [Location] header (C28).
    - [Sessions]: only a [POST /login] with a registered username and a
      verified password authenticates a client (C12).
    - [ViewFacts]: the portfolio and history pages show the abstract
      account (C13), and the sale form offers exactly the held symbols.
      [AuthFacts]: registration and login on every branch (C15 to C20).
      [Responses]: whole requests through [serve]: the login guard (C14),
      logout (C22), routing errors, including the 308 redirect to the
      slash-merged path (C23), the no-cache headers (C24), the two
      uncaught exceptions that answer 500 where the specification expects
      a refusal (C25, C26), the refusals of invalid trade input (C29),
      and HEAD behaving as GET (C30).
    - Supporting facts that are not claims of their own: [PyInt] proves
      that [int] reads back what [str] prints and returns less than
      [10 ^ k] in absolute value from [k] characters; [Scenario] runs the
      example of section 8 of the specification through [serve];
      [FloatMoney] shows that in binary64 ten purchases costing exactly
      1.00 leave 9998.999999999996 of 10000.00, after which a purchase of
      9999.00 is refused.

    ** Choices of the model

    - Money is an exact integer number of dollars ([Z]), as in the
      example of the specification (a balance of 10000, prices of 150 and
      200); the source uses Python floats.  The theorems on cash are
      exact statements about the arithmetic the code performs when
      prices are whole dollars.  [FloatMoney] models the cash lines in
      binary64 (Rocq's primitive floats round as Python's do) and shows
      the drift the exact model leaves out.
    - No definition uses fuel except [digits_of] (the printer [str]),
      whose fuel [Z.log2 n + 2] exceeds the number of decimal digits of
      [n]; the round-trip lemma holds for every integer.  Every other
      definition is structural, so the witnesses evaluate by
      [vm_compute].  The only bound is that of [Schedules.within]: a
      purchase takes at most 6 statements, the count of its [SELECT]s and
      writes on its longest branch.
    - The schema of [finance.db] is not in the repository's sources; it
      is modelled from the specification (autoincrement id, default cash
      10000, unique username).
    - Line 206 passes the username and the hash as one tuple for two [?]
      placeholders; [exec_insert_user] binds them to the two placeholders,
      which is the evident intent.  Whether the call does so depends on
      the version of the CS50 [SQL] class: one that binds a positional
      argument per placeholder raises instead; the theorems on
      registration are about the intended reading.
    - Routing follows Werkzeug 1.0 to 2.1, whose matcher redirects a path
      with repeated slashes to its merged form when only that form
      matches; the location is kept as a path, where Werkzeug makes it an
      absolute URL.

    ** Not modelled

    Template rendering and the [usd] filter: the templates and
    [helpers.py] are not among the repository's sources and the
    specification treats rendering as a black box and does not describe
    [usd], so pages are data carrying the context passed to
    [render_template].  The HTTP and JSON of [lookup] (an oracle per
    request); the hashing algorithm (an interface); session expiry and
    the Flask-Session file store; the empty body of a HEAD answer and the
    text of the [Allow] header of an OPTIONS answer (built from a Python
    set, so its order is unspecified); float rounding outside
    [FloatMoney] (the handlers and invariants use exact dollars).
    Flask's [/static] route: the repository has no static folder.  The
    matcher of Werkzeug 2.2 and later, which differs on slashes; and
    CPython's limit of 4300 digits on [int] of a string (3.11 and later),
    which the model of [int] does not impose: below that length nothing
    changes; above it CPython raises [ValueError] (answered 500) where
    the model reads the number and the handler goes on to its guards.
    [serve] runs one request at a time; the
    interleavings of [Concurrency] cover the POST branches of [buy],
    [sell] and [register] and the page [index] between two threads, not
    the other handlers ([history], [quote] and [login] read the database
    once, so any interleaving is a serial one; [logout] writes only the
    session of its cookie) nor more threads. *)

From Stdlib Require Import String List ZArith Lia Bool.
Import ListNotations.
Open Scope Z_scope.

Declare Scope fin_scope.
Delimit Scope fin_scope with fin.

(** ** Outcomes of Python code: a value or a raised exception *)

Inductive outcome (E A : Type) : Type :=
| Ok (a : A)
| Raise (e : E).
Arguments Ok {E A} a.
Arguments Raise {E A} e.

(** ** The state-and-exception monad

    A handler runs against a state (the database and the session).  Every
    [db.execute] of the source commits at once, so the effects of the
    statements executed before an exception persist: the monad returns the
    state reached at the point of the exception, not the initial one. *)

Definition st (S E A : Type) : Type := S -> outcome E A * S.

Section Monad.
Context {S E : Type}.

Definition ret {A} (a : A) : st S E A := fun s => (Ok a, s).

Definition bind {A B} (m : st S E A) (k : A -> st S E B) : st S E B :=
  fun s =>
    match m s with
    | (Ok a, s') => k a s'
    | (Raise e, s') => (Raise e, s')
    end.

Definition raise {A} (e : E) : st S E A := fun s => (Raise e, s).

Definition gets {A} (f : S -> A) : st S E A := fun s => (Ok (f s), s).

Definition modify (f : S -> S) : st S E unit := fun s => (Ok tt, f s).

(** [l[0]] in Python: the first element, or [IndexError]. *)
Definition first {A} (err : E) (l : list A) : st S E A :=
  match l with
  | a :: _ => ret a
  | [] => raise err
  end.
End Monad.

Notation "x <- m ;; k" := (bind m (fun x => k))
  (at level 61, m at next level, right associativity) : fin_scope.
Notation "m ;; k" := (bind m (fun _ => k))
  (at level 61, right associativity) : fin_scope.

(** ** Reasoning about runs

    [bind_ok] and [bind_raise] let a proof follow a handler statement by
    statement instead of unfolding it whole; [keeps P m] states that
    every run of [m] keeps the state predicate [P], with one rule per
    operation of the monad ([Sessions] uses them for the session). *)

Section Run.
Context {S E : Type}.

Lemma bind_ok {A B} (m : st S E A) (k : A -> st S E B) s a s' :
  m s = (Ok a, s') -> bind m k s = k a s'.
Proof. intros H. unfold bind. rewrite H. reflexivity. Qed.

Lemma bind_raise {A B} (m : st S E A) (k : A -> st S E B) s e s' :
  m s = (Raise e, s') -> bind m k s = (Raise e, s').
Proof. intros H. unfold bind. rewrite H. reflexivity. Qed.

(** A state predicate [P] is kept by [m] when every run of [m] from a
    state satisfying [P], normal or exceptional, ends in a state
    satisfying [P]. *)
Definition keeps (P : S -> Prop) {A} (m : st S E A) : Prop :=
  forall s, P s -> P (snd (m s)).

Lemma keeps_ret P {A} (a : A) : keeps P (ret a).
Proof. intros s H. exact H. Qed.

Lemma keeps_raise P {A} (e : E) : keeps P (@raise S E A e).
Proof. intros s H. exact H. Qed.

Lemma keeps_gets P {A} (f : S -> A) : keeps P (gets f).
Proof. intros s H. exact H. Qed.

Lemma keeps_first P {A} (e : E) (l : list A) : keeps P (first e l).
Proof. destruct l; intros s H; exact H. Qed.

Lemma keeps_bind P {A B} (m : st S E A) (k : A -> st S E B) :
  keeps P m -> (forall a, keeps P (k a)) -> keeps P (bind m k).
Proof.
  intros Hm Hk s Hs. unfold bind.
  specialize (Hm s Hs). destruct (m s) as [[a|e] s']; simpl in *; auto.
  apply Hk; exact Hm.
Qed.

(** [m] yields values satisfying [Q]: every normal run of [m] returns a
    value satisfying [Q] (raised exceptions are left to the caller). *)
Definition yields {A} (Q : A -> Prop) (m : st S E A) : Prop :=
  forall s, match fst (m s) with
            | Ok a => Q a
            | Raise _ => True
            end.

Lemma yields_ret {A} (Q : A -> Prop) a : Q a -> yields Q (ret a).
Proof. intros H s. exact H. Qed.

Lemma yields_raise {A} (Q : A -> Prop) (e : E) : yields Q (raise e).
Proof. intros s. exact I. Qed.

Lemma yields_bind {A B} (Q : B -> Prop) (m : st S E A) (k : A -> st S E B) :
  (forall a, yields Q (k a)) -> yields Q (bind m k).
Proof.
  intros Hk s. unfold bind. destruct (m s) as [[a|e] s']; [apply Hk | exact I].
Qed.
End Run.

Create HintDb finance discriminated.
Create Rewrite HintDb finance_rw.
#[export] Hint Resolve keeps_ret keeps_raise keeps_gets keeps_first keeps_bind : finance.

(** ** Sums over lists *)

Section Sums.
Context {A : Type}.

Definition sumZ (f : A -> Z) (l : list A) : Z :=
  fold_right (fun a acc => f a + acc) 0 l.

Lemma sumZ_app f l1 l2 : sumZ f (l1 ++ l2) = sumZ f l1 + sumZ f l2.
Proof. induction l1 as [|a l1 IH]; simpl; [reflexivity | rewrite IH; lia]. Qed.

Lemma sumZ_ext f g l : (forall a, In a l -> f a = g a) -> sumZ f l = sumZ g l.
Proof.
  induction l as [|a l IH]; intros H; simpl; [reflexivity|].
  rewrite H by (left; reflexivity). rewrite IH; auto using in_cons.
Qed.

Lemma sumZ_filter f (p : A -> bool) l :
  sumZ f (filter p l) = sumZ (fun a => if p a then f a else 0) l.
Proof. induction l as [|a l IH]; simpl; [|destruct (p a); simpl]; lia. Qed.

Lemma sumZ_nonneg f l : (forall a, In a l -> 0 <= f a) -> 0 <= sumZ f l.
Proof.
  induction l as [|a l IH]; intros H; simpl; [lia|].
  pose proof (H a (or_introl eq_refl)). pose proof (IH (fun b Hb => H b (or_intror Hb))). lia.
Qed.
End Sums.

#[export] Hint Rewrite @sumZ_app : finance_rw.

(** ** Lists: keys, filters and maps *)

Section Lists.
Context {A B : Type}.

(** A key that is unique in a list identifies the element. *)
Lemma nodup_map_eq (f : A -> B) l x y :
  NoDup (map f l) -> In x l -> In y l -> f x = f y -> x = y.
Proof.
  induction l as [|a l IH]; simpl; intros Hnd Hx Hy Hf; [contradiction|].
  inversion Hnd as [|? ? Hnotin Hnd']; subst.
  destruct Hx as [<-|Hx], Hy as [<-|Hy]; auto.
  - exfalso. apply Hnotin. rewrite Hf. apply in_map. exact Hy.
  - exfalso. apply Hnotin. rewrite <- Hf. apply in_map. exact Hx.
Qed.

(** Selecting by a unique key gives no element or exactly one. *)
Lemma filter_unique (f : A -> B) (p : A -> bool) l k :
  NoDup (map f l) -> (forall y, p y = true <-> f y = k) ->
  filter p l = [] \/ exists x, filter p l = [x] /\ In x l /\ f x = k.
Proof.
  intros Hnd Hp. destruct (filter p l) as [|x [|y r]] eqn:E; [left; reflexivity| |].
  - right. exists x. assert (Hx : In x (filter p l)) by (rewrite E; left; reflexivity).
    apply filter_In in Hx as [Hx Hpx]. apply Hp in Hpx. auto.
  - exfalso.
    assert (Hx : In x (filter p l)) by (rewrite E; left; reflexivity).
    assert (Hy : In y (filter p l)) by (rewrite E; right; left; reflexivity).
    apply filter_In in Hx as [Hx Hpx], Hy as [Hy Hpy]. apply Hp in Hpx, Hpy.
    assert (x = y) as <- by (apply (nodup_map_eq f l); congruence).
    assert (Hnd' : NoDup (filter p l)) by (apply NoDup_filter, (NoDup_map_inv f), Hnd).
    rewrite E in Hnd'. inversion Hnd'. simpl in *. tauto.
Qed.

(** A map that changes only elements the filter drops, and keeps the
    filter's verdict, is invisible through the filter. *)
Lemma filter_map_same (p : A -> bool) (g : A -> A) l :
  (forall x, In x l -> p x = true -> g x = x) -> (forall x, p (g x) = p x) ->
  filter p (map g l) = filter p l.
Proof.
  intros Hid Hp. induction l as [|a l IH]; simpl; [reflexivity|].
  rewrite Hp. destruct (p a) eqn:Ha.
  - rewrite Hid by (simpl; auto). f_equal. apply IH. intros; apply Hid; simpl; auto.
  - apply IH. intros; apply Hid; simpl; auto.
Qed.

Lemma filter_none (p : A -> bool) l : (forall x, In x l -> p x = false) -> filter p l = [].
Proof.
  induction l as [|x l IH]; simpl; intros H; [reflexivity|].
  rewrite H by auto. apply IH. auto.
Qed.

Lemma map_id_on (g : A -> A) l : (forall x, In x l -> g x = x) -> map g l = l.
Proof.
  induction l as [|x l IH]; simpl; intros H; [reflexivity|].
  rewrite H, IH; auto.
Qed.

(** Filtering first by a weaker test changes nothing. *)
Lemma filter_weaker (p q : A -> bool) l :
  (forall x, p x = true -> q x = true) -> filter p (filter q l) = filter p l.
Proof.
  intros H. induction l as [|x l IH]; simpl; [reflexivity|].
  destruct (q x) eqn:Hq; simpl; [destruct (p x); rewrite IH; reflexivity|].
  destruct (p x) eqn:Hp; [rewrite (H x Hp) in Hq; discriminate | exact IH].
Qed.

Lemma filter_comm (p q : A -> bool) l : filter p (filter q l) = filter q (filter p l).
Proof.
  induction l as [|a l IH]; simpl; [reflexivity|].
  destruct (q a) eqn:Hq, (p a) eqn:Hp; simpl; rewrite ?Hq, ?Hp, IH; reflexivity.
Qed.

Lemma filter_all (p : A -> bool) l : (forall x, In x l -> p x = true) -> filter p l = l.
Proof.
  induction l as [|a l IH]; intros H; simpl; [reflexivity|].
  rewrite H by (left; reflexivity). f_equal. apply IH. intros; apply H; right; assumption.
Qed.

Lemma existsb_false_filter (p : A -> bool) l : filter p l = [] -> existsb p l = false.
Proof.
  induction l as [|a l IH]; simpl; [reflexivity|].
  destruct (p a); [discriminate | exact IH].
Qed.

(** Updating the elements that satisfy [p] changes nothing when none does. *)
Lemma map_update_none (p : A -> bool) (g : A -> A) l :
  existsb p l = false -> map (fun x => if p x then g x else x) l = l.
Proof.
  induction l as [|a l IH]; simpl; [reflexivity|].
  destruct (p a); [discriminate|]. intros H. f_equal. exact (IH H).
Qed.

Lemma nodup_map_filter (f : A -> B) (p : A -> bool) l :
  NoDup (map f l) -> NoDup (map f (filter p l)).
Proof.
  induction l as [|a l IH]; simpl; intros Hnd; [constructor|].
  inversion Hnd as [|? ? Hnotin Hnd']; subst. destruct (p a); simpl; auto.
  constructor; auto. intros (x & Hx & Hin)%in_map_iff. apply filter_In in Hin as [Hin _].
  apply Hnotin. rewrite <- Hx. apply in_map. exact Hin.
Qed.

Lemma find_filter_head (p : A -> bool) l x r : filter p l = x :: r -> find p l = Some x.
Proof.
  induction l as [|a l IH]; simpl; [discriminate|].
  destruct (p a); [intros H; inversion H; reflexivity | exact IH].
Qed.

(** Mapping, filtering and mapping again, when the two sides agree
    element by element. *)
Lemma map_filter_map (f : A -> B) (g : A -> A) (h : B -> B) (p : A -> bool) (q : B -> bool) l :
  (forall x, In x l -> f (g x) = h (f x)) -> (forall x, In x l -> p (g x) = q (h (f x))) ->
  map f (filter p (map g l)) = filter q (map h (map f l)).
Proof.
  induction l as [|a l IH]; intros Hf Hp; simpl; [reflexivity|].
  rewrite Hp by (left; reflexivity).
  assert (IH' : map f (filter p (map g l)) = filter q (map h (map f l)))
    by (apply IH; intros; [apply Hf | apply Hp]; right; assumption).
  destruct (q (h (f a))); simpl; rewrite ?IH', ?Hf by (left; reflexivity); reflexivity.
Qed.

Lemma nodup_map_snoc (f : A -> B) l x :
  NoDup (map f l) -> ~ In (f x) (map f l) -> NoDup (map f (l ++ [x])).
Proof.
  intros Hnd Hx. rewrite map_app. apply NoDup_app; auto.
  - constructor; [intros []|constructor].
  - intros a Ha [<-|[]]. contradiction.
Qed.
End Lists.

(** ** Executable duplicate-freedom *)

Section NoDupb.
Context {A : Type} (eqb : A -> A -> bool).
Hypothesis eqb_spec : forall x y, eqb x y = true <-> x = y.

Fixpoint nodupb (l : list A) : bool :=
  match l with
  | [] => true
  | x :: r => negb (existsb (eqb x) r) && nodupb r
  end.

Lemma nodupb_sound l : nodupb l = true -> NoDup l.
Proof.
  induction l as [|x r IH]; simpl; intros H; [constructor|].
  apply andb_true_iff in H as [Hx Hr]. constructor; auto.
  intros Hin. apply negb_true_iff in Hx.
  assert (existsb (eqb x) r = true) by
    (apply existsb_exists; exists x; split; [exact Hin | apply eqb_spec; reflexivity]).
  congruence.
Qed.
End NoDupb.

Definition pair_eqb (p1 p2 : string * string) : bool :=
  String.eqb (fst p1) (fst p2) && String.eqb (snd p1) (snd p2).

Lemma pair_eqb_spec p1 p2 : pair_eqb p1 p2 = true <-> p1 = p2.
Proof.
  destruct p1 as [a b], p2 as [c d']. unfold pair_eqb. simpl.
  rewrite andb_true_iff, !String.eqb_eq. split; [intros [-> ->]; reflexivity | intros H; inversion H; auto].
Qed.

(** ** Strings: decidable equality as a boolean test *)

Lemma string_eqb_refl s : String.eqb s s = true.
Proof. apply String.eqb_refl. Qed.

Lemma string_eqb_sym s t : String.eqb s t = String.eqb t s.
Proof. apply String.eqb_sym. Qed.

#[export] Hint Rewrite string_eqb_refl : finance_rw.

(** [destruct_eqb] splits on the string and integer equality tests of a
    goal, replacing each with the equation or disequation it decides. *)
Ltac destruct_eqb :=
  repeat match goal with
  | |- context [String.eqb ?a ?b] =>
      let E := fresh "E" in
      destruct (String.eqb_spec a b) as [E|E]; [subst|]
  | |- context [Z.eqb ?a ?b] =>
      let E := fresh "E" in
      destruct (Z.eqb_spec a b) as [E|E]; [subst|]
  end.
