(* ===== verification/PyInt.v ===== *)
(** * PyInt: Python's [int(s)] on the text of a form field

    [buy] (line 64) and [sell] (line 223) convert the [shares] field with
    [int(request.form.get("shares"))].  This file models the built-in on
    ASCII text in base 10: surrounding whitespace is stripped, one sign
    [+] or [-] may lead, and the digits may be grouped by single
    underscores between digits; anything else raises [ValueError].
    Leading zeros are accepted, as [int] accepts them from a string.
    [py_str] is [str(n)] on integers, and the round-trip theorem states
    that [int(str(n)) = n]. *)

From Stdlib Require Import String Ascii List ZArith Lia Bool.
From S2P Require Import Prelude.
Import ListNotations.
Open Scope Z_scope.

(** ** Characters *)

(** The ASCII characters [str.isspace] accepts: tab to carriage return,
    the four separators 28-31 and the space. *)
Definition is_space (c : ascii) : bool :=
  let n := nat_of_ascii c in
  (Nat.leb 9 n && Nat.leb n 13) || (Nat.leb 28 n && Nat.leb n 32).

Definition digit_val (c : ascii) : option Z :=
  let n := nat_of_ascii c in
  if Nat.leb 48 n && Nat.leb n 57 then Some (Z.of_nat n - 48) else None.

Definition underscore : ascii := "_"%char.
Definition minus_sign : ascii := "-"%char.
Definition plus_sign : ascii := "+"%char.

(** ** Parsing *)

Fixpoint lstrip (l : list ascii) : list ascii :=
  match l with
  | c :: l' => if is_space c then lstrip l' else l
  | [] => []
  end.

Definition strip (l : list ascii) : list ascii := rev (lstrip (rev (lstrip l))).

(** [parse_digits acc after_digit l] reads the digits of [l] into the
    accumulator; [after_digit] records that the previous character was
    a digit, which an underscore and the end of the text require. *)
Fixpoint parse_digits (acc : Z) (after_digit : bool) (l : list ascii) : option Z :=
  match l with
  | [] => if after_digit then Some acc else None
  | c :: l' =>
      match digit_val c with
      | Some d => parse_digits (acc * 10 + d) true l'
      | None =>
          if Ascii.eqb c underscore && after_digit
          then parse_digits acc false l'
          else None
      end
  end.

(** [int(s)]: [None] is the [ValueError]. *)
Definition py_int (s : string) : option Z :=
  match strip (list_ascii_of_string s) with
  | c :: r =>
      if Ascii.eqb c minus_sign then option_map Z.opp (parse_digits 0 false r)
      else if Ascii.eqb c plus_sign then parse_digits 0 false r
      else parse_digits 0 false (c :: r)
  | [] => None
  end.

(** ** Printing: [str(n)] *)

Definition digit_char (d : Z) : ascii := ascii_of_nat (48 + Z.to_nat d).

(** The decimal digits of [n], most significant first, before [acc]. *)
Fixpoint digits_of (fuel : nat) (n : Z) (acc : list ascii) : list ascii :=
  match fuel with
  | O => acc
  | S fuel' =>
      if n <? 10 then digit_char n :: acc
      else digits_of fuel' (n / 10) (digit_char (n mod 10) :: acc)
  end.

(** [Z.log2 n + 2] steps suffice: each step divides by ten. *)
Definition nat_digits (n : Z) : list ascii := digits_of (S (Z.to_nat (Z.log2 n + 1))) n [].

Definition py_str (n : Z) : string :=
  string_of_list_ascii (if n <? 0 then minus_sign :: nat_digits (- n) else nat_digits n).

(** ** Lemmas *)

Definition is_digit (c : ascii) : Prop := exists d, digit_val c = Some d.

Lemma digit_val_char d : 0 <= d < 10 -> digit_val (digit_char d) = Some d.
Proof.
  intros Hd. assert (d = 0 \/ d = 1 \/ d = 2 \/ d = 3 \/ d = 4 \/ d = 5 \/ d = 6 \/ d = 7 \/ d = 8 \/ d = 9)
    as Hc by lia.
  repeat destruct Hc as [-> | Hc]; [reflexivity ..|]. subst. reflexivity.
Qed.

Lemma digit_not_space c : is_digit c -> is_space c = false.
Proof.
  intros [d Hd]. unfold digit_val in Hd. unfold is_space.
  destruct (Nat.leb_spec 48 (nat_of_ascii c)); [|discriminate].
  destruct (Nat.leb_spec 9 (nat_of_ascii c)), (Nat.leb_spec (nat_of_ascii c) 13),
           (Nat.leb_spec 28 (nat_of_ascii c)), (Nat.leb_spec (nat_of_ascii c) 32); simpl; lia.
Qed.

Lemma lstrip_id l : Forall (fun c => is_space c = false) l -> lstrip l = l.
Proof. intros [|c l' Hc _]; [reflexivity|]. simpl. rewrite Hc. reflexivity. Qed.

Lemma strip_id l : Forall (fun c => is_space c = false) l -> strip l = l.
Proof.
  intros Hl. unfold strip. rewrite (lstrip_id l Hl), (lstrip_id (rev l) (Forall_rev Hl)).
  apply rev_involutive.
Qed.

Section Digits.
Variable (acc : list ascii).

Lemma digits_of_digits f n :
  Forall is_digit acc -> 0 <= n -> Forall is_digit (digits_of f n acc).
Proof.
  revert n acc. induction f as [|f IH]; intros n l Hl Hn; simpl; [exact Hl|].
  destruct (Z.ltb_spec n 10).
  - constructor; [exists n; apply digit_val_char; lia | exact Hl].
  - apply IH; [constructor; [exists (n mod 10); apply digit_val_char, Z.mod_pos_bound; lia | exact Hl]|].
    apply Z.div_pos; lia.
Qed.

Lemma parse_digits_of f n :
  0 <= n < 2 ^ Z.of_nat f ->
  exists k, forall a b,
    parse_digits a b (digits_of (S f) n acc) = parse_digits (a * 10 ^ Z.of_nat k + n) true acc.
Proof.
  revert n acc. induction f as [|f IH]; intros n l Hn.
  - assert (n = 0) as -> by (simpl in Hn; lia). exists 1%nat. intros a b. reflexivity.
  - cbn [digits_of]. destruct (Z.ltb_spec n 10).
    + exists 1%nat. intros a b. cbn [parse_digits]. rewrite digit_val_char by lia. f_equal; lia.
    + destruct (IH (n / 10) (digit_char (n mod 10) :: l)) as [k Hk].
      { split; [apply Z.div_pos; lia|]. apply Z.div_lt_upper_bound; [lia|].
        rewrite Nat2Z.inj_succ, Z.pow_succ_r in Hn by lia. lia. }
      exists (S k). intros a b. rewrite Hk. cbn [parse_digits]. rewrite digit_val_char by (apply Z.mod_pos_bound; lia).
      f_equal. rewrite Nat2Z.inj_succ, Z.pow_succ_r by lia.
      pose proof (Z.div_mod n 10). rewrite Z.mul_assoc. lia.
Qed.
End Digits.

Lemma nat_digits_parse n : 0 <= n -> parse_digits 0 false (nat_digits n) = Some n.
Proof.
  intros Hn. unfold nat_digits.
  destruct (parse_digits_of [] (Z.to_nat (Z.log2 n + 1)) n) as [k Hk].
  - split; [exact Hn|]. rewrite Z2Nat.id by (pose proof (Z.log2_nonneg n); lia).
    destruct (Z.eq_dec n 0) as [-> | Hn0]; [reflexivity|].
    rewrite Z.add_1_r. apply Z.log2_spec. lia.
  - rewrite Hk. reflexivity.
Qed.

Lemma nat_digits_digits n : 0 <= n -> Forall is_digit (nat_digits n).
Proof. intros Hn. apply digits_of_digits; auto. Qed.

Lemma not_digit_sign c : is_digit c -> Ascii.eqb c minus_sign = false /\ Ascii.eqb c plus_sign = false.
Proof.
  intros [d Hd]. split;
    [destruct (Ascii.eqb_spec c minus_sign) as [->|] | destruct (Ascii.eqb_spec c plus_sign) as [->|]];
    try reflexivity; vm_compute in Hd; discriminate.
Qed.

(** [int] reads back the decimal text [str] prints: for every integer
    [n], [int(str(n)) = n]. *)
Theorem py_int_py_str n : py_int (py_str n) = Some n.
Proof.
  unfold py_int, py_str. rewrite list_ascii_of_string_of_list_ascii.
  pose proof (nat_digits_parse (Z.abs n) (Z.abs_nonneg n)) as Hp.
  pose proof (nat_digits_digits (Z.abs n) (Z.abs_nonneg n)) as Hd.
  assert (Hs : Forall (fun c => is_space c = false) (nat_digits (Z.abs n)))
    by (eapply Forall_impl; [exact digit_not_space | exact Hd]).
  destruct (Z.ltb_spec n 0).
  - rewrite Z.abs_neq in Hp, Hs by lia. rewrite strip_id by (constructor; [reflexivity | exact Hs]).
    simpl. rewrite Hp. simpl. f_equal. lia.
  - rewrite Z.abs_eq in Hp, Hd, Hs by lia. rewrite strip_id by exact Hs.
    destruct (nat_digits n) as [|c r]; [discriminate|].
    inversion Hd as [|? ? Hc _]; subst. destruct (not_digit_sign c Hc) as [-> ->]. exact Hp.
Qed.

(** ** Bounds: the width of what [int] returns *)

Lemma digit_val_range c d : digit_val c = Some d -> 0 <= d <= 9.
Proof.
  unfold digit_val. destruct (Nat.leb_spec 48 (nat_of_ascii c)) as [H1|H1], (Nat.leb_spec (nat_of_ascii c) 57) as [H2|H2];
    cbn; intros Hd; try discriminate. injection Hd as <-. lia.
Qed.

(** Reading [l] onto the accumulator [acc] multiplies it by at most
    [10 ^ length l]. *)
Lemma parse_digits_bound l : forall acc b n,
  0 <= acc -> parse_digits acc b l = Some n -> 0 <= n < (acc + 1) * 10 ^ Z.of_nat (length l).
Proof.
  induction l as [|c l IH]; intros acc b n Hacc; cbn [parse_digits length].
  - destruct b; [|discriminate]. intros H. injection H as <-. cbn. lia.
  - rewrite Nat2Z.inj_succ, Z.pow_succ_r by lia.
    destruct (digit_val c) as [d|] eqn:Hd.
    + intros H. pose proof (digit_val_range c d Hd).
      specialize (IH (acc * 10 + d) true n ltac:(lia) H).
      pose proof (Z.pow_pos_nonneg 10 (Z.of_nat (length l)) ltac:(lia) ltac:(lia)). nia.
    + destruct (Ascii.eqb c underscore && b); [|discriminate]. intros H.
      specialize (IH acc false n Hacc H).
      pose proof (Z.pow_pos_nonneg 10 (Z.of_nat (length l)) ltac:(lia) ltac:(lia)). nia.
Qed.

Lemma lstrip_length l : (length (lstrip l) <= length l)%nat.
Proof. induction l as [|c l IH]; cbn; [lia|]. destruct (is_space c); cbn; lia. Qed.

Lemma strip_length l : (length (strip l) <= length l)%nat.
Proof.
  unfold strip. rewrite length_rev. etransitivity; [apply lstrip_length|].
  rewrite length_rev. apply lstrip_length.
Qed.

Lemma length_list_ascii s : length (list_ascii_of_string s) = String.length s.
Proof. induction s as [|c s IH]; cbn; congruence. Qed.

(** The integer [int] reads from a text of [k] characters is below
    [10 ^ k] in absolute value; so a shares field of at most 18
    characters always fits the 64-bit INTEGER columns of SQLite. *)
Theorem py_int_bounds s n :
  py_int s = Some n ->
  Z.abs n < 10 ^ Z.of_nat (String.length s) /\
  ((String.length s <= 18)%nat -> - 2 ^ 63 <= n < 2 ^ 63).
Proof.
  intros Hn.
  assert (Hb : Z.abs n < 10 ^ Z.of_nat (String.length s)).
  { unfold py_int in Hn. pose proof (strip_length (list_ascii_of_string s)) as Hl.
    rewrite length_list_ascii in Hl.
    destruct (strip (list_ascii_of_string s)) as [|c r]; [discriminate|]. cbn [length] in Hl.
    assert (Hpow : forall k, (k <= String.length s)%nat -> 10 ^ Z.of_nat k <= 10 ^ Z.of_nat (String.length s))
      by (intros k Hk; apply Z.pow_le_mono_r; lia).
    destruct (Ascii.eqb c minus_sign); [|destruct (Ascii.eqb c plus_sign)].
    - destruct (parse_digits 0 false r) as [m|] eqn:Hm; [|discriminate]. injection Hn as <-.
      apply parse_digits_bound in Hm; [|lia]. specialize (Hpow (length r) ltac:(lia)). lia.
    - apply parse_digits_bound in Hn; [|lia]. specialize (Hpow (length r) ltac:(lia)). lia.
    - apply parse_digits_bound in Hn; [|lia]. specialize (Hpow (length (c :: r)) ltac:(cbn; lia)). lia. }
  split; [exact Hb|]. intros Hk.
  assert (10 ^ Z.of_nat (String.length s) <= 10 ^ 18) by (apply Z.pow_le_mono_r; lia).
  assert (10 ^ 18 < 2 ^ 63) by reflexivity. lia.
Qed.

