(* ===== verification/Db.v ===== *)
(** * Db: the tables of [finance.db] and the SQL statements of the handlers

    The three tables of the schema (users, portfolio, history) are lists
    of records in insertion order, which is the order in which SQLite
    returns rows of a table without [ORDER BY] and without deletions in
    between.  Every [db.execute] of [src/finance/application.py] is one
    definition here: a [SELECT] is a function returning the list of rows
    (or the value of an aggregate), an [INSERT], [UPDATE] or [DELETE] a
    function from database to database.  Text comparison is SQLite's
    default binary collation, i.e. [String.eqb]; a comparison with the
    [NULL] of an empty scalar subquery is never true. *)

From Stdlib Require Import String List ZArith Lia Bool.
From S2P Require Import Prelude.
Import ListNotations.
Open Scope Z_scope.

(** ** Rows and tables *)

(** [users(id, username, hash, cash)] *)
Record user_row := mk_user {
  u_id : Z;
  u_username : string;
  u_hash : string;
  u_cash : Z
}.

(** [portfolio(username, symbol, name, shares, price, total)] *)
Record portfolio_row := mk_prow {
  p_username : string;
  p_symbol : string;
  p_name : string;
  p_shares : Z;
  p_price : Z;
  p_total : Z
}.

(** [history(symbol, shares, price, username)]; the implicit timestamp
    is the position in the list. *)
Record history_row := mk_hrow {
  h_symbol : string;
  h_shares : Z;
  h_price : Z;
  h_username : string
}.

Record db := mk_db {
  users : list user_row;
  portfolio : list portfolio_row;
  history : list history_row
}.

(** The default value of the [cash] column, the balance of a new user. *)
Definition default_cash : Z := 10000.

Definition empty_db : db := mk_db [] [] [].

(** ** Scalar subqueries and SQL equality *)

Definition user_has_id (uid : Z) (u : user_row) : bool := Z.eqb (u_id u) uid.

(** [(SELECT username FROM users WHERE id = ?)]: the first row, or NULL. *)
Definition username_of_id (d : db) (uid : Z) : option string :=
  match filter (user_has_id uid) (users d) with
  | u :: _ => Some (u_username u)
  | [] => None
  end.

(** [x = (subquery)]: false when the subquery is NULL. *)
Definition sql_eq_opt (x : string) (o : option string) : bool :=
  match o with
  | Some y => String.eqb x y
  | None => false
  end.

Definition row_key (name sym : string) (r : portfolio_row) : bool :=
  String.eqb (p_username r) name && String.eqb (p_symbol r) sym.

(** ** SELECT statements *)

(** [SELECT * FROM portfolio WHERE username = (SELECT username FROM users WHERE id = ?)] *)
Definition select_portfolio (d : db) (uid : Z) : list portfolio_row :=
  filter (fun r => sql_eq_opt (p_username r) (username_of_id d uid)) (portfolio d).

(** [SELECT cash FROM users WHERE id = ?] *)
Definition select_cash (d : db) (uid : Z) : list Z :=
  map u_cash (filter (user_has_id uid) (users d)).

(** [SELECT username FROM users WHERE id = ?] *)
Definition select_username (d : db) (uid : Z) : list string :=
  map u_username (filter (user_has_id uid) (users d)).

(** [SELECT SUM(shares) FROM portfolio WHERE username = ? AND symbol = ?]:
    NULL ([None]) when no row matches. *)
Definition sum_shares (name sym : string) (d : db) : option Z :=
  match filter (row_key name sym) (portfolio d) with
  | [] => None
  | rows => Some (sumZ p_shares rows)
  end.

(** [SELECT * FROM history WHERE username = (SELECT username FROM users WHERE id = ?)] *)
Definition select_history (d : db) (uid : Z) : list history_row :=
  filter (fun h => sql_eq_opt (h_username h) (username_of_id d uid)) (history d).

(** [SELECT * FROM users WHERE username = :username] *)
Definition select_users_by_username (d : db) (name : string) : list user_row :=
  filter (fun u => String.eqb (u_username u) name) (users d).

(** [SELECT symbol FROM portfolio WHERE username = (SELECT username ...)] *)
Definition select_symbols (d : db) (uid : Z) : list string :=
  map p_symbol (select_portfolio d uid).

(** [SELECT shares FROM portfolio WHERE username = (SELECT username ...) AND symbol = ?] *)
Definition select_shares (d : db) (uid : Z) (sym : string) : list Z :=
  map p_shares
    (filter (fun r => sql_eq_opt (p_username r) (username_of_id d uid)
                      && String.eqb (p_symbol r) sym) (portfolio d)).

(** ** INSERT, UPDATE and DELETE statements *)

(** [UPDATE users SET cash = ? WHERE id = ?] *)
Definition update_cash (c uid : Z) (d : db) : db :=
  {| users := map (fun u => if user_has_id uid u
                            then mk_user (u_id u) (u_username u) (u_hash u) c
                            else u) (users d);
     portfolio := portfolio d;
     history := history d |}.

(** [INSERT INTO history (symbol, shares, price, username) VALUES (?, ?, ?, ?)] *)
Definition insert_history (sym : string) (sh price : Z) (name : string) (d : db) : db :=
  {| users := users d;
     portfolio := portfolio d;
     history := history d ++ [mk_hrow sym sh price name] |}.

(** [INSERT INTO portfolio (username, symbol, name, shares, price, total) VALUES (...)] *)
Definition insert_portfolio (name sym nm : string) (sh price total : Z) (d : db) : db :=
  {| users := users d;
     portfolio := portfolio d ++ [mk_prow name sym nm sh price total];
     history := history d |}.

Definition set_row (sh total : Z) (r : portfolio_row) : portfolio_row :=
  mk_prow (p_username r) (p_symbol r) (p_name r) sh (p_price r) total.

(** [UPDATE portfolio SET shares = ?, total = total + ? WHERE symbol = ? AND username = ?] *)
Definition update_portfolio_add (sh t : Z) (sym name : string) (d : db) : db :=
  {| users := users d;
     portfolio := map (fun r => if row_key name sym r then set_row sh (p_total r + t) r else r)
                      (portfolio d);
     history := history d |}.

(** [UPDATE portfolio SET shares = ?, total = total - ? WHERE symbol = ? AND username = ?] *)
Definition update_portfolio_sub (sh t : Z) (sym name : string) (d : db) : db :=
  {| users := users d;
     portfolio := map (fun r => if row_key name sym r then set_row sh (p_total r - t) r else r)
                      (portfolio d);
     history := history d |}.

(** [DELETE FROM portfolio WHERE shares = 0]: the rows of every user. *)
Definition delete_zero_shares (d : db) : db :=
  {| users := users d;
     portfolio := filter (fun r => negb (Z.eqb (p_shares r) 0)) (portfolio d);
     history := history d |}.

(** [INSERT INTO users (username, hash) VALUES (?, ?)].  The schema is not
    part of the repository's sources; as the CS50 schema has it, [id] is an
    [INTEGER PRIMARY KEY] (the next id is one more than the largest),
    [cash] defaults to [default_cash], and [username] has a UNIQUE index,
    whose violation makes the statement fail ([None]). *)
Definition next_id (d : db) : Z :=
  fold_right (fun u m => Z.max (u_id u) m) 0 (users d) + 1.

Definition insert_user (name hash : string) (d : db) : option db :=
  if existsb (fun u => String.eqb (u_username u) name) (users d) then None
  else Some {| users := users d ++ [mk_user (next_id d) name hash default_cash];
               portfolio := portfolio d;
               history := history d |}.
