(* ===== verification/Http.v ===== *)
(** * Http: requests, responses, the session and the handler monad

    What the Flask and Werkzeug layers give the handlers of
    [src/finance/application.py]: the form of a request, the session
    (a dictionary of which only ["user_id"] is used), the responses
    ([render_template], [redirect], [apology]), the exceptions a handler
    can raise, [errorhandler] (lines 265-274), [after_request]
    (lines 19-24) and the [login_required] decorator of [helpers.py].
    The world a handler runs in is the database with the session; the
    handler monad [M] is the state-and-exception monad of the prelude
    over it. *)

From Stdlib Require Import String List ZArith Lia Bool.
From S2P Require Import Prelude Db.
Import ListNotations.
Open Scope string_scope.
Open Scope list_scope.
Open Scope Z_scope.
Open Scope fin_scope.

(** ** Exceptions a handler can raise *)

Inductive exn : Type :=
| NotFound             (** werkzeug [NotFound]: no route matches *)
| MethodNotAllowed     (** werkzeug [MethodNotAllowed] *)
| IndexError           (** [rows[0]] on an empty result *)
| TypeError            (** [int(None)], [None - n], [lookup(None)] *)
| ValueError           (** [int("abc")] *)
| IntegrityError.      (** a violated UNIQUE constraint *)

(** The werkzeug [HTTPException]s the handler sees; line 268 replaces
    every other exception by [InternalServerError()]. *)
Inductive http_exception : Type :=
| HNotFound
| HMethodNotAllowed
| HInternalServerError.

Definition as_http_exception (e : exn) : http_exception :=
  match e with
  | NotFound => HNotFound
  | MethodNotAllowed => HMethodNotAllowed
  | _ => HInternalServerError
  end.

Definition http_name (h : http_exception) : string :=
  match h with
  | HNotFound => "Not Found"
  | HMethodNotAllowed => "Method Not Allowed"
  | HInternalServerError => "Internal Server Error"
  end.

Definition http_code (h : http_exception) : Z :=
  match h with
  | HNotFound => 404
  | HMethodNotAllowed => 405
  | HInternalServerError => 500
  end.

(** ** Quotes: what [lookup] of [helpers.py] returns *)

Record quote := mk_quote {
  q_name : string;
  q_price : Z;
  q_symbol : string
}.

(** ** Pages and responses *)

Inductive page : Type :=
| PIndex (total cash : Z) (rows : list portfolio_row)  (** index.html *)
| PBuyForm                                           (** buy.html *)
| PHistory (rows : list history_row)                 (** history.html *)
| PLoginForm                                         (** login.html *)
| PQuoteForm                                         (** quote.html *)
| PQuoted (q : quote)                                (** quoted.html *)
| PRegisterForm                                      (** register.html *)
| PRegistered                                        (** registered.html *)
| PSellForm (symbols : list string)                  (** sell.html *)
| PApology (message : string) (code : Z).            (** apology.html *)

(** The method of a request; HEAD, OPTIONS and the others by name. *)
Inductive meth : Type := GET | POST | OtherMethod (name : string).

(** A response: a rendered page, a [redirect], or the answer Flask gives
    by itself to [OPTIONS] (status 200, an empty body and an [Allow]
    header listing [allow]; Werkzeug builds that header from a Python
    set, so the order of its text is unspecified and is not modelled).
    [Moved] is Werkzeug's [RequestRedirect]: status 308 and a [Location]
    header (Werkzeug makes it an absolute URL on the request's host; the
    model keeps the path). *)
Inductive response : Type :=
| Page (p : page)
| Redirect (location : string)
| Options (allow : list meth)
| Moved (location : string).

(** [apology(message, code=400)] of [helpers.py] renders apology.html
    with the given status. *)
Definition apology (message : string) (code : Z) : response :=
  Page (PApology message code).

(** [errorhandler(e)], lines 265-269. *)
Definition errorhandler (e : exn) : response :=
  let h := as_http_exception e in
  apology (http_name h) (http_code h).

(** ** HTTP responses and [after_request]

    The status of a response: the code of an apology, 302 for a redirect,
    200 for any other page.  A redirect carries its [Location] header. *)

Record http_response := mk_http {
  status : Z;
  body : response;
  headers : list (string * string)
}.

Definition to_http (r : response) : http_response :=
  match r with
  | Page (PApology _ code) => mk_http code r []
  | Page _ => mk_http 200 r []
  | Redirect loc => mk_http 302 r [("Location", loc)]
  | Options _ => mk_http 200 r []
  | Moved loc => mk_http 308 r [("Location", loc)]
  end.

(** [response.headers[k] = v]: replaces any header [k] already present. *)
Definition set_header (k v : string) (hs : list (string * string)) : list (string * string) :=
  filter (fun kv => negb (String.eqb (fst kv) k)) hs ++ [(k, v)].

(** [after_request(response)], lines 19-24. *)
Definition after_request (r : http_response) : http_response :=
  mk_http (status r) (body r)
    (set_header "Pragma" "no-cache"
      (set_header "Expires" "0"
        (set_header "Cache-Control" "no-cache, no-store, must-revalidate" (headers r)))).

(** ** The world of a handler and the handler monad *)

(** The session stores ["user_id"] or nothing. *)
Record world := mk_world {
  wdb : db;
  session : option Z
}.

Definition M (A : Type) : Type := st world exn A.

(** Run a [SELECT]. *)
Definition query {A} (f : db -> A) : M A := gets (fun w => f (wdb w)).

(** Run an [INSERT], [UPDATE] or [DELETE]; it commits at once. *)
Definition exec (f : db -> db) : M unit :=
  modify (fun w => mk_world (f (wdb w)) (session w)).

(** [session.clear()] *)
Definition session_clear : M unit := modify (fun w => mk_world (wdb w) None).

(** [session["user_id"] = uid] *)
Definition session_set (uid : Z) : M unit := modify (fun w => mk_world (wdb w) (Some uid)).

(** [session.get("user_id")] *)
Definition session_get : M (option Z) := gets session.

(** ** Requests *)

Record request := mk_request {
  method : meth;
  path : string;
  form : list (string * string)
}.

(** [request.form.get(k)]: the first value submitted for [k], or [None]. *)
Definition form_get (f : list (string * string)) (k : string) : option string :=
  match find (fun kv => String.eqb (fst kv) k) f with
  | Some kv => Some (snd kv)
  | None => None
  end.

(** Python's [not x] for the value of a form field: [None] and the empty string
    are false. *)
Definition falsy (o : option string) : bool :=
  match o with
  | None => true
  | Some s => String.eqb s EmptyString
  end.

(** [login_required] of [helpers.py]: redirect to the login form when
    the session has no user, otherwise run the handler for that user. *)
Definition login_required (h : Z -> M response) : M response :=
  s <- session_get ;;
  match s with
  | None => ret (Redirect "/login")
  | Some uid => h uid
  end.
