(* ===== verification/Services.v ===== *)
(** * Services: the collaborators the handlers call but do not implement

    - The quote service: [lookup(symbol)] of [helpers.py] asks an HTTP API
      for the current quote of a symbol and returns a dictionary
      [{name, price, symbol}] or [None].  Its answers change with time, so
      it is part of the environment [env] of each request, not a fixed
      function.  [lookup(None)] raises a [TypeError] (the URL is built with
      [urllib.parse.quote_plus(symbol)], which the function does not guard).
    - The credential service: werkzeug's [generate_password_hash] and
      [check_password_hash], stated as an interface, the class
      [PasswordHasher], whose one law is that a hash generated from a
      password verifies exactly that password.  The salt is random, so it
      also comes from the environment of the request. *)

From Stdlib Require Import String List ZArith Lia Bool.
From S2P Require Import Prelude Db Http.
Import ListNotations.
Open Scope string_scope.
Open Scope list_scope.
Open Scope Z_scope.
Open Scope fin_scope.

(** The environment of one request: the quote service as it answers at
    that time, and the salt [generate_password_hash] draws. *)
Record env := mk_env {
  quote_service : string -> option quote;
  salt : string
}.

(** [lookup(symbol)] *)
Definition lookup (e : env) (symbol : option string) : M (option quote) :=
  match symbol with
  | None => raise TypeError
  | Some s => ret (quote_service e s)
  end.

(** The interface of the credential service.  The law is the idealised
    contract of a salted hash: no two passwords collide. *)
Class PasswordHasher := {
  generate_password_hash : string -> string -> string;   (** salt, password *)
  check_password_hash : string -> string -> bool;        (** stored hash, password *)
  check_generate : forall s p q,
    check_password_hash (generate_password_hash s p) q = String.eqb p q
}.

(** An implementation of the interface that stores the password as it
    is.  It shows the interface can be met and makes the handlers
    executable on concrete inputs; no theorem of the development about
    the handlers depends on it. *)
Lemma plain_check_generate (s p q : string) :
  String.eqb q ((fun _ p0 : string => p0) s p) = String.eqb p q.
Proof. apply String.eqb_sym. Qed.

#[export] Instance plain_hasher : PasswordHasher := {
  generate_password_hash := fun _ p => p;
  check_password_hash := fun h q => String.eqb q h;
  check_generate := plain_check_generate
}.
