(* ===== verification/Trade.v ===== *)
(** * Trade: the [buy] and [sell] handlers

    [buy] (lines 57-103) and [sell] (lines 212-262) of
    [src/finance/application.py], statement by statement, in the handler
    monad: the form fields are read, the quote is looked up, the shares
    are converted with [int], the guards return an apology, and the
    [db.execute] calls follow in the order of the source.  Each statement
    commits on its own, as with the CS50 [SQL] class, so the handlers are
    sequences of separate writes; the theorems of [Refinement] show that
    in a well-formed database a request run alone still acts all or
    nothing, and [Concurrency] shows that two interleaved requests do not.

    The price of a quote is a float in the source; it is an exact
    integer number of dollars here, as in the example of the
    specification, and [float(price * shares)] is the exact product.
    [FloatMoney] models the same lines in binary64. *)

From Stdlib Require Import String List ZArith Lia Bool.
From S2P Require Import Prelude PyInt Db Http Services.
Import ListNotations.
Open Scope string_scope.
Open Scope list_scope.
Open Scope Z_scope.
Open Scope fin_scope.

(** [int(request.form.get(k))]: [int(None)] raises [TypeError], text
    that is not an integer raises [ValueError]. *)
Definition int_field (o : option string) : M Z :=
  match o with
  | None => raise TypeError
  | Some s =>
      match py_int s with
      | Some n => ret n
      | None => raise ValueError
      end
  end.

(** [db.execute(...)[0][column]] *)
Definition query_first {A} (f : db -> list A) : M A :=
  rows <- query f ;;
  first IndexError rows.

(** [if not symbol or not symbol_data]: the quote when both are truthy. *)
Definition checked_quote (symbol : option string) (symbol_data : option quote) : option quote :=
  if falsy symbol then None else symbol_data.

Section Handlers.
Variable e : env.

(** The POST branch of [buy], lines 62-101. *)
Definition buy_post (f : list (string * string)) (uid : Z) : M response :=
  let symbol := form_get f "symbol" in
  symbol_data <- lookup e symbol ;;
  user_shares <- int_field (form_get f "shares") ;;
  match checked_quote symbol symbol_data with
  | None => ret (apology "MISSING SYMBOL" 400)
  | Some sd =>
      if user_shares <? 1 then ret (apology "MISSING SHARES" 400) else
      let total_price := q_price sd * user_shares in
      user_cash <- query (fun d => select_cash d uid) ;;
      cash0 <- first IndexError user_cash ;;
      if cash0 <? total_price then ret (apology "NO ENOUGH CASH" 400) else
      username <- query_first (fun d => select_username d uid) ;;
      exec (update_cash (cash0 - total_price) uid) ;;
      exec (insert_history (q_symbol sd) user_shares (q_price sd) username) ;;
      portfolio_shares <- query (sum_shares username (q_symbol sd)) ;;
      match portfolio_shares with
      | None | Some 0 =>
          exec (insert_portfolio username (q_symbol sd) (q_name sd) user_shares
                                 (q_price sd) total_price)
      | Some ps =>
          exec (update_portfolio_add (ps + user_shares) total_price (q_symbol sd) username)
      end ;;
      ret (Redirect "/")
  end.

(** [buy()], lines 57-103, under [login_required]. *)
Definition buy (m : meth) (f : list (string * string)) : M response :=
  login_required (fun uid =>
    match m with
    | POST => buy_post f uid
    | _ => ret (Page PBuyForm)
    end).

(** The POST branch of [sell], lines 221-260. *)
Definition sell_post (f : list (string * string)) (uid : Z) : M response :=
  let symbol := form_get f "symbol" in
  symbol_data <- lookup e symbol ;;
  shares_to_sell <- int_field (form_get f "shares") ;;
  match checked_quote symbol symbol_data with
  | None => ret (apology "MISSING SYMBOL" 400)
  | Some sd =>
      if shares_to_sell <? 1 then ret (apology "MISSING SHARES" 400) else
      current_shares <- query_first (fun d => select_shares d uid (q_symbol sd)) ;;
      if current_shares <? shares_to_sell
      then ret (apology "YOU DON'T OWN THESE SHARES" 400) else
      let total_price := q_price sd * shares_to_sell in
      user_cash <- query (fun d => select_cash d uid) ;;
      username <- query_first (fun d => select_username d uid) ;;
      cash0 <- first IndexError user_cash ;;
      exec (update_cash (cash0 + total_price) uid) ;;
      exec (insert_history (q_symbol sd) ((-1) * shares_to_sell) (q_price sd) username) ;;
      portfolio_shares <- query (sum_shares username (q_symbol sd)) ;;
      ps <- match portfolio_shares with
            | None => raise TypeError
            | Some ps => ret ps
            end ;;
      exec (update_portfolio_sub (ps - shares_to_sell) total_price (q_symbol sd) username) ;;
      exec delete_zero_shares ;;
      ret (Redirect "/")
  end.

(** [sell()], lines 212-262: the held symbols are selected before the
    method is tested, for both branches. *)
Definition sell (m : meth) (f : list (string * string)) : M response :=
  login_required (fun uid =>
    user_symbols <- query (fun d => select_symbols d uid) ;;
    match m with
    | POST => sell_post f uid
    | _ => ret (Page (PSellForm user_symbols))
    end).
End Handlers.
