(* ===== verification/Auth.v ===== *)
(** * Auth: the [register], [login] and [logout] handlers

    [register] (lines 181-208), [login] (lines 116-150) and [logout]
    (lines 154-162) of [src/finance/application.py].  The handlers are
    written against the [PasswordHasher] interface of [Services], so their
    theorems hold of any hasher that meets its law. *)

From Stdlib Require Import String List ZArith Lia Bool.
From S2P Require Import Prelude Db Http Services.
Import ListNotations.
Open Scope string_scope.
Open Scope list_scope.
Open Scope Z_scope.
Open Scope fin_scope.

(** [if not x: return ...]: the value of a field when it is truthy. *)
Definition nonempty (o : option string) : option string :=
  match o with
  | Some s => if String.eqb s EmptyString then None else Some s
  | None => None
  end.

Section Auth.
Context `{PasswordHasher}.
Variable e : env.

(** [generate_password_hash(request.form.get("password"))]: hashing
    [None] raises. *)
Definition hash_field (o : option string) : M string :=
  match o with
  | None => raise TypeError
  | Some p => ret (generate_password_hash (salt e) p)
  end.

(** [db.execute("INSERT INTO users (username, hash) VALUES(?,?)", ...)]
    of line 206: a violated UNIQUE index raises.  The source passes the
    two values as one tuple; they are bound here to the two placeholders,
    as intended. *)
Definition exec_insert_user (name hash : string) : M unit :=
  w <- gets (fun w => w) ;;
  match insert_user name hash (wdb w) with
  | Some d => exec (fun _ => d)
  | None => raise IntegrityError
  end.

(** The POST branch of [register], lines 186-208.  The password is
    hashed before any field is checked (line 186). *)
Definition register_post (f : list (string * string)) : M response :=
  pass_hash <- hash_field (form_get f "password") ;;
  match nonempty (form_get f "username") with
  | None => ret (apology "must provide username" 403)
  | Some name =>
      match nonempty (form_get f "password") with
      | None => ret (apology "must provide password" 403)
      | Some _ =>
          match nonempty (form_get f "confirmation") with
          | None => ret (apology "must confirm password" 403)
          | Some conf =>
              if negb (check_password_hash pass_hash conf)
              then ret (apology "passwords don't match" 403)
              else exec_insert_user name pass_hash ;;
                   ret (Page PRegistered)
          end
      end
  end.

(** [register()], lines 181-208. *)
Definition register (m : meth) (f : list (string * string)) : M response :=
  match m with
  | POST => register_post f
  | _ => ret (Page PRegisterForm)
  end.

(** [login()], lines 116-150: the session is cleared first, for every
    method. *)
Definition login (m : meth) (f : list (string * string)) : M response :=
  session_clear ;;
  match m with
  | POST =>
      match nonempty (form_get f "username") with
      | None => ret (apology "must provide username" 403)
      | Some name =>
          match nonempty (form_get f "password") with
          | None => ret (apology "must provide password" 403)
          | Some pw =>
              rows <- query (fun d => select_users_by_username d name) ;;
              match rows with
              | [u] =>
                  if check_password_hash (u_hash u) pw
                  then session_set (u_id u) ;; ret (Redirect "/")
                  else ret (apology "invalid username and/or password" 403)
              | _ => ret (apology "invalid username and/or password" 403)
              end
          end
      end
  | _ => ret (Page PLoginForm)
  end.
End Auth.

(** [logout()], lines 154-162. *)
Definition logout : M response :=
  session_clear ;;
  ret (Redirect "/").
