(* ===== verification/Views.v ===== *)
(** * Views: the read-only handlers [index], [history] and [quote]

    [index] (lines 44-53) sums the stored [total] column of the user's
    portfolio rows onto the cash balance with a [for] loop; [history]
    (lines 107-112) lists the user's history rows; [quote] (lines
    166-177) renders the quote of a symbol.  None of them writes to the
    database. *)

From Stdlib Require Import String List ZArith Lia Bool.
From S2P Require Import Prelude Db Http Services Trade.
Import ListNotations.
Open Scope string_scope.
Open Scope list_scope.
Open Scope Z_scope.
Open Scope fin_scope.

(** [all_cash = cash; for row in portfolio: all_cash += row["total"]] *)
Definition total_loop (cash : Z) (rows : list portfolio_row) : Z :=
  fold_left (fun all_cash row => all_cash + p_total row) rows cash.

(** [index()], lines 44-53. *)
Definition index : M response :=
  login_required (fun uid =>
    portfolio <- query (fun d => select_portfolio d uid) ;;
    cash <- query_first (fun d => select_cash d uid) ;;
    ret (Page (PIndex (total_loop cash portfolio) cash portfolio))).

(** [history()], lines 107-112. *)
Definition history_view : M response :=
  login_required (fun uid =>
    rows <- query (fun d => select_history d uid) ;;
    ret (Page (PHistory rows))).

(** [quote()], lines 166-177. *)
Definition quote_view (e : env) (m : meth) (f : list (string * string)) : M response :=
  login_required (fun _ =>
    match m with
    | POST =>
        result <- lookup e (form_get f "symbol") ;;
        match result with
        | Some q => ret (Page (PQuoted q))
        | None => ret (apology "Symbol Doesn't Exist" 400)
        end
    | _ => ret (Page PQuoteForm)
    end).
