(* ===== verification/App.v ===== *)
(** * App: routing, error handling and the server as a state machine

    The route table of [src/finance/application.py] (the [@app.route]
    decorators), the dispatch Flask performs (no route: [NotFound];
    a method the route does not list: [MethodNotAllowed]), the
    [errorhandler] every exception reaches (lines 272-274) and the
    [after_request] hook every response passes through (lines 19-24).

    The server keeps the database and one session per client (the
    Flask-Session store, keyed by the session cookie); a request of one
    client runs the handler on the database and that client's session.
    [serve] is one request; [reachable] is the set of server states that
    requests from any clients, in any order, can produce from the empty
    database. *)

From Stdlib Require Import String Ascii List ZArith Lia Bool.
From S2P Require Import Prelude Db Http Services Trade Auth Views.
Import ListNotations.
Open Scope string_scope.
Open Scope list_scope.
Open Scope Z_scope.
Open Scope fin_scope.

(** ** Routes *)

Inductive route : Type :=
| RIndex | RBuy | RHistory | RLogin | RLogout | RQuote | RRegister | RSell.

(** The [@app.route] decorators: path, handler, methods. *)
Definition url_map : list (string * route * list meth) :=
  [ ("/", RIndex, [GET]);
    ("/buy", RBuy, [GET; POST]);
    ("/history", RHistory, [GET]);
    ("/login", RLogin, [GET; POST]);
    ("/logout", RLogout, [GET]);
    ("/quote", RQuote, [GET; POST]);
    ("/register", RRegister, [GET; POST]);
    ("/sell", RSell, [GET; POST]) ].

Definition meth_eqb (m1 m2 : meth) : bool :=
  match m1, m2 with
  | GET, GET | POST, POST => true
  | OtherMethod a, OtherMethod b => String.eqb a b
  | _, _ => false
  end.

(** The methods the Werkzeug rule of a route accepts: those listed in
    the decorator, HEAD when GET is listed, and OPTIONS, which Flask
    answers itself ([provide_automatic_options]). *)
Definition head_meth : meth := OtherMethod "HEAD".
Definition options_meth : meth := OtherMethod "OPTIONS".

Definition rule_methods (ms : list meth) : list meth :=
  ms ++ (if existsb (meth_eqb GET) ms then [head_meth] else []) ++ [options_meth].

Definition match_route (p : string) : option (route * list meth) :=
  match find (fun entry => String.eqb (fst (fst entry)) p) url_map with
  | Some (_, rt, ms) => Some (rt, ms)
  | None => None
  end.

(** Werkzeug (1.0 and later) builds each rule with [merge_slashes]: a
    path that names a rule once its runs of [/] are merged into one is
    redirected there with 308, whatever the method. *)
Fixpoint merge_slashes_from (after_slash : bool) (p : string) : string :=
  match p with
  | EmptyString => EmptyString
  | String c p' =>
      if Ascii.eqb c "/"%char
      then if after_slash then merge_slashes_from true p' else String c (merge_slashes_from true p')
      else String c (merge_slashes_from false p')
  end.

Definition merge_slashes (p : string) : string := merge_slashes_from false p.

Section App.
Context `{PasswordHasher}.

Definition handler (e : env) (rt : route) (m : meth) (f : list (string * string)) : M response :=
  match rt with
  | RIndex => index
  | RBuy => buy e m f
  | RHistory => history_view
  | RLogin => login m f
  | RLogout => logout
  | RQuote => quote_view e m f
  | RRegister => register e m f
  | RSell => sell e m f
  end.

(** Flask's dispatch: no rule for the path, even with its slashes
    merged, is [NotFound]; a rule for the merged path only is a 308 to it
    (Flask returns Werkzeug's routing redirect as the response, without
    the error handlers); a method the
    rule does not accept is [MethodNotAllowed], OPTIONS is answered
    without the view, and every other accepted method (HEAD included)
    runs the view, which treats every method but POST as GET. *)
Definition dispatch (e : env) (r : request) : M response :=
  match match_route (path r) with
  | None =>
      match match_route (merge_slashes (path r)) with
      | Some _ => ret (Moved (merge_slashes (path r)))
      | None => raise NotFound
      end
  | Some (rt, ms) =>
      if existsb (meth_eqb (method r)) (rule_methods ms)
      then if meth_eqb (method r) options_meth
           then ret (Options (rule_methods ms))
           else handler e rt (method r) (form r)
      else raise MethodNotAllowed
  end.

(** The response sent: the handler's, or the error handler's for an
    exception, then [after_request]. *)
Definition respond (o : outcome exn response) : http_response :=
  after_request (to_http (match o with
                          | Ok r => r
                          | Raise ex => errorhandler ex
                          end)).

Definition handle (e : env) (r : request) (w : world) : http_response * world :=
  let (o, w') := dispatch e r w in (respond o, w').

(** ** The server *)

Record server := mk_server {
  sdb : db;
  sessions : list (Z * option Z)   (** cookie, [session["user_id"]] *)
}.

Definition session_of (s : server) (cookie : Z) : option Z :=
  match find (fun kv => Z.eqb (fst kv) cookie) (sessions s) with
  | Some kv => snd kv
  | None => None
  end.

Definition store_session (cookie : Z) (v : option Z) (ss : list (Z * option Z)) :=
  (cookie, v) :: filter (fun kv => negb (Z.eqb (fst kv) cookie)) ss.

(** One request of the client holding [cookie]. *)
Definition serve (e : env) (cookie : Z) (r : request) (s : server) : http_response * server :=
  let (resp, w') := handle e r (mk_world (sdb s) (session_of s cookie)) in
  (resp, mk_server (wdb w') (store_session cookie (session w') (sessions s))).

Definition init_server : server := mk_server empty_db [].

(** The server states reachable by requests in environments that
    satisfy [env_ok]. *)
Inductive reachable (env_ok : env -> Prop) : server -> Prop :=
| reachable_init : reachable env_ok init_server
| reachable_step s e cookie r :
    reachable env_ok s -> env_ok e ->
    reachable env_ok (snd (serve e cookie r s)).
End App.

(** Lines 38-40: the application refuses to start without [API_KEY]. *)
Definition startup (api_key : option string) : option unit :=
  if falsy api_key then None else Some tt.
