(* ===== verification/Account.v ===== *)
(** * Account: the abstract specification of a trading account

    What a user's account promises, independent of SQL: a cash balance,
    a list of holdings (one per symbol, in the order they were opened:
    symbol, display name, shares, price of the first purchase, running
    total) and a ledger of executed trades.  [acct_buy] and [acct_sell]
    are the operations of the specification (sections 4.3 and 4.4):
    a purchase is refused below one share or above the cash; a sale is
    refused below one share or above the shares held (none held counts
    as zero); a sale that leaves no shares closes the holding.

    [account_of] is the abstraction function: the account of user [uid]
    read off the three tables.  [Refinement] proves that the handlers of
    [Trade] implement [acct_buy] and [acct_sell] through it. *)

From Stdlib Require Import String List ZArith Lia Bool.
From S2P Require Import Prelude Db Http.
Import ListNotations.
Open Scope string_scope.
Open Scope list_scope.
Open Scope Z_scope.

Record holding := mk_holding {
  hsym : string;
  hname : string;
  hshares : Z;
  hprice : Z;
  htotal : Z
}.

(** A ledger entry: symbol, signed shares, price. *)
Definition entry : Type := (string * Z * Z)%type.

Record account := mk_account {
  acash : Z;
  aholdings : list holding;
  aledger : list entry
}.

Definition is_sym (sym : string) (h : holding) : bool := String.eqb (hsym h) sym.

(** The shares held of [sym], zero when there is no holding. *)
Definition held (hs : list holding) (sym : string) : Z :=
  match find (is_sym sym) hs with
  | Some h => hshares h
  | None => 0
  end.

Definition add_to (n t : Z) (h : holding) : holding :=
  mk_holding (hsym h) (hname h) (hshares h + n) (hprice h) (htotal h + t).

(** Section 4.3: debit the cash, add to the holding or open one, and
    append the trade to the ledger. *)
Definition acct_buy (a : account) (q : quote) (n : Z) : option account :=
  let t := q_price q * n in
  if n <? 1 then None
  else if acash a <? t then None
  else Some (mk_account (acash a - t)
               (if existsb (is_sym (q_symbol q)) (aholdings a)
                then map (fun h => if is_sym (q_symbol q) h then add_to n t h else h)
                         (aholdings a)
                else aholdings a ++ [mk_holding (q_symbol q) (q_name q) n (q_price q) t])
               (aledger a ++ [(q_symbol q, n, q_price q)])).

(** Section 4.4: credit the cash, take the shares off the holding and
    close it when none are left, and append the trade to the ledger. *)
Definition acct_sell (a : account) (q : quote) (n : Z) : option account :=
  let t := q_price q * n in
  if n <? 1 then None
  else if held (aholdings a) (q_symbol q) <? n then None
  else Some (mk_account (acash a + t)
               (filter (fun h => negb (is_sym (q_symbol q) h && Z.eqb (hshares h) 0))
                  (map (fun h => if is_sym (q_symbol q) h then add_to (- n) (- t) h else h)
                       (aholdings a)))
               (aledger a ++ [(q_symbol q, - n, q_price q)])).

(** What the account is worth at the prices paid: the cash plus the
    running totals of the holdings.  It is the grand total the portfolio
    page shows. *)
Definition acct_value (a : account) : Z := acash a + sumZ htotal (aholdings a).

(** At most one holding per symbol. *)
Definition acct_wf (a : account) : Prop := NoDup (map hsym (aholdings a)).

(** ** The abstraction function *)

Definition holding_of (r : portfolio_row) : holding :=
  mk_holding (p_symbol r) (p_name r) (p_shares r) (p_price r) (p_total r).

Definition entry_of (h : history_row) : entry := (h_symbol h, h_shares h, h_price h).

Definition owned_by (name : string) (r : portfolio_row) : bool := String.eqb (p_username r) name.

Definition logged_by (name : string) (h : history_row) : bool := String.eqb (h_username h) name.

Definition account_of_user (d : db) (u : user_row) : account :=
  mk_account (u_cash u)
    (map holding_of (filter (owned_by (u_username u)) (portfolio d)))
    (map entry_of (filter (logged_by (u_username u)) (history d))).

Definition account_of (d : db) (uid : Z) : option account :=
  match filter (user_has_id uid) (users d) with
  | u :: _ => Some (account_of_user d u)
  | [] => None
  end.

(** ** A purchase conserves the value *)

Lemma is_sym_spec sym h : is_sym sym h = true <-> hsym h = sym.
Proof. unfold is_sym. apply String.eqb_eq. Qed.

Lemma sumZ_add_to sym n t hs :
  NoDup (map hsym hs) -> existsb (is_sym sym) hs = true ->
  sumZ htotal (map (fun h => if is_sym sym h then add_to n t h else h) hs) = sumZ htotal hs + t.
Proof.
  induction hs as [|h hs IH]; cbn [map existsb]; intros Hnd Hex; [discriminate|].
  inversion Hnd as [|? ? Hnotin Hnd']; subst. cbn [sumZ fold_right].
  destruct (is_sym sym h) eqn:Hh; cbn [orb] in Hex.
  - apply is_sym_spec in Hh. rewrite map_update_none; [cbn [htotal add_to]; unfold sumZ; lia|].
    apply Bool.not_true_iff_false. intros Hin. apply existsb_exists in Hin as [h' [Hin Hs]].
    apply is_sym_spec in Hs. apply Hnotin. rewrite Hh, <- Hs. apply in_map, Hin.
  - unfold sumZ in *. rewrite IH by assumption. lia.
Qed.

(** A purchase moves [t] from the cash to the holdings: the account is
    worth as much after it as before, at the prices paid. *)
Lemma acct_buy_value a q n a' :
  acct_wf a -> acct_buy a q n = Some a' -> acct_value a' = acct_value a.
Proof.
  unfold acct_buy, acct_value, acct_wf. intros Hwf.
  destruct (n <? 1); [discriminate|]. destruct (acash a <? q_price q * n); [discriminate|].
  intros [= <-]. cbn [acash aholdings].
  destruct (existsb (is_sym (q_symbol q)) (aholdings a)) eqn:Hex.
  - rewrite sumZ_add_to by assumption. lia.
  - rewrite sumZ_app. cbn [sumZ fold_right htotal]. lia.
Qed.

(** ** A sale undoes a purchase *)

Lemma held_none sym hs : existsb (is_sym sym) hs = false -> held hs sym = 0.
Proof.
  unfold held. destruct (find (is_sym sym) hs) as [h|] eqn:E; [|reflexivity].
  intros Hn. apply find_some in E as [Hin Hs].
  assert (existsb (is_sym sym) hs = true) by (apply existsb_exists; eauto). congruence.
Qed.

Lemma held_app_new sym h hs : existsb (is_sym sym) hs = false -> is_sym sym h = true -> held (hs ++ [h]) sym = hshares h.
Proof.
  induction hs as [|x hs IH]; cbn [existsb app]; intros Hn Hh.
  - unfold held. cbn. rewrite Hh. reflexivity.
  - apply orb_false_iff in Hn as [Hx Hn]. unfold held in *. cbn. rewrite Hx. apply IH; assumption.
Qed.

Lemma is_sym_add_to sym n t h : is_sym sym (add_to n t h) = is_sym sym h.
Proof. reflexivity. Qed.

Lemma held_update sym n t hs :
  NoDup (map hsym hs) -> existsb (is_sym sym) hs = true ->
  held (map (fun h => if is_sym sym h then add_to n t h else h) hs) sym = held hs sym + n.
Proof.
  induction hs as [|x hs IH]; cbn [map existsb]; intros Hnd Hex; [discriminate|].
  inversion Hnd as [|? ? _ Hnd']; subst. unfold held in *. cbn [find].
  destruct (is_sym sym x) eqn:Hx; cbn [orb] in Hex.
  - rewrite is_sym_add_to, Hx. reflexivity.
  - rewrite Hx. apply IH; assumption.
Qed.

Lemma add_to_undo n t h : add_to (- n) (- t) (add_to n t h) = h.
Proof. destruct h. unfold add_to. cbn. f_equal; lia. Qed.

(** Holdings with at least one share each survive the filter of a sale. *)
Lemma keep_held sym hs :
  (forall h, In h hs -> 1 <= hshares h) ->
  filter (fun h => negb (is_sym sym h && Z.eqb (hshares h) 0)) hs = hs.
Proof.
  intros H. induction hs as [|h hs IH]; [reflexivity|]. cbn [filter].
  destruct (Z.eqb_spec (hshares h) 0) as [E|_]; [pose proof (H h (or_introl eq_refl)); lia|].
  rewrite andb_false_r. cbn [negb]. f_equal. apply IH. intros; apply H; right; auto.
Qed.

(** Buying [n] shares and selling them at the same quote gives back the
    cash and the holdings, and logs both trades. *)
Lemma acct_buy_sell a q n a1 :
  acct_wf a -> (forall h, In h (aholdings a) -> 1 <= hshares h) ->
  acct_buy a q n = Some a1 ->
  exists a2, acct_sell a1 q n = Some a2 /\ acash a2 = acash a /\ aholdings a2 = aholdings a /\
    aledger a2 = aledger a ++ [(q_symbol q, n, q_price q); (q_symbol q, - n, q_price q)].
Proof.
  unfold acct_buy, acct_sell, acct_wf. intros Hwf Hpos.
  destruct (Z.ltb_spec n 1) as [|Hn]; [discriminate|]. destruct (acash a <? q_price q * n); [discriminate|].
  intros [= <-]. cbn [acash aholdings aledger].
  destruct (Z.ltb_spec n 1); [lia|].
  destruct (existsb (is_sym (q_symbol q)) (aholdings a)) eqn:Hex.
  - rewrite held_update by assumption.
    assert (Hh : 1 <= held (aholdings a) (q_symbol q)).
    { unfold held. destruct (find _ _) as [h|] eqn:E.
      - apply find_some in E as [Hin _]. exact (Hpos h Hin).
      - exfalso. apply existsb_exists in Hex as [h [Hin Hs]]. pose proof (find_none _ _ E h Hin). congruence. }
    destruct (Z.ltb_spec (held (aholdings a) (q_symbol q) + n) n); [lia|].
    eexists. split; [reflexivity|]. cbn [acash aholdings aledger]. split; [lia|]. split.
    + rewrite map_map. erewrite map_ext_in.
      * rewrite map_id. apply keep_held, Hpos.
      * intros h _. cbv beta. destruct (is_sym (q_symbol q) h) eqn:E;
          [rewrite is_sym_add_to, E; apply add_to_undo | rewrite E; reflexivity].
    + rewrite <- app_assoc. reflexivity.
  - rewrite (held_app_new _ _ _ Hex) by (unfold is_sym; apply String.eqb_refl). cbn [hshares].
    destruct (Z.ltb_spec n n); [lia|].
    eexists. split; [reflexivity|]. cbn [acash aholdings aledger]. split; [lia|]. split.
    + assert (Hs : is_sym (q_symbol q) (mk_holding (q_symbol q) (q_name q) n (q_price q) (q_price q * n)) = true)
        by (unfold is_sym; apply String.eqb_refl).
      rewrite map_app, (map_update_none _ _ _ Hex), filter_app, (keep_held _ _ Hpos). cbn [map filter].
      rewrite Hs, is_sym_add_to, Hs. cbn [add_to hshares andb]. replace (n + - n) with 0 by lia.
      cbn. apply app_nil_r.
    + rewrite <- app_assoc. reflexivity.
Qed.
