(* ===== verification/Scenario.v ===== *)
(** * Scenario: concrete requests, traces and the example of the specification

    A trace is a list of requests, each with the environment it ran in and
    the cookie of the client that sent it; [run_trace] serves them in
    order.  Every trace run from a reachable state reaches a reachable
    state, which is how the theorems over [reachable] are applied to
    concrete runs.  The trace [spec_trace] is the example of section 8 of
    the specification: a user registers, logs in, buys 10 shares at 150
    and sells 4 at 200. *)

From Stdlib Require Import String List ZArith Lia Bool.
From S2P Require Import Prelude Db Http Services Trade Auth Views App Account.
Import ListNotations.
Open Scope string_scope.
Open Scope list_scope.
Open Scope Z_scope.

(** ** Traces *)

Definition step_of (s : server) (x : env * Z * request) : server :=
  let '(e, cookie, r) := x in snd (serve e cookie r s).

Definition run_trace (s : server) (t : list (env * Z * request)) : server :=
  fold_left step_of t s.

Lemma run_trace_reachable (env_ok : env -> Prop) t s :
  reachable env_ok s -> Forall (fun x => env_ok (fst (fst x))) t -> reachable env_ok (run_trace s t).
Proof.
  revert s. induction t as [|[[e cookie] r] t IH]; intros s Hs Ht; simpl; [exact Hs|].
  inversion Ht as [|? ? He Ht']; subst. apply IH; [apply reachable_step; auto | exact Ht'].
Qed.

(** ** Concrete environments and requests *)

Definition apple (price : Z) : quote := mk_quote "Apple" price "AAPL".

(** The quote service when Apple trades at [price]. *)
Definition market (price : Z) : env :=
  mk_env (fun s => if String.eqb s "aapl" then Some (apple price) else None) "salt".

Definition register_req (name pw conf : string) : request :=
  mk_request POST "/register" [("username", name); ("password", pw); ("confirmation", conf)].

Definition login_req (name pw : string) : request :=
  mk_request POST "/login" [("username", name); ("password", pw)].

Definition buy_req (sym shares : string) : request :=
  mk_request POST "/buy" [("symbol", sym); ("shares", shares)].

Definition sell_req (sym shares : string) : request :=
  mk_request POST "/sell" [("symbol", sym); ("shares", shares)].

(** Section 8 of the specification, run by the client with cookie 7. *)
Definition spec_trace : list (env * Z * request) :=
  [ (market 150, 7, register_req "bob" "pw" "pw");
    (market 150, 7, login_req "bob" "pw");
    (market 150, 7, buy_req "aapl" "10");
    (market 200, 7, sell_req "aapl" "4") ].

Lemma market_prices_nonneg_at price sym q :
  0 <= price -> quote_service (market price) sym = Some q -> 0 <= q_price q.
Proof.
  intros Hp. simpl. destruct (String.eqb sym "aapl"); intros H; inversion H; subst. simpl. exact Hp.
Qed.

(** The example of section 8 of the specification, run through the
    whole server (routing, session, handlers): after the purchase the
    account holds 10 shares bought for 1500 and 8500 in cash; after the
    sale it holds 6 shares, 9300 in cash, and the ledger has both trades.
    The holding's total is 1500 - 800 = 700: the sale subtracts its
    proceeds from the stored total. *)
Example spec_example :
  account_of (sdb (run_trace init_server (firstn 3 spec_trace))) 1 =
    Some (mk_account 8500 [mk_holding "AAPL" "Apple" 10 150 1500] [("AAPL", 10, 150)]) /\
  account_of (sdb (run_trace init_server spec_trace)) 1 =
    Some (mk_account 9300 [mk_holding "AAPL" "Apple" 6 150 700]
                     [("AAPL", 10, 150); ("AAPL", -4, 200)]).
Proof. split; vm_compute; reflexivity. Qed.
