(* ===== verification/Invariant.v ===== *)
(** * Invariant: well-formed databases

    [wf_db] is the invariant every reachable database satisfies: user ids
    and usernames are unique, every portfolio and history row belongs to
    a registered username, every portfolio row holds at least one share,
    and there is at most one portfolio row per (username, symbol).  None
    of it is a constraint of the schema the handlers could rely on (the
    portfolio table has no key); it holds because of what the handlers
    do, which [Safety] proves.

    The lemmas of this file resolve the reads of the handlers in a
    well-formed database: the user of an id is a single row, and the
    rows of a (username, symbol) are none or one. *)

From Stdlib Require Import String List ZArith Lia Bool.
From S2P Require Import Prelude Db Http Account.
Import ListNotations.
Open Scope string_scope.
Open Scope list_scope.
Open Scope Z_scope.

Definition pkey (r : portfolio_row) : string * string := (p_username r, p_symbol r).

Record wf_db (d : db) : Prop := {
  wf_ids : NoDup (map u_id (users d));
  wf_names : NoDup (map u_username (users d));
  wf_owner : forall r, In r (portfolio d) -> In (p_username r) (map u_username (users d));
  wf_pos : forall r, In r (portfolio d) -> 1 <= p_shares r;
  wf_keys : NoDup (map pkey (portfolio d));
  wf_hist : forall h, In h (history d) -> In (h_username h) (map u_username (users d))
}.

#[export] Hint Resolve wf_ids wf_names wf_owner wf_pos wf_keys wf_hist : finance.

(** The invariant as an executable test, to check it on concrete
    databases. *)
Definition wf_dbb (d : db) : bool :=
  let names := map u_username (users d) in
  let known name := existsb (String.eqb name) names in
  nodupb Z.eqb (map u_id (users d)) &&
  nodupb String.eqb names &&
  forallb (fun r => known (p_username r)) (portfolio d) &&
  forallb (fun r => 1 <=? p_shares r) (portfolio d) &&
  nodupb pair_eqb (map pkey (portfolio d)) &&
  forallb (fun h => known (h_username h)) (history d).

Lemma known_sound name names : existsb (String.eqb name) names = true -> In name names.
Proof. intros (x & Hx & Heq)%existsb_exists. apply String.eqb_eq in Heq. subst. exact Hx. Qed.

Lemma wf_dbb_sound d : wf_dbb d = true -> wf_db d.
Proof.
  unfold wf_dbb. rewrite !andb_true_iff, !forallb_forall.
  intros [[[[[Hids Hnames] Hown] Hpos] Hkeys] Hhist].
  constructor.
  - exact (nodupb_sound Z.eqb Z.eqb_eq _ Hids).
  - exact (nodupb_sound String.eqb String.eqb_eq _ Hnames).
  - intros r Hr. apply known_sound, Hown, Hr.
  - intros r Hr. apply Z.leb_le, Hpos, Hr.
  - exact (nodupb_sound pair_eqb pair_eqb_spec _ Hkeys).
  - intros h Hh. apply known_sound, Hhist, Hh.
Qed.

(** ** Boolean tests and the keys they decide *)

Lemma user_has_id_spec uid u : user_has_id uid u = true <-> u_id u = uid.
Proof. unfold user_has_id. apply Z.eqb_eq. Qed.

Lemma row_key_spec name sym r : row_key name sym r = true <-> pkey r = (name, sym).
Proof.
  unfold row_key, pkey. rewrite andb_true_iff, !String.eqb_eq.
  split; [intros [-> ->]; reflexivity | intros H; inversion H; auto].
Qed.

(** ** The user of an id *)

Section Users.
Variable d : db.
Hypothesis Hwf : wf_db d.

Lemma user_row_unique u : In u (users d) -> filter (user_has_id (u_id u)) (users d) = [u].
Proof.
  intros Hu.
  destruct (filter_unique u_id (user_has_id (u_id u)) (users d) (u_id u) (wf_ids d Hwf)
              (user_has_id_spec (u_id u))) as [E | [x [E [Hx Hid]]]].
  - exfalso. assert (Hin : In u (filter (user_has_id (u_id u)) (users d)))
      by (apply filter_In; split; [exact Hu | apply user_has_id_spec; reflexivity]).
    rewrite E in Hin. contradiction.
  - rewrite E. f_equal. apply (nodup_map_eq u_id (users d)); auto using wf_ids.
Qed.

Lemma user_name_inj u v :
  In u (users d) -> In v (users d) -> u_username u = u_username v -> u = v.
Proof. apply nodup_map_eq, wf_names, Hwf. Qed.

Lemma account_of_some uid a :
  account_of d uid = Some a -> exists u, In u (users d) /\ u_id u = uid /\ a = account_of_user d u.
Proof.
  unfold account_of. destruct (filter (user_has_id uid) (users d)) as [|u r] eqn:E; [discriminate|].
  intros H. inversion H; subst.
  assert (Hu : In u (filter (user_has_id uid) (users d))) by (rewrite E; left; reflexivity).
  apply filter_In in Hu as [Hu Hid]. apply user_has_id_spec in Hid. eauto.
Qed.

Lemma account_of_user_row u : In u (users d) -> account_of d (u_id u) = Some (account_of_user d u).
Proof. intros Hu. unfold account_of. rewrite user_row_unique by exact Hu. reflexivity. Qed.

Lemma select_cash_user u : In u (users d) -> select_cash d (u_id u) = [u_cash u].
Proof. intros Hu. unfold select_cash. rewrite user_row_unique by exact Hu. reflexivity. Qed.

Lemma select_username_user u : In u (users d) -> select_username d (u_id u) = [u_username u].
Proof. intros Hu. unfold select_username. rewrite user_row_unique by exact Hu. reflexivity. Qed.

Lemma username_of_id_user u : In u (users d) -> username_of_id d (u_id u) = Some (u_username u).
Proof. intros Hu. unfold username_of_id. rewrite user_row_unique by exact Hu. reflexivity. Qed.

(** ** The row of a (username, symbol) *)

Lemma portfolio_key_cases name sym :
  filter (row_key name sym) (portfolio d) = [] \/
  exists r, filter (row_key name sym) (portfolio d) = [r] /\ In r (portfolio d) /\ pkey r = (name, sym).
Proof. apply filter_unique; [apply wf_keys, Hwf | apply row_key_spec]. Qed.

Lemma row_key_unique name sym r r' :
  In r (portfolio d) -> In r' (portfolio d) ->
  row_key name sym r = true -> row_key name sym r' = true -> r = r'.
Proof.
  intros Hr Hr' Hk Hk'. apply row_key_spec in Hk, Hk'.
  apply (nodup_map_eq pkey (portfolio d)); auto using wf_keys. congruence.
Qed.

(** The abstract account of a user holds each symbol at most once. *)
Lemma account_wf_user u : acct_wf (account_of_user d u).
Proof.
  unfold acct_wf, account_of_user. cbn [aholdings]. rewrite map_map. cbn [hsym holding_of].
  pose proof (nodup_map_filter pkey (owned_by (u_username u)) (portfolio d) (wf_keys d Hwf)) as Hnd.
  erewrite map_ext_in with (g := fun r => (u_username u, p_symbol r)) in Hnd.
  - rewrite <- (map_map p_symbol (pair (u_username u))) in Hnd. exact (NoDup_map_inv _ _ Hnd).
  - intros r Hr. apply filter_In in Hr as [_ Ho]. unfold owned_by in Ho. apply String.eqb_eq in Ho.
    unfold pkey. rewrite Ho. reflexivity.
Qed.

(** Every holding of a user's account has at least one share. *)
Lemma account_pos_user u h : In h (aholdings (account_of_user d u)) -> 1 <= hshares h.
Proof.
  unfold account_of_user. cbn [aholdings]. intros (r & <- & Hr)%in_map_iff.
  apply filter_In in Hr as [Hr _]. exact (wf_pos d Hwf r Hr).
Qed.
End Users.

#[export] Hint Rewrite select_cash_user select_username_user username_of_id_user
  account_of_user_row using assumption : finance_rw.
