(* ===== verification/TradeFacts.v ===== *)
(** * TradeFacts: what [buy_post] and [sell_post] do to a well-formed database

    In a well-formed database the reads of the trade handlers resolve:
    the user's row is unique, so [rows[0]] never fails, and the portfolio
    rows of a (username, symbol) are none or one with at least one share,
    so [SUM(shares)] is NULL or that row's shares, never 0.  The run
    lemmas [buy_post_run] and [sell_post_run] reduce each handler, on
    valid input, to its guards and one composite write ([buy_effect],
    [sell_effect]); the remaining lemmas compute what that write does to
    the abstract accounts of [Account] and show that it keeps [wf_db]. *)

From Stdlib Require Import String List ZArith Lia Bool.
From S2P Require Import Prelude PyInt Db Http Services Trade Auth Account Invariant.
Import ListNotations.
Open Scope string_scope.
Open Scope list_scope.
Open Scope Z_scope.
Open Scope fin_scope.

(** Reduce the monad plumbing of a handler and leave the SQL reads. *)
Ltac run_step :=
  cbv [bind ret raise gets modify first query query_first exec lookup int_field
       checked_quote wdb session login_required session_get session_clear session_set].

Lemma nonempty_some o s : nonempty o = Some s -> o = Some s /\ falsy o = false.
Proof.
  destruct o as [s'|]; simpl; [|discriminate].
  destruct (String.eqb_spec s' EmptyString); [discriminate|].
  intros H; inversion H; auto.
Qed.

Definition set_cash (c : Z) (u : user_row) : user_row :=
  mk_user (u_id u) (u_username u) (u_hash u) c.

Definition cash_update (c uid : Z) (u : user_row) : user_row :=
  if user_has_id uid u then set_cash c u else u.

Lemma users_update_cash c uid d : users (update_cash c uid d) = map (cash_update c uid) (users d).
Proof. reflexivity. Qed.

(** ** Reading an account after a write

    [account_of_frame]: a write that changes only the cash of [uid] and
    the portfolio and history rows of [uid]'s username leaves every other
    account as it was. *)

Section Frame.
Variables (d d' : db) (u : user_row) (c : Z).
Hypothesis Hwf : wf_db d.
Hypothesis Hu : In u (users d).
Hypothesis Husers : users d' = map (cash_update c (u_id u)) (users d).
Hypothesis Hport : forall name, name <> u_username u ->
  filter (owned_by name) (portfolio d') = filter (owned_by name) (portfolio d).
Hypothesis Hhist : forall name, name <> u_username u ->
  filter (logged_by name) (history d') = filter (logged_by name) (history d).

Lemma filter_users_frame uid :
  filter (user_has_id uid) (users d') = map (cash_update c (u_id u)) (filter (user_has_id uid) (users d)).
Proof.
  rewrite Husers, filter_map_swap. f_equal. apply filter_ext. intros v.
  unfold cash_update, set_cash. destruct (user_has_id (u_id u) v); reflexivity.
Qed.

Lemma account_of_frame uid : uid <> u_id u -> account_of d' uid = account_of d uid.
Proof.
  intros Hne. unfold account_of. rewrite filter_users_frame.
  destruct (filter (user_has_id uid) (users d)) as [|v r] eqn:E; [reflexivity|]. simpl.
  assert (Hv : In v (filter (user_has_id uid) (users d))) by (rewrite E; left; reflexivity).
  apply filter_In in Hv as [Hv Hid]. apply user_has_id_spec in Hid.
  assert (Hvu : user_has_id (u_id u) v = false) by (apply Z.eqb_neq; congruence).
  unfold cash_update. rewrite Hvu.
  assert (Hname : u_username v <> u_username u)
    by (intros Hn; apply Hne; rewrite <- Hid; f_equal; apply (user_name_inj d Hwf); auto).
  unfold account_of_user. rewrite Hport, Hhist by exact Hname. reflexivity.
Qed.

Lemma account_of_self :
  account_of d' (u_id u) =
  Some (mk_account c (map holding_of (filter (owned_by (u_username u)) (portfolio d')))
                     (map entry_of (filter (logged_by (u_username u)) (history d')))).
Proof.
  unfold account_of. rewrite filter_users_frame, user_row_unique by assumption.
  simpl. unfold cash_update. rewrite (proj2 (user_has_id_spec _ _) eq_refl). reflexivity.
Qed.
End Frame.

(** ** Appending to the history *)

Lemma logged_snoc name sym sh price hs :
  filter (logged_by name) (hs ++ [mk_hrow sym sh price name]) =
  filter (logged_by name) hs ++ [mk_hrow sym sh price name].
Proof. rewrite filter_app. simpl. unfold logged_by. simpl. rewrite String.eqb_refl. reflexivity. Qed.

Lemma logged_snoc_other name name' sym sh price hs :
  name' <> name ->
  filter (logged_by name') (hs ++ [mk_hrow sym sh price name]) = filter (logged_by name') hs.
Proof.
  intros Hne. rewrite filter_app. simpl. unfold logged_by at 2. simpl.
  destruct (String.eqb_spec name name'); [congruence|]. apply app_nil_r.
Qed.

(** ** The portfolio rows of one key *)

Lemma owned_row_key name sym r :
  owned_by name r = true -> row_key name sym r = is_sym sym (holding_of r).
Proof. unfold owned_by, row_key, is_sym. simpl. intros ->. reflexivity. Qed.

Lemma row_key_owned name sym r : row_key name sym r = true -> owned_by name r = true.
Proof. unfold row_key, owned_by. rewrite andb_true_iff. tauto. Qed.

Lemma owned_set_row name sh t r : owned_by name (set_row sh t r) = owned_by name r.
Proof. reflexivity. Qed.

Lemma pkey_set_row sh t r : pkey (set_row sh t r) = pkey r.
Proof. reflexivity. Qed.

(** Updating the rows of a key leaves the rows of other usernames. *)
Lemma owned_update_other name name' sym (g : portfolio_row -> portfolio_row) rows :
  name' <> name -> (forall r, owned_by name' (g r) = owned_by name' r) ->
  filter (owned_by name') (map (fun r => if row_key name sym r then g r else r) rows) =
  filter (owned_by name') rows.
Proof.
  intros Hne Hg. apply filter_map_same.
  - intros r _ Hr. destruct (row_key name sym r) eqn:Hk; [|reflexivity].
    apply row_key_owned in Hk. unfold owned_by in *.
    apply String.eqb_eq in Hk, Hr. congruence.
  - intros r. destruct (row_key name sym r); auto.
Qed.

Lemma sum_shares_one name sym d r :
  filter (row_key name sym) (portfolio d) = [r] -> sum_shares name sym d = Some (p_shares r).
Proof. intros H. unfold sum_shares. rewrite H. simpl. rewrite Z.add_0_r. reflexivity. Qed.

Lemma sum_shares_none name sym d :
  filter (row_key name sym) (portfolio d) = [] -> sum_shares name sym d = None.
Proof. intros H. unfold sum_shares. rewrite H. reflexivity. Qed.

Lemma owned_snoc name sym nm sh price t rows :
  filter (owned_by name) (rows ++ [mk_prow name sym nm sh price t]) =
  filter (owned_by name) rows ++ [mk_prow name sym nm sh price t].
Proof. rewrite filter_app. simpl. unfold owned_by. simpl. rewrite String.eqb_refl. reflexivity. Qed.

Lemma owned_snoc_other name name' sym nm sh price t rows :
  name' <> name ->
  filter (owned_by name') (rows ++ [mk_prow name sym nm sh price t]) = filter (owned_by name') rows.
Proof.
  intros Hne. rewrite filter_app. simpl. unfold owned_by at 2. simpl.
  destruct (String.eqb_spec name name'); [congruence|]. apply app_nil_r.
Qed.

(** Whether the user holds [sym], read on the rows or on the holdings. *)
Lemma existsb_holdings name sym rows :
  existsb (is_sym sym) (map holding_of (filter (owned_by name) rows)) = existsb (row_key name sym) rows.
Proof.
  induction rows as [|r rows IH]; simpl; [reflexivity|].
  destruct (owned_by name r) eqn:Ho; simpl.
  - rewrite <- (owned_row_key name sym r Ho), IH. reflexivity.
  - rewrite IH. unfold row_key. unfold owned_by in Ho. rewrite Ho. reflexivity.
Qed.

(** Cash updates keep ids and usernames. *)
Lemma map_id_cash_update c uid us : map u_id (map (cash_update c uid) us) = map u_id us.
Proof. rewrite map_map. apply map_ext. intros v. unfold cash_update. destruct (user_has_id uid v); reflexivity. Qed.

Lemma map_name_cash_update c uid us : map u_username (map (cash_update c uid) us) = map u_username us.
Proof. rewrite map_map. apply map_ext. intros v. unfold cash_update. destruct (user_has_id uid v); reflexivity. Qed.

#[export] Hint Rewrite map_id_cash_update map_name_cash_update : finance_rw.

(** A write that changes only cash balances keeps the user-side half of
    [wf_db]; the portfolio and history halves remain to be shown. *)
Lemma wf_db_write d d' c uid :
  wf_db d -> users d' = map (cash_update c uid) (users d) ->
  (forall r, In r (portfolio d') -> In (p_username r) (map u_username (users d))) ->
  (forall r, In r (portfolio d') -> 1 <= p_shares r) ->
  NoDup (map pkey (portfolio d')) ->
  (forall h, In h (history d') -> In (h_username h) (map u_username (users d))) ->
  wf_db d'.
Proof.
  intros Hwf Hus Ho Hp Hk Hh.
  constructor; rewrite ?Hus, ?map_id_cash_update, ?map_name_cash_update; auto using wf_ids, wf_names.
Qed.

(** ** The write of a purchase *)

(** Lines 82-87: the cash is debited and the trade logged. *)
Definition trade_log (d : db) (u : user_row) (q : quote) (cash' shares : Z) : db :=
  insert_history (q_symbol q) shares (q_price q) (u_username u) (update_cash cash' (u_id u) d).

(** Lines 82-99 with the reads of [SUM(shares)] resolved on [d], for a
    purchase that read [cash0] on line 74. *)
Definition buy_write (d : db) (u : user_row) (q : quote) (n cash0 : Z) : db :=
  let t := q_price q * n in
  let d2 := trade_log d u q (cash0 - t) n in
  match sum_shares (u_username u) (q_symbol q) d with
  | None | Some 0 => insert_portfolio (u_username u) (q_symbol q) (q_name q) n (q_price q) t d2
  | Some ps => update_portfolio_add (ps + n) t (q_symbol q) (u_username u) d2
  end.

(** A purchase run alone reads the cash of the user's row. *)
Definition buy_effect (d : db) (u : user_row) (q : quote) (n : Z) : db := buy_write d u q n (u_cash u).

Lemma buy_post_run e f d ss u sym q txt n :
  wf_db d -> In u (users d) ->
  nonempty (form_get f "symbol") = Some sym -> quote_service e sym = Some q ->
  form_get f "shares" = Some txt -> py_int txt = Some n ->
  buy_post e f (u_id u) (mk_world d ss) =
    if n <? 1 then (Ok (apology "MISSING SHARES" 400), mk_world d ss)
    else if u_cash u <? q_price q * n then (Ok (apology "NO ENOUGH CASH" 400), mk_world d ss)
    else (Ok (Redirect "/"), mk_world (buy_effect d u q n) ss).
Proof.
  intros Hwf Hu Hsym Hq Hf Hn.
  apply nonempty_some in Hsym as [Hsym Hfalsy].
  unfold buy_post, checked_quote. rewrite Hfalsy, Hsym, Hf. run_step.
  rewrite Hq, Hn. run_step.
  destruct (n <? 1); [reflexivity|]. run_step.
  rewrite select_cash_user by assumption. run_step.
  destruct (u_cash u <? q_price q * n); [reflexivity|]. run_step.
  rewrite select_username_user by assumption. run_step.
  unfold buy_effect, buy_write. destruct (sum_shares _ _ _) as [[|p|p]|]; reflexivity.
Qed.

(** The two writes a purchase can end with: a new row, or the one row
    of the symbol updated. *)
Lemma buy_write_cases d u q n c0 :
  wf_db d ->
  let t := q_price q * n in
  let d2 := trade_log d u q (c0 - t) n in
  (filter (row_key (u_username u) (q_symbol q)) (portfolio d) = [] /\
   buy_write d u q n c0 = insert_portfolio (u_username u) (q_symbol q) (q_name q) n (q_price q) t d2) \/
  (exists r, filter (row_key (u_username u) (q_symbol q)) (portfolio d) = [r] /\ In r (portfolio d) /\
   buy_write d u q n c0 = update_portfolio_add (p_shares r + n) t (q_symbol q) (u_username u) d2).
Proof.
  intros Hwf t d2. unfold buy_write.
  destruct (portfolio_key_cases d Hwf (u_username u) (q_symbol q)) as [E | [r [E [Hr _]]]].
  - left. rewrite sum_shares_none by exact E. auto.
  - right. exists r. rewrite (sum_shares_one _ _ _ r E). repeat split; auto.
    pose proof (wf_pos d Hwf r Hr). destruct (p_shares r); [lia | reflexivity | lia].
Qed.

Lemma buy_effect_cases d u q n :
  wf_db d ->
  let t := q_price q * n in
  let d2 := trade_log d u q (u_cash u - t) n in
  (filter (row_key (u_username u) (q_symbol q)) (portfolio d) = [] /\
   buy_effect d u q n = insert_portfolio (u_username u) (q_symbol q) (q_name q) n (q_price q) t d2) \/
  (exists r, filter (row_key (u_username u) (q_symbol q)) (portfolio d) = [r] /\ In r (portfolio d) /\
   buy_effect d u q n = update_portfolio_add (p_shares r + n) t (q_symbol q) (u_username u) d2).
Proof. apply buy_write_cases. Qed.

Section Buy.
Variables (d : db) (u : user_row) (q : quote) (n : Z).
Hypothesis Hwf : wf_db d.
Hypothesis Hu : In u (users d).

Lemma buy_write_users c0 : users (buy_write d u q n c0) = map (cash_update (c0 - q_price q * n) (u_id u)) (users d).
Proof. destruct (buy_write_cases d u q n c0 Hwf) as [[_ ->] | [r [_ [_ ->]]]]; reflexivity. Qed.

Lemma buy_write_history c0 :
  history (buy_write d u q n c0) = history d ++ [mk_hrow (q_symbol q) n (q_price q) (u_username u)].
Proof. destruct (buy_write_cases d u q n c0 Hwf) as [[_ ->] | [r [_ [_ ->]]]]; reflexivity. Qed.

Lemma buy_effect_users : users (buy_effect d u q n) = map (cash_update (u_cash u - q_price q * n) (u_id u)) (users d).
Proof. apply buy_write_users. Qed.

Lemma buy_effect_history :
  history (buy_effect d u q n) = history d ++ [mk_hrow (q_symbol q) n (q_price q) (u_username u)].
Proof. apply buy_write_history. Qed.

Lemma buy_effect_other uid : uid <> u_id u -> account_of (buy_effect d u q n) uid = account_of d uid.
Proof.
  apply (account_of_frame d _ u (u_cash u - q_price q * n) Hwf Hu buy_effect_users).
  - intros name' Hne. destruct (buy_effect_cases d u q n Hwf) as [[_ ->] | [r [_ [_ ->]]]]; simpl.
    + apply owned_snoc_other; auto.
    + apply owned_update_other; auto.
  - intros name' Hne. rewrite buy_effect_history. apply logged_snoc_other; auto.
Qed.

Lemma buy_effect_self :
  1 <= n -> q_price q * n <= u_cash u ->
  account_of (buy_effect d u q n) (u_id u) = acct_buy (account_of_user d u) q n.
Proof.
  intros Hn Ht. rewrite (account_of_self d _ u (u_cash u - q_price q * n) Hwf Hu buy_effect_users).
  unfold acct_buy, account_of_user. simpl.
  destruct (Z.ltb_spec n 1); [lia|]. destruct (Z.ltb_spec (u_cash u) (q_price q * n)); [lia|].
  rewrite buy_effect_history, logged_snoc, map_app, existsb_holdings. f_equal. f_equal.
  destruct (buy_effect_cases d u q n Hwf) as [[E ->] | [r [E [Hr ->]]]]; simpl.
  - rewrite (existsb_false_filter _ _ E), owned_snoc, map_app. reflexivity.
  - assert (Hex : existsb (row_key (u_username u) (q_symbol q)) (portfolio d) = true).
    { apply existsb_exists. exists r. split; [exact Hr|].
      assert (Hin : In r (filter (row_key (u_username u) (q_symbol q)) (portfolio d))) by (rewrite E; left; reflexivity).
      apply filter_In in Hin. tauto. }
    rewrite Hex, filter_map_swap, !map_map.
    erewrite filter_ext by (intros x; destruct (row_key (u_username u) (q_symbol q) x); reflexivity).
    apply map_ext_in. intros x Hx. apply filter_In in Hx as [Hx Ho].
    rewrite <- (owned_row_key (u_username u) (q_symbol q) x Ho).
    destruct (row_key (u_username u) (q_symbol q) x) eqn:Hk; [|reflexivity].
    assert (Hkr : row_key (u_username u) (q_symbol q) r = true).
    { assert (Hin : In r (filter (row_key (u_username u) (q_symbol q)) (portfolio d))) by (rewrite E; left; reflexivity).
      apply filter_In in Hin. tauto. }
    rewrite (row_key_unique d Hwf (u_username u) (q_symbol q) x r Hx Hr Hk Hkr). reflexivity.
Qed.

Lemma buy_write_wf c0 : 1 <= n -> wf_db (buy_write d u q n c0).
Proof.
  intros Hn. pose proof (in_map u_username _ _ Hu) as Hname.
  apply (wf_db_write d _ _ _ Hwf (buy_write_users c0)).
  3: { destruct (buy_write_cases d u q n c0 Hwf) as [[E ->] | [r [E [Hr ->]]]]; simpl.
       - apply nodup_map_snoc; [apply wf_keys, Hwf|]. intros (x & Hk & Hx)%in_map_iff.
         assert (Hin : In x (filter (row_key (u_username u) (q_symbol q)) (portfolio d)))
           by (apply filter_In; split; [exact Hx | apply row_key_spec; exact Hk]).
         rewrite E in Hin. contradiction.
       - rewrite map_map. erewrite map_ext by (intros y; destruct (row_key _ _ y); reflexivity).
         apply wf_keys, Hwf. }
  3: { rewrite buy_write_history. intros h [Hh | [<- | []]]%in_app_or; eauto using wf_hist. }
  all: destruct (buy_write_cases d u q n c0 Hwf) as [[E ->] | [r [E [Hr ->]]]]; simpl.
  - intros x [Hx | [<- | []]]%in_app_or; eauto using wf_owner.
  - intros x (y & <- & Hy)%in_map_iff. destruct (row_key _ _ y); simpl; eauto using wf_owner.
  - intros x [Hx | [<- | []]]%in_app_or; eauto using wf_pos; simpl; lia.
  - intros x (y & <- & Hy)%in_map_iff. pose proof (wf_pos d Hwf r Hr).
    destruct (row_key _ _ y); simpl; eauto using wf_pos; lia.
Qed.

Lemma buy_effect_wf : 1 <= n -> wf_db (buy_effect d u q n).
Proof. apply buy_write_wf. Qed.
End Buy.

(** ** The write of a sale *)

(** Lines 243-258 with the read of [SUM(shares)] resolved on [d].  When
    no row matches, line 256 raises [TypeError] after the cash and
    history writes, which then stay. *)
Definition sell_effect (d : db) (u : user_row) (q : quote) (n : Z) : db :=
  let t := q_price q * n in
  let d2 := trade_log d u q (u_cash u + t) ((-1) * n) in
  match sum_shares (u_username u) (q_symbol q) d with
  | None => d2
  | Some ps => delete_zero_shares (update_portfolio_sub (ps - n) t (q_symbol q) (u_username u) d2)
  end.

Lemma select_shares_user d u sym :
  wf_db d -> In u (users d) ->
  select_shares d (u_id u) sym = map p_shares (filter (row_key (u_username u) sym) (portfolio d)).
Proof. intros Hwf Hu. unfold select_shares. rewrite username_of_id_user by assumption. reflexivity. Qed.

Lemma sell_post_run e f d ss u sym q txt n :
  wf_db d -> In u (users d) ->
  nonempty (form_get f "symbol") = Some sym -> quote_service e sym = Some q ->
  form_get f "shares" = Some txt -> py_int txt = Some n ->
  sell_post e f (u_id u) (mk_world d ss) =
    if n <? 1 then (Ok (apology "MISSING SHARES" 400), mk_world d ss)
    else match filter (row_key (u_username u) (q_symbol q)) (portfolio d) with
         | [] => (Raise IndexError, mk_world d ss)
         | r :: _ =>
             if p_shares r <? n
             then (Ok (apology "YOU DON'T OWN THESE SHARES" 400), mk_world d ss)
             else (Ok (Redirect "/"), mk_world (sell_effect d u q n) ss)
         end.
Proof.
  intros Hwf Hu Hsym Hq Hf Hn.
  apply nonempty_some in Hsym as [Hsym Hfalsy].
  unfold sell_post, checked_quote. rewrite Hfalsy, Hsym, Hf. run_step.
  rewrite Hq, Hn. run_step.
  destruct (n <? 1); [reflexivity|]. run_step.
  rewrite select_shares_user by assumption.
  destruct (filter (row_key (u_username u) (q_symbol q)) (portfolio d)) as [|r rs] eqn:E;
    cbn [map]; run_step; [reflexivity|].
  destruct (p_shares r <? n); [reflexivity|]. run_step.
  rewrite select_username_user, select_cash_user by assumption. run_step.
  unfold sell_effect, sum_shares. simpl. rewrite E. reflexivity.
Qed.

Lemma sell_effect_row d u q n r :
  filter (row_key (u_username u) (q_symbol q)) (portfolio d) = [r] ->
  sell_effect d u q n =
  delete_zero_shares (update_portfolio_sub (p_shares r - n) (q_price q * n) (q_symbol q) (u_username u)
                        (trade_log d u q (u_cash u + q_price q * n) ((-1) * n))).
Proof. intros E. unfold sell_effect. rewrite (sum_shares_one _ _ _ r E). reflexivity. Qed.

(** The shares of a symbol, read on the rows or on the holdings. *)
Lemma find_holdings name sym rows :
  find (is_sym sym) (map holding_of (filter (owned_by name) rows)) =
  option_map holding_of (find (row_key name sym) rows).
Proof.
  induction rows as [|r rows IH]; simpl; [reflexivity|].
  destruct (owned_by name r) eqn:Ho; simpl.
  - rewrite <- (owned_row_key name sym r Ho). destruct (row_key name sym r); [reflexivity | exact IH].
  - unfold row_key. unfold owned_by in Ho. rewrite Ho. exact IH.
Qed.

Lemma held_account d u sym :
  held (aholdings (account_of_user d u)) sym =
  match filter (row_key (u_username u) sym) (portfolio d) with
  | [] => 0
  | r :: _ => p_shares r
  end.
Proof.
  unfold held, account_of_user. simpl. rewrite find_holdings.
  destruct (filter (row_key (u_username u) sym) (portfolio d)) as [|r rs] eqn:E.
  - destruct (find (row_key (u_username u) sym) (portfolio d)) eqn:F; [|reflexivity].
    apply find_some in F as [F Hk].
    assert (Hin : In p (filter (row_key (u_username u) sym) (portfolio d))) by (apply filter_In; auto).
    rewrite E in Hin. contradiction.
  - rewrite (find_filter_head _ _ _ _ E). reflexivity.
Qed.

Section Sell.
Variables (d : db) (u : user_row) (q : quote) (n : Z) (r : portfolio_row).
Hypothesis Hwf : wf_db d.
Hypothesis Hu : In u (users d).
Hypothesis E : filter (row_key (u_username u) (q_symbol q)) (portfolio d) = [r].

Lemma sell_row_in : In r (portfolio d) /\ row_key (u_username u) (q_symbol q) r = true.
Proof.
  assert (Hin : In r (filter (row_key (u_username u) (q_symbol q)) (portfolio d))) by (rewrite E; left; reflexivity).
  apply filter_In in Hin. exact Hin.
Qed.

Lemma sell_key_row x : In x (portfolio d) -> row_key (u_username u) (q_symbol q) x = true -> x = r.
Proof. intros Hx Hk. destruct sell_row_in as [Hr Hkr]. exact (row_key_unique d Hwf _ _ x r Hx Hr Hk Hkr). Qed.

Lemma sell_effect_users :
  users (sell_effect d u q n) = map (cash_update (u_cash u + q_price q * n) (u_id u)) (users d).
Proof. rewrite (sell_effect_row d u q n r E). reflexivity. Qed.

Lemma sell_effect_history :
  history (sell_effect d u q n) = history d ++ [mk_hrow (q_symbol q) ((-1) * n) (q_price q) (u_username u)].
Proof. rewrite (sell_effect_row d u q n r E). reflexivity. Qed.

Lemma sell_effect_other uid : uid <> u_id u -> account_of (sell_effect d u q n) uid = account_of d uid.
Proof.
  apply (account_of_frame d _ u (u_cash u + q_price q * n) Hwf Hu sell_effect_users).
  - intros name' Hne. rewrite (sell_effect_row d u q n r E). simpl.
    rewrite filter_comm, owned_update_other by auto.
    apply filter_all. intros x Hx. apply filter_In in Hx as [Hx _].
    pose proof (wf_pos d Hwf x Hx). apply negb_true_iff, Z.eqb_neq. lia.
  - intros name' Hne. rewrite sell_effect_history. apply logged_snoc_other; auto.
Qed.

Lemma sell_effect_self :
  1 <= n -> n <= p_shares r ->
  account_of (sell_effect d u q n) (u_id u) = acct_sell (account_of_user d u) q n.
Proof.
  intros Hn Hle. rewrite (account_of_self d _ u (u_cash u + q_price q * n) Hwf Hu sell_effect_users).
  unfold acct_sell. rewrite held_account, E.
  destruct (Z.ltb_spec n 1); [lia|]. destruct (Z.ltb_spec (p_shares r) n); [lia|].
  unfold account_of_user. simpl.
  rewrite sell_effect_history, logged_snoc, map_app. f_equal. f_equal.
  rewrite (sell_effect_row d u q n r E). simpl.
  rewrite filter_comm, filter_map_swap.
  erewrite (filter_ext (fun x => owned_by _ _)) by (intros y; destruct (row_key _ _ y); reflexivity).
  apply map_filter_map; intros x Hx; apply filter_In in Hx as [Hx Ho];
    rewrite <- (owned_row_key (u_username u) (q_symbol q) x Ho);
    destruct (row_key (u_username u) (q_symbol q) x) eqn:Hk.
  - rewrite (sell_key_row x Hx Hk). reflexivity.
  - reflexivity.
  - pose proof (sell_key_row x Hx Hk) as ->.
    change (is_sym (q_symbol q) (add_to (- n) (- (q_price q * n)) (holding_of r)))
      with (is_sym (q_symbol q) (holding_of r)).
    rewrite <- (owned_row_key _ _ r Ho), Hk. reflexivity.
  - simpl. pose proof (wf_pos d Hwf x Hx).
    destruct (Z.eqb_spec (p_shares x) 0); [lia|]. rewrite andb_false_r. reflexivity.
Qed.

Lemma sell_effect_wf : n <= p_shares r -> wf_db (sell_effect d u q n).
Proof.
  intros Hle. destruct sell_row_in as [Hr Hkr].
  apply (wf_db_write d _ _ _ Hwf sell_effect_users).
  4: { rewrite sell_effect_history. intros h [Hh | [<- | []]]%in_app_or;
       [eauto using wf_hist | simpl; apply in_map; exact Hu]. }
  all: rewrite (sell_effect_row d u q n r E); simpl.
  - intros x (Hx & _)%filter_In. apply in_map_iff in Hx as (y & <- & Hy).
    destruct (row_key _ _ y); simpl; eauto using wf_owner.
  - intros x (Hx & Hnz)%filter_In. apply in_map_iff in Hx as (y & <- & Hy).
    destruct (row_key _ _ y) eqn:Hk; simpl in *; eauto using wf_pos.
    apply negb_true_iff, Z.eqb_neq in Hnz. lia.
  - apply nodup_map_filter. rewrite map_map.
    erewrite map_ext by (intros y; destruct (row_key _ _ y); reflexivity). apply wf_keys, Hwf.
Qed.
End Sell.
