(* ===== verification/Refinement.v ===== *)
(** * Refinement: the trade handlers implement the account specification

    For a logged-in user of a well-formed database, a POST to [/buy] or
    [/sell] with a symbol the quote service knows and a shares field that
    [int] accepts does to the user's abstract account exactly what
    [acct_buy] or [acct_sell] of [Account] prescribe: when the operation
    is defined the handler redirects to [/] and the account becomes its
    result, and when it is refused the handler answers with an error and
    changes nothing.  Every other account is left as it was, and the
    session is not touched.

    The one place where the handler's answer differs from the
    specification's is the sale of a symbol the user does not hold: the
    specification refuses it as an ordinary insufficient-shares error,
    the handler raises [IndexError] at [[0]] (line 233), which the error
    handler turns into a 500 page ([Responses.sell_unheld_internal_error]). *)

From Stdlib Require Import String List ZArith Lia Bool.
From S2P Require Import Prelude PyInt Db Http Services Trade Auth Account Invariant TradeFacts.
Import ListNotations.
Open Scope string_scope.
Open Scope list_scope.
Open Scope Z_scope.
Open Scope fin_scope.

(** A POST under [login_required] for the user [uid] in session. *)
Lemma login_required_run (h : Z -> M response) d uid :
  login_required h (mk_world d (Some uid)) = h uid (mk_world d (Some uid)).
Proof. reflexivity. Qed.

(** The answer of a refused operation: an apology with status 400. *)
Definition is_apology400 (o : outcome exn response) : Prop :=
  exists msg, o = Ok (apology msg 400).

Section Refinement.
Variables (e : env) (f : list (string * string)) (d : db) (uid : Z) (a : account).
Variables (sym txt : string) (q : quote) (n : Z).
Hypothesis Hwf : wf_db d.
Hypothesis Hacc : account_of d uid = Some a.
Hypothesis Hsym : nonempty (form_get f "symbol") = Some sym.
Hypothesis Hq : quote_service e sym = Some q.
Hypothesis Hf : form_get f "shares" = Some txt.
Hypothesis Hn : py_int txt = Some n.

Lemma buy_handler :
  let (o, w') := buy e POST f (mk_world d (Some uid)) in
  session w' = Some uid /\
  (forall uid', uid' <> uid -> account_of (wdb w') uid' = account_of d uid') /\
  match acct_buy a q n with
  | Some a' => o = Ok (Redirect "/") /\ account_of (wdb w') uid = Some a'
  | None => is_apology400 o /\ wdb w' = d
  end.
Proof.
  destruct (account_of_some d uid a Hacc) as (u & Hu & <- & ->).
  unfold buy. rewrite login_required_run, (buy_post_run e f d _ u sym q txt n Hwf Hu Hsym Hq Hf Hn).
  destruct (acct_buy (account_of_user d u) q n) as [a'|] eqn:Ha; pose proof Ha as Hdef;
    unfold acct_buy in Hdef; cbn [acash account_of_user] in Hdef;
    destruct (Z.ltb_spec n 1); try discriminate;
    destruct (Z.ltb_spec (u_cash u) (q_price q * n)); try discriminate;
    simpl; repeat split; eauto; try (eexists; reflexivity).
  - intros uid' Hne. apply buy_effect_other; auto.
  - rewrite buy_effect_self by (auto; lia). exact Ha.
Qed.

Lemma sell_handler :
  let (o, w') := sell e POST f (mk_world d (Some uid)) in
  session w' = Some uid /\
  (forall uid', uid' <> uid -> account_of (wdb w') uid' = account_of d uid') /\
  match acct_sell a q n with
  | Some a' => o = Ok (Redirect "/") /\ account_of (wdb w') uid = Some a'
  | None => (is_apology400 o \/ o = Raise IndexError) /\ wdb w' = d
  end.
Proof.
  destruct (account_of_some d uid a Hacc) as (u & Hu & <- & ->).
  unfold sell. rewrite login_required_run. run_step.
  rewrite (sell_post_run e f d _ u sym q txt n Hwf Hu Hsym Hq Hf Hn).
  destruct (acct_sell (account_of_user d u) q n) as [a'|] eqn:Ha; pose proof Ha as Hdef;
    unfold acct_sell in Hdef; rewrite held_account in Hdef;
    destruct (portfolio_key_cases d Hwf (u_username u) (q_symbol q)) as [E | [r [E [Hr _]]]];
    rewrite E in Hdef |- *;
    destruct (Z.ltb_spec n 1); try discriminate;
    try destruct (Z.ltb_spec 0 n); try destruct (Z.ltb_spec (p_shares r) n); try discriminate;
    try lia; simpl; repeat split; eauto; try (left; eexists; reflexivity); try (right; reflexivity).
  - intros uid' Hne. apply (sell_effect_other d u q n r Hwf Hu E); auto.
  - rewrite (sell_effect_self d u q n r Hwf Hu E) by lia. exact Ha.
Qed.

(** C1: the purchase handler refines [acct_buy]. *)
Theorem buy_refines :
  let (o, w') := buy e POST f (mk_world d (Some uid)) in
  session w' = Some uid /\
  (forall uid', uid' <> uid -> account_of (wdb w') uid' = account_of d uid') /\
  match acct_buy a q n with
  | Some a' => o = Ok (Redirect "/") /\ account_of (wdb w') uid = Some a'
  | None => is_apology400 o /\ wdb w' = d
  end.
Proof. exact buy_handler. Qed.

(** C2: the sale handler refines [acct_sell]; a refused sale answers
    with an apology, or raises [IndexError] when no share of the symbol
    is held, and changes nothing. *)
Theorem sell_refines :
  let (o, w') := sell e POST f (mk_world d (Some uid)) in
  session w' = Some uid /\
  (forall uid', uid' <> uid -> account_of (wdb w') uid' = account_of d uid') /\
  match acct_sell a q n with
  | Some a' => o = Ok (Redirect "/") /\ account_of (wdb w') uid = Some a'
  | None => (is_apology400 o \/ o = Raise IndexError) /\ wdb w' = d
  end.
Proof. exact sell_handler. Qed.
End Refinement.

(** ** The refinement at a concrete account *)

Definition demo_quote : quote := mk_quote "Apple" 150 "AAPL".

Definition demo_env : env :=
  mk_env (fun s => if String.eqb s "aapl" then Some demo_quote else None) "salt".

Definition demo_db : db :=
  mk_db [mk_user 1 "bob" "pw" 10000; mk_user 2 "amy" "pw2" 500]
        [mk_prow "bob" "AAPL" "Apple" 10 150 1500; mk_prow "amy" "AAPL" "Apple" 3 140 420]
        [mk_hrow "AAPL" 10 150 "bob"; mk_hrow "AAPL" 3 140 "amy"].

Definition demo_account : account :=
  mk_account 10000 [mk_holding "AAPL" "Apple" 10 150 1500] [("AAPL", 10, 150)].

Lemma buy_refines_witness :
  let (o, w') := buy demo_env POST [("symbol", "aapl"); ("shares", "10")] (mk_world demo_db (Some 1)) in
  session w' = Some 1 /\
  (forall uid', uid' <> 1 -> account_of (wdb w') uid' = account_of demo_db uid') /\
  match acct_buy demo_account demo_quote 10 with
  | Some a' => o = Ok (Redirect "/") /\ account_of (wdb w') 1 = Some a'
  | None => is_apology400 o /\ wdb w' = demo_db
  end.
Proof.
  apply (buy_refines demo_env _ demo_db 1 demo_account "aapl" "10" demo_quote 10).
  - apply wf_dbb_sound. vm_compute. reflexivity.
  - vm_compute. reflexivity.
  - vm_compute. reflexivity.
  - vm_compute. reflexivity.
  - vm_compute. reflexivity.
  - vm_compute. reflexivity.
Defined.

Lemma sell_refines_witness :
  let (o, w') := sell demo_env POST [("symbol", "aapl"); ("shares", "4")] (mk_world demo_db (Some 1)) in
  session w' = Some 1 /\
  (forall uid', uid' <> 1 -> account_of (wdb w') uid' = account_of demo_db uid') /\
  match acct_sell demo_account demo_quote 4 with
  | Some a' => o = Ok (Redirect "/") /\ account_of (wdb w') 1 = Some a'
  | None => (is_apology400 o \/ o = Raise IndexError) /\ wdb w' = demo_db
  end.
Proof.
  apply (sell_refines demo_env _ demo_db 1 demo_account "aapl" "4" demo_quote 4).
  - apply wf_dbb_sound. vm_compute. reflexivity.
  - vm_compute. reflexivity.
  - vm_compute. reflexivity.
  - vm_compute. reflexivity.
  - vm_compute. reflexivity.
  - vm_compute. reflexivity.
Defined.
