(* ===== verification/ViewFacts.v ===== *)
(** * ViewFacts: what the read-only pages show

    The portfolio page and the history page of a logged-in user show that
    user's account as [Account.account_of] abstracts it: the holdings, the
    cash, and the ledger.  The grand total of the portfolio page is the
    cash plus the stored [total] column of the holdings, computed by the
    loop of lines 50-52; it is not the market value of the holdings that
    the specification describes. *)

From Stdlib Require Import String List ZArith Lia Bool.
From S2P Require Import Prelude Db Http Services Trade Views App Account Scenario Invariant TradeFacts.
Import ListNotations.
Open Scope string_scope.
Open Scope list_scope.
Open Scope Z_scope.

(** The [for] loop of [index] adds the totals to the running sum. *)
Lemma total_loop_sum c rows : total_loop c rows = c + sumZ p_total rows.
Proof.
  unfold total_loop. revert c. induction rows as [|r rows IH]; intros c; cbn [fold_left sumZ].
  - unfold sumZ. simpl. lia.
  - rewrite IH. unfold sumZ. simpl. lia.
Qed.

Lemma sumZ_map {A B} (f : B -> Z) (g : A -> B) l : sumZ f (map g l) = sumZ (fun a => f (g a)) l.
Proof. induction l as [|a l IH]; [reflexivity|]. unfold sumZ in *. simpl. rewrite IH. reflexivity. Qed.

Section Views.
Variable d : db.
Hypothesis Hwf : wf_db d.

Lemma select_portfolio_user u :
  In u (users d) -> select_portfolio d (u_id u) = filter (owned_by (u_username u)) (portfolio d).
Proof. intros Hu. unfold select_portfolio. rewrite username_of_id_user by assumption. reflexivity. Qed.

Lemma select_history_user u :
  In u (users d) -> select_history d (u_id u) = filter (logged_by (u_username u)) (history d).
Proof. intros Hu. unfold select_history. rewrite username_of_id_user by assumption. reflexivity. Qed.

(** C13: for a user whose account is [a], the portfolio page lists the
    rows whose holdings are those of [a], shows the cash of [a], and shows
    as grand total the cash plus the stored totals of the holdings; the
    history page lists the rows whose entries are the ledger of [a], in
    the order they were inserted.  Neither page writes anything. *)
Theorem views_show_account uid a :
  account_of d uid = Some a ->
  exists prows hrows,
    index (mk_world d (Some uid)) =
      (Ok (Page (PIndex (acash a + sumZ htotal (aholdings a)) (acash a) prows)), mk_world d (Some uid)) /\
    map holding_of prows = aholdings a /\
    history_view (mk_world d (Some uid)) = (Ok (Page (PHistory hrows)), mk_world d (Some uid)) /\
    map entry_of hrows = aledger a.
Proof.
  intros Ha. destruct (account_of_some d uid a Ha) as (u & Hu & <- & ->).
  exists (filter (owned_by (u_username u)) (portfolio d)), (filter (logged_by (u_username u)) (history d)).
  unfold index, history_view. run_step.
  rewrite select_portfolio_user, select_history_user, select_cash_user by assumption.
  cbn [account_of_user acash aholdings aledger]. rewrite total_loop_sum, sumZ_map.
  repeat split.
Qed.

(** The sale form ([GET /sell]) of a user whose account is [a]
    offers exactly the symbols of the holdings of [a], in their order,
    and writes nothing. *)
Theorem sell_form_lists_holdings e f uid a :
  account_of d uid = Some a ->
  sell e GET f (mk_world d (Some uid)) = (Ok (Page (PSellForm (map hsym (aholdings a)))), mk_world d (Some uid)).
Proof.
  intros Ha. destruct (account_of_some d uid a Ha) as (u & Hu & <- & ->).
  unfold sell. run_step. unfold select_symbols. rewrite select_portfolio_user by exact Hu.
  cbn [account_of_user aholdings]. rewrite map_map. reflexivity.
Qed.
End Views.

(** After the example of section 8, the portfolio page shows 9300 in cash
    and a grand total of 10000: the stored total of the 6 shares left is
    700, where their value at the price of the sale is 1200. *)
Lemma views_show_account_witness :
  exists prows hrows,
    index (mk_world (sdb (run_trace init_server spec_trace)) (Some 1)) =
      (Ok (Page (PIndex (9300 + 700) 9300 prows)), mk_world (sdb (run_trace init_server spec_trace)) (Some 1)) /\
    map holding_of prows = [mk_holding "AAPL" "Apple" 6 150 700] /\
    history_view (mk_world (sdb (run_trace init_server spec_trace)) (Some 1)) =
      (Ok (Page (PHistory hrows)), mk_world (sdb (run_trace init_server spec_trace)) (Some 1)) /\
    map entry_of hrows = [("AAPL", 10, 150); ("AAPL", -4, 200)].
Proof.
  apply (views_show_account (sdb (run_trace init_server spec_trace)) ltac:(apply wf_dbb_sound; vm_compute; reflexivity) 1
           (mk_account 9300 [mk_holding "AAPL" "Apple" 6 150 700] [("AAPL", 10, 150); ("AAPL", -4, 200)])).
  vm_compute. reflexivity.
Defined.

Lemma sell_form_lists_holdings_witness :
  sell (market 150) GET [] (mk_world (sdb (run_trace init_server (firstn 3 spec_trace))) (Some 1)) =
    (Ok (Page (PSellForm ["AAPL"])), mk_world (sdb (run_trace init_server (firstn 3 spec_trace))) (Some 1)).
Proof.
  apply (sell_form_lists_holdings (sdb (run_trace init_server (firstn 3 spec_trace)))
           ltac:(apply wf_dbb_sound; vm_compute; reflexivity) (market 150) [] 1
           (mk_account 8500 [mk_holding "AAPL" "Apple" 10 150 1500] [("AAPL", 10, 150)])).
  vm_compute. reflexivity.
Defined.

