(* ===== verification/Safety.v ===== *)
(** * Safety: the invariant of every reachable server

    [wf_world] extends [wf_db] with the session: a session that names a
    user names one that exists.  Every handler, on every input, keeps it
    and never removes a user id, so by induction on [reachable] every
    state the server can reach, whatever requests its clients send in
    whatever order, has a well-formed database and only valid sessions.

    The proof goes handler by handler: the read-only handlers and the
    routing errors leave the world as it is, invalid trade input is
    rejected before any write, and the writes of valid trades are those
    of [TradeFacts], which keep [wf_db]. *)

From Stdlib Require Import String List ZArith Lia Bool.
From S2P Require Import Prelude PyInt Db Http Services Trade Auth Views App Account Scenario Invariant TradeFacts.
Import ListNotations.
Open Scope string_scope.
Open Scope list_scope.
Open Scope Z_scope.
Open Scope fin_scope.

Definition wf_world (w : world) : Prop :=
  wf_db (wdb w) /\ forall uid, session w = Some uid -> In uid (map u_id (users (wdb w))).

Definition ids_grow (d d' : db) : Prop :=
  forall uid, In uid (map u_id (users d)) -> In uid (map u_id (users d')).

(** What a handler run must do: end in a [wf_world] and keep every id. *)
Definition good_run (w w' : world) : Prop := wf_world w' /\ ids_grow (wdb w) (wdb w').

Lemma good_run_refl w : wf_world w -> good_run w w.
Proof. intros H. split; [exact H | intros uid Hin; exact Hin]. Qed.

(** A handler that never writes. *)
Definition readonly (m : M response) : Prop := forall w, snd (m w) = w.

Lemma readonly_good m w : readonly m -> wf_world w -> good_run w (snd (m w)).
Proof. intros Hm Hw. rewrite Hm. apply good_run_refl, Hw. Qed.

Lemma index_readonly : readonly index.
Proof.
  intros [d [uid|]]; [|reflexivity]. unfold index. run_step.
  destruct (select_cash d uid); reflexivity.
Qed.

Lemma history_readonly : readonly history_view.
Proof. intros [d [uid|]]; reflexivity. Qed.

Lemma quote_readonly e m f : readonly (quote_view e m f).
Proof.
  intros [d [uid|]]; [|reflexivity]. unfold quote_view. run_step.
  destruct m; try reflexivity. destruct (form_get f "symbol"); run_step; [|reflexivity].
  destruct (quote_service e s); reflexivity.
Qed.

(** ** Invalid trade input is rejected before any write *)

Definition valid_trade_input (e : env) (f : list (string * string)) : Prop :=
  exists sym q txt n, nonempty (form_get f "symbol") = Some sym /\ quote_service e sym = Some q /\
                      form_get f "shares" = Some txt /\ py_int txt = Some n.

Lemma nonempty_of_falsy s : falsy (Some s) = false -> nonempty (Some s) = Some s.
Proof. simpl. intros ->. reflexivity. Qed.

Lemma buy_post_invalid e f uid w :
  ~ valid_trade_input e f -> snd (buy_post e f uid w) = w.
Proof.
  intros Hv. unfold buy_post, checked_quote.
  destruct (form_get f "symbol") as [s|] eqn:Hs; run_step; [|reflexivity].
  destruct (form_get f "shares") as [txt|] eqn:Ht; run_step; [|reflexivity].
  destruct (py_int txt) as [n|] eqn:Hn; run_step; [|reflexivity].
  destruct (falsy (Some s)) eqn:Hf; [reflexivity|].
  destruct (quote_service e s) as [q|] eqn:Hq; [|reflexivity].
  exfalso. apply Hv. exists s, q, txt, n. rewrite Hs, nonempty_of_falsy by exact Hf. auto.
Qed.

Lemma sell_post_invalid e f uid w :
  ~ valid_trade_input e f -> snd (sell_post e f uid w) = w.
Proof.
  intros Hv. unfold sell_post, checked_quote.
  destruct (form_get f "symbol") as [s|] eqn:Hs; run_step; [|reflexivity].
  destruct (form_get f "shares") as [txt|] eqn:Ht; run_step; [|reflexivity].
  destruct (py_int txt) as [n|] eqn:Hn; run_step; [|reflexivity].
  destruct (falsy (Some s)) eqn:Hf; [reflexivity|].
  destruct (quote_service e s) as [q|] eqn:Hq; [|reflexivity].
  exfalso. apply Hv. exists s, q, txt, n. rewrite Hs, nonempty_of_falsy by exact Hf. auto.
Qed.

(** ** What a request can do to the database

    [db_change e actor d d'] lists the writes a request of a client
    logged in as [actor] can make in the environment [e]: none, a
    purchase or a sale by that user at a quote the service gave and
    within the guards of the handler, or the insertion of a new user.  [session_change] lists what it can do to
    the session: nothing, clear it, or log a registered user in. *)

Definition quote_of (e : env) (q : quote) : Prop := exists sym, quote_service e sym = Some q.

Inductive db_change (e : env) (actor : option Z) (d : db) : db -> Prop :=
| change_none : db_change e actor d d
| change_buy u q n :
    actor = Some (u_id u) ->
    In u (users d) -> quote_of e q -> 1 <= n -> q_price q * n <= u_cash u ->
    db_change e actor d (buy_effect d u q n)
| change_sell u q n r :
    actor = Some (u_id u) ->
    In u (users d) -> quote_of e q ->
    filter (row_key (u_username u) (q_symbol q)) (portfolio d) = [r] -> 1 <= n -> n <= p_shares r ->
    db_change e actor d (sell_effect d u q n)
| change_register name h d' :
    insert_user name h d = Some d' -> db_change e actor d d'.

Definition session_change (w w' : world) : Prop :=
  session w' = session w \/ session w' = None \/
  exists u, In u (users (wdb w')) /\ session w' = Some (u_id u).

Definition run_change (e : env) (w w' : world) : Prop :=
  db_change e (session w) (wdb w) (wdb w') /\ session_change w w'.

Lemma run_change_refl e w : run_change e w w.
Proof. split; [apply change_none | left; reflexivity]. Qed.

#[export] Hint Resolve run_change_refl : finance.

Lemma readonly_change e m w : readonly m -> run_change e w (snd (m w)).
Proof. intros Hm. rewrite Hm. apply run_change_refl. Qed.

Lemma session_user w uid :
  wf_world w -> session w = Some uid -> exists u, In u (users (wdb w)) /\ u_id u = uid.
Proof.
  intros [_ Hs] Hu. apply Hs, in_map_iff in Hu as (u & <- & Hu). eauto.
Qed.

(** Split on whether the trade input is valid, naming its parts. *)
Ltac trade_input e f :=
  let Hs := fresh "Hs" in let Hq := fresh "Hq" in let Ht := fresh "Ht" in let Hn := fresh "Hn" in
  destruct (nonempty (form_get f "symbol")) as [sym|] eqn:Hs;
  [destruct (quote_service e sym) as [q|] eqn:Hq;
   [destruct (form_get f "shares") as [txt|] eqn:Ht;
    [destruct (py_int txt) as [n|] eqn:Hn|]|]|];
  try (match goal with
       | |- run_change e ?w (snd (?h e f ?uid ?w)) =>
           replace (snd (h e f uid w)) with w;
           [ apply run_change_refl
           | symmetry; first [apply buy_post_invalid | apply sell_post_invalid];
             intros (sym' & q' & txt' & n' & H1 & H2 & H3 & H4); congruence ]
       end).

Lemma buy_post_change e f w uid :
  wf_world w -> session w = Some uid -> run_change e w (snd (buy_post e f uid w)).
Proof.
  intros Hw Hsess. destruct (session_user w uid Hw Hsess) as (u & Hu & <-).
  destruct w as [d ss]. pose proof (proj1 Hw) as Hwf. simpl in Hu, Hwf.
  trade_input e f.
  rewrite (buy_post_run e f d ss u sym q txt n Hwf Hu Hs Hq Ht Hn).
  destruct (Z.ltb_spec n 1); [apply run_change_refl|].
  destruct (Z.ltb_spec (u_cash u) (q_price q * n)); [apply run_change_refl|].
  split; [apply change_buy; eauto; exists sym; exact Hq | left; reflexivity].
Qed.

Lemma sell_post_change e f w uid :
  wf_world w -> session w = Some uid -> run_change e w (snd (sell_post e f uid w)).
Proof.
  intros Hw Hsess. destruct (session_user w uid Hw Hsess) as (u & Hu & <-).
  destruct w as [d ss]. pose proof (proj1 Hw) as Hwf. simpl in Hu, Hwf.
  trade_input e f.
  rewrite (sell_post_run e f d ss u sym q txt n Hwf Hu Hs Hq Ht Hn).
  destruct (Z.ltb_spec n 1); [apply run_change_refl|].
  destruct (portfolio_key_cases d Hwf (u_username u) (q_symbol q)) as [E | [r [E _]]];
    rewrite E; [apply run_change_refl|].
  destruct (Z.ltb_spec (p_shares r) n); [apply run_change_refl|].
  split; [eapply change_sell; eauto; exists sym; exact Hq | left; reflexivity].
Qed.

Lemma login_required_change e h w :
  (forall uid, session w = Some uid -> run_change e w (snd (h uid w))) ->
  run_change e w (snd (login_required h w)).
Proof. intros Hh. destruct w as [d [uid|]]; run_step; [apply Hh; reflexivity | apply run_change_refl]. Qed.

Lemma buy_change e m f w : wf_world w -> run_change e w (snd (buy e m f w)).
Proof.
  intros Hw. apply login_required_change. intros uid Hs.
  destruct m; [apply run_change_refl | apply buy_post_change; auto | apply run_change_refl].
Qed.

Lemma sell_change e m f w : wf_world w -> run_change e w (snd (sell e m f w)).
Proof.
  intros Hw. apply login_required_change. intros uid Hs. destruct w as [d ss]. run_step.
  destruct m; [apply run_change_refl | apply sell_post_change; auto | apply run_change_refl].
Qed.

Section AuthChange.
Context `{PasswordHasher}.

Lemma register_change e m f w : run_change e w (snd (register e m f w)).
Proof.
  destruct w as [d ss]. unfold register.
  destruct m; try apply run_change_refl. unfold register_post, hash_field.
  destruct (form_get f "password") as [p|]; run_step; [|apply run_change_refl].
  destruct (nonempty (form_get f "username")) as [name|]; [|apply run_change_refl].
  destruct (nonempty (Some p)); [|apply run_change_refl].
  destruct (nonempty (form_get f "confirmation")) as [c|]; [|apply run_change_refl].
  destruct (negb _); [apply run_change_refl|].
  unfold exec_insert_user. run_step.
  destruct (insert_user name _ d) as [d'|] eqn:Hi; run_step; [|apply run_change_refl].
  split; [eapply change_register; eauto | left; reflexivity].
Qed.

Lemma login_change e m f w : run_change e w (snd (login m f w)).
Proof.
  destruct w as [d ss]. unfold login. run_step.
  assert (Hnone : run_change e (mk_world d ss) (mk_world d None))
    by (split; [apply change_none | right; left; reflexivity]).
  destruct m; try exact Hnone.
  destruct (nonempty (form_get f "username")) as [name|]; [|exact Hnone].
  destruct (nonempty (form_get f "password")) as [pw|]; [|exact Hnone]. run_step.
  destruct (select_users_by_username d name) as [|u [|v rs]] eqn:Hrows; try exact Hnone.
  destruct (check_password_hash (u_hash u) pw); run_step; [|exact Hnone].
  split; [apply change_none | right; right; exists u; split; [|reflexivity]].
  assert (Hu : In u (select_users_by_username d name)) by (rewrite Hrows; left; reflexivity).
  apply filter_In in Hu. apply Hu.
Qed.

Lemma logout_change e w : run_change e w (snd (logout w)).
Proof. destruct w as [d ss]. split; [apply change_none | right; left; reflexivity]. Qed.

(** Every request, in a valid world, changes the database and the
    session only in the listed ways. *)
Lemma dispatch_change e r w : wf_world w -> run_change e w (snd (dispatch e r w)).
Proof.
  intros Hw. unfold dispatch.
  destruct (match_route (path r)) as [[rt ms]|];
    [|destruct (match_route (merge_slashes (path r))); apply run_change_refl].
  destruct (existsb (meth_eqb (method r)) (rule_methods ms)); [|apply run_change_refl].
  destruct (meth_eqb (method r) options_meth); [apply run_change_refl|].
  destruct rt; simpl.
  - apply readonly_change, index_readonly.
  - apply buy_change, Hw.
  - apply readonly_change, history_readonly.
  - apply login_change.
  - apply logout_change.
  - apply readonly_change, quote_readonly.
  - apply register_change.
  - apply sell_change, Hw.
Qed.
End AuthChange.

(** ** Each change keeps the invariant *)

Lemma next_id_fresh d u : In u (users d) -> u_id u < next_id d.
Proof.
  unfold next_id. induction (users d) as [|v us IH]; simpl; [contradiction|].
  intros [<- | Hu]; [lia|]. specialize (IH Hu). lia.
Qed.

Lemma insert_user_users name h d d' :
  insert_user name h d = Some d' ->
  users d' = users d ++ [mk_user (next_id d) name h default_cash] /\
  portfolio d' = portfolio d /\ history d' = history d /\
  ~ In name (map u_username (users d)).
Proof.
  unfold insert_user. destruct (existsb (fun u => String.eqb (u_username u) name) (users d)) eqn:Hex;
    [discriminate|]. intros Heq. injection Heq as <-. simpl. repeat split.
  intros (v & Hv & Hin)%in_map_iff.
  assert (existsb (fun u => String.eqb (u_username u) name) (users d) = true)
    by (apply existsb_exists; exists v; split; [exact Hin | apply String.eqb_eq; exact Hv]).
  congruence.
Qed.

Lemma insert_user_wf name h d d' : wf_db d -> insert_user name h d = Some d' -> wf_db d' /\ ids_grow d d'.
Proof.
  intros Hwf Hins. destruct (insert_user_users name h d d' Hins) as (Hus & Hp & Hh & Hnew).
  assert (Hsub : forall x, In x (map u_username (users d)) -> In x (map u_username (users d')))
    by (intros x Hx; rewrite Hus, map_app; apply in_or_app; left; exact Hx).
  split; [constructor; rewrite ?Hp, ?Hh|].
  - rewrite Hus. apply (nodup_map_snoc u_id); [apply wf_ids, Hwf|]. simpl.
    intros (v & Hv & Hin)%in_map_iff. pose proof (next_id_fresh d v Hin). lia.
  - rewrite Hus. apply (nodup_map_snoc u_username); [apply wf_names, Hwf | exact Hnew].
  - intros r Hr. apply Hsub, (wf_owner d Hwf r Hr).
  - apply (wf_pos d Hwf).
  - apply (wf_keys d Hwf).
  - intros x Hx. apply Hsub, (wf_hist d Hwf x Hx).
  - intros uid Hu. rewrite Hus, map_app. apply in_or_app. left. exact Hu.
Qed.

Lemma cash_write_ids d d' c uid :
  users d' = map (cash_update c uid) (users d) -> ids_grow d d'.
Proof. intros Hus x Hx. rewrite Hus, map_id_cash_update. exact Hx. Qed.

Lemma db_change_wf e a d d' : wf_db d -> db_change e a d d' -> wf_db d' /\ ids_grow d d'.
Proof.
  intros Hwf Hc. destruct Hc as [| u q n _ Hu _ Hn Hc | u q n r _ Hu _ E Hn Hle | name h d' Hins].
  - split; [exact Hwf | intros x Hx; exact Hx].
  - split; [apply buy_effect_wf; auto | eapply cash_write_ids, buy_effect_users; eauto].
  - split; [apply (sell_effect_wf d u q n r); auto | eapply cash_write_ids, (sell_effect_users d u q n r); eauto].
  - eapply insert_user_wf; eauto.
Qed.

Lemma run_change_wf e w w' : wf_world w -> run_change e w w' -> wf_world w' /\ ids_grow (wdb w) (wdb w').
Proof.
  intros [Hwf Hs] [Hc Hsc]. destruct (db_change_wf e _ _ _ Hwf Hc) as [Hwf' Hgrow].
  split; [split; [exact Hwf'|] | exact Hgrow].
  intros uid Huid. destruct Hsc as [Heq | [Hnone | (u & Hu & Hsu)]].
  - apply Hgrow, Hs. congruence.
  - congruence.
  - rewrite Hsu in Huid. injection Huid as <-. apply in_map, Hu.
Qed.

(** ** The server *)

Section Server.
Context `{PasswordHasher}.

Definition wf_server (s : server) : Prop :=
  wf_db (sdb s) /\ forall cookie uid, session_of s cookie = Some uid -> In uid (map u_id (users (sdb s))).

Lemma session_of_store d cookie v ss c :
  session_of (mk_server d (store_session cookie v ss)) c =
  if Z.eqb cookie c then v else session_of (mk_server d ss) c.
Proof.
  unfold session_of, store_session. simpl.
  destruct (Z.eqb_spec cookie c) as [->|Hne]; [reflexivity|].
  induction ss as [|[k x] ss IH]; simpl; [reflexivity|].
  destruct (Z.eqb_spec k cookie) as [->|Hk]; simpl.
  - replace (Z.eqb cookie c) with false by (symmetry; apply Z.eqb_neq; exact Hne). exact IH.
  - destruct (Z.eqb k c); [reflexivity | exact IH].
Qed.

(** One request, seen on the server: the database changes as
    [db_change] allows and the new state is valid again. *)
Lemma serve_change e cookie r s :
  wf_server s ->
  db_change e (session_of s cookie) (sdb s) (sdb (snd (serve e cookie r s))) /\
  wf_server (snd (serve e cookie r s)).
Proof.
  intros [Hwf Hs]. unfold serve, handle.
  pose proof (dispatch_change e r (mk_world (sdb s) (session_of s cookie))) as Hrc.
  assert (Hw : wf_world (mk_world (sdb s) (session_of s cookie))) by (split; [exact Hwf | apply Hs]).
  specialize (Hrc Hw).
  destruct (run_change_wf e _ _ Hw Hrc) as [[Hwf' Hs'] Hgrow].
  destruct (dispatch e r (mk_world (sdb s) (session_of s cookie))) as [o w']. simpl in *.
  split; [exact (proj1 Hrc)|]. split; [exact Hwf'|]. intros c uid. rewrite session_of_store.
  destruct (Z.eqb cookie c); [apply Hs' | intros Hc; apply Hgrow, (Hs c), Hc].
Qed.

Lemma reachable_wf_server env_ok s : reachable env_ok s -> wf_server s.
Proof.
  induction 1 as [|s e cookie r _ IH _].
  - split; [constructor; simpl; try constructor; intros ? []|]. intros c uid. discriminate.
  - apply serve_change, IH.
Qed.

(** C3: every reachable server state has a well-formed database, and
    every client session names an existing user. *)
Theorem reachable_wf env_ok s : reachable env_ok s -> wf_server s.
Proof. apply reachable_wf_server. Qed.

(** Invariants of the database alone follow from their preservation by
    each kind of change. *)
Lemma reachable_db_invariant (env_ok : env -> Prop) (P : db -> Prop) :
  P empty_db ->
  (forall e a d d', env_ok e -> wf_db d -> P d -> db_change e a d d' -> P d') ->
  forall s, reachable env_ok s -> P (sdb s).
Proof.
  intros H0 Hstep s Hr. induction Hr as [|s e cookie r Hr IH He]; [exact H0|].
  destruct (serve_change e cookie r s (reachable_wf_server env_ok s Hr)) as [Hc _].
  apply (Hstep e (session_of s cookie) (sdb s)); auto. apply (reachable_wf_server env_ok s Hr).
Qed.
End Server.

(** An executable check of [wf_server], for concrete server states. *)
Definition wf_serverb (s : server) : bool :=
  wf_dbb (sdb s) &&
  forallb (fun kv => match snd kv with
                     | Some uid => existsb (Z.eqb uid) (map u_id (users (sdb s)))
                     | None => true
                     end) (sessions s).

Lemma wf_serverb_sound s : wf_serverb s = true -> wf_server s.
Proof.
  unfold wf_serverb. rewrite andb_true_iff, forallb_forall. intros [Hd Hss].
  split; [apply wf_dbb_sound, Hd|]. intros cookie uid. unfold session_of.
  destruct (find _ (sessions s)) as [kv|] eqn:Hf; [|discriminate]. intros Hk.
  apply find_some in Hf as [Hin _]. specialize (Hss kv Hin). rewrite Hk in Hss.
  apply existsb_exists in Hss as (x & Hx & Heq). apply Z.eqb_eq in Heq. subst. exact Hx.
Qed.

Lemma reachable_wf_witness : wf_server (run_trace init_server spec_trace).
Proof.
  apply (reachable_wf (fun _ => True)).
  apply run_trace_reachable; [apply reachable_init | repeat constructor].
Defined.

