(* ===== verification/Isolation.v ===== *)
(** * Isolation: a request acts only on the account of its own session

    The handlers take the user to act on from [session["user_id"]] and
    from nothing the client sends, and registration only appends a user
    with a fresh id.  So a request sent with a cookie changes no account
    but that of the user logged in with that cookie: every other
    registered user's cash, holdings and ledger, as [Account.account_of]
    reads them, are as they were, whatever the request. *)

From Stdlib Require Import String List ZArith Lia Bool.
From S2P Require Import Prelude Db Http Services Trade Auth App Account Scenario Invariant TradeFacts Safety.
Import ListNotations.
Open Scope string_scope.
Open Scope list_scope.
Open Scope Z_scope.

(** Registration keeps every existing account. *)
Lemma insert_user_account name h d d' uid :
  insert_user name h d = Some d' -> In uid (map u_id (users d)) -> account_of d' uid = account_of d uid.
Proof.
  intros Hins Huid. destruct (insert_user_users name h d d' Hins) as (Hus & Hp & Hh & _).
  apply in_map_iff in Huid as (u & <- & Hu).
  unfold account_of. rewrite Hus, filter_app. cbn [filter].
  replace (user_has_id (u_id u) (mk_user (next_id d) name h default_cash)) with false.
  2: { symmetry. unfold user_has_id. cbn [u_id]. apply Z.eqb_neq. pose proof (next_id_fresh d u Hu). lia. }
  rewrite app_nil_r. destruct (filter _ (users d)) as [|v vs]; [reflexivity|].
  unfold account_of_user. rewrite Hp, Hh. reflexivity.
Qed.

(** A change made for [actor] keeps every other existing account. *)
Lemma db_change_isolation e a d d' uid :
  wf_db d -> db_change e a d d' -> In uid (map u_id (users d)) -> a <> Some uid ->
  account_of d' uid = account_of d uid.
Proof.
  intros Hwf Hc Huid Ha. destruct Hc as [| u q n Hact Hu _ Hn _ | u q n r Hact Hu _ E _ _ | name h d' Hins].
  - reflexivity.
  - apply (buy_effect_other d u q n Hwf Hu). congruence.
  - apply (sell_effect_other d u q n r Hwf Hu E). congruence.
  - apply (insert_user_account name h); auto.
Qed.

(** What any change keeps of the users and the history. *)
Lemma db_change_monotone e a d d' :
  wf_db d -> db_change e a d d' ->
  (exists l, history d' = history d ++ l) /\
  (forall u, In u (users d) -> exists u', In u' (users d') /\
     u_id u' = u_id u /\ u_username u' = u_username u /\ u_hash u' = u_hash u).
Proof.
  intros Hwf Hc.
  assert (Hcash : forall c uid, forall u, In u (users d) -> exists u',
            In u' (map (cash_update c uid) (users d)) /\
            u_id u' = u_id u /\ u_username u' = u_username u /\ u_hash u' = u_hash u).
  { intros c uid u Hu. exists (cash_update c uid u). split; [apply in_map, Hu|].
    unfold cash_update. destruct (user_has_id uid u); auto. }
  destruct Hc as [| u q n _ Hu _ Hn _ | u q n r _ Hu _ E _ _ | name h d' Hins].
  - split; [exists []; symmetry; apply app_nil_r | intros u Hu; exists u; auto].
  - rewrite (buy_effect_history d u q n Hwf), (buy_effect_users d u q n Hwf). split; eauto.
  - rewrite (sell_effect_history d u q n r E), (sell_effect_users d u q n r E). split; eauto.
  - destruct (insert_user_users name h d d' Hins) as (Hus & _ & Hh & _). rewrite Hus, Hh.
    split; [exists []; symmetry; apply app_nil_r | intros u Hu; exists u; split; [apply in_or_app; left|]; auto].
Qed.

Section Isolation.
Context `{PasswordHasher}.

(** C10: in a valid server state, a request sent with [cookie] leaves
    the account of every registered user other than the one logged in
    with [cookie] exactly as it was: no form field, route or method lets
    one client act on another user's cash, holdings or ledger. *)
Theorem request_isolation e cookie r s uid :
  wf_server s -> In uid (map u_id (users (sdb s))) -> session_of s cookie <> Some uid ->
  account_of (sdb (snd (serve e cookie r s))) uid = account_of (sdb s) uid.
Proof.
  intros Hs Huid Hne. destruct (serve_change e cookie r s Hs) as [Hc _].
  exact (db_change_isolation _ _ _ _ _ (proj1 Hs) Hc Huid Hne).
Qed.

(** C27: no request deletes a user or changes a user's id, username or
    password hash, and the history only grows: every request leaves the
    rows it found at the front of the history, in order. *)
Theorem request_monotone e cookie r s :
  wf_server s ->
  (exists l, history (sdb (snd (serve e cookie r s))) = history (sdb s) ++ l) /\
  (forall u, In u (users (sdb s)) -> exists u', In u' (users (sdb (snd (serve e cookie r s)))) /\
     u_id u' = u_id u /\ u_username u' = u_username u /\ u_hash u' = u_hash u).
Proof.
  intros Hs. destruct (serve_change e cookie r s Hs) as [Hc _].
  exact (db_change_monotone _ _ _ _ (proj1 Hs) Hc).
Qed.
End Isolation.

(** Bob is logged in with cookie 7 and Amy with cookie 8. *)
Definition two_users : server :=
  run_trace init_server
    (firstn 2 spec_trace ++
     [(market 150, 8, register_req "amy" "pw2" "pw2"); (market 150, 8, login_req "amy" "pw2")]).

(** Amy's purchase leaves Bob's account as it was. *)
Lemma request_isolation_witness :
  account_of (sdb (snd (serve (market 150) 8 (buy_req "aapl" "5") two_users))) 1 = account_of (sdb two_users) 1.
Proof.
  apply request_isolation.
  - apply wf_serverb_sound. vm_compute. reflexivity.
  - vm_compute. left. reflexivity.
  - vm_compute. discriminate.
Defined.

(** Bob's sale appends one history row and keeps both users. *)
Lemma request_monotone_witness :
  (exists l, history (sdb (snd (serve (market 200) 7 (sell_req "aapl" "4")
                                      (run_trace two_users [(market 150, 7, buy_req "aapl" "10")])))) =
             history (sdb (run_trace two_users [(market 150, 7, buy_req "aapl" "10")])) ++ l) /\
  (forall u, In u (users (sdb (run_trace two_users [(market 150, 7, buy_req "aapl" "10")]))) ->
     exists u', In u' (users (sdb (snd (serve (market 200) 7 (sell_req "aapl" "4")
                                            (run_trace two_users [(market 150, 7, buy_req "aapl" "10")]))))) /\
     u_id u' = u_id u /\ u_username u' = u_username u /\ u_hash u' = u_hash u).
Proof. apply request_monotone. apply wf_serverb_sound. vm_compute. reflexivity. Defined.
