(* ===== verification/Ledger.v ===== *)
(** * Ledger: the history table reconciles cash and holdings

    The history table is append-only, and every trade appends the signed
    shares and the price it was executed at.  Two invariants connect it
    to the other tables in every reachable state:

    - [cash_reconciled]: a user's cash is the starting balance minus the
      signed cost ([shares * price]) of every history row of the user;
    - [shares_reconciled]: for every (username, symbol), the shares of the
      portfolio rows are the sum of the signed shares of the history rows,
      so a position closed by a sale (its row deleted) has a net of zero.

    With non-negative prices the cash of every user is never negative
    ([reachable_cash_nonneg]). *)

From Stdlib Require Import String List ZArith Lia Bool.
From S2P Require Import Prelude PyInt Db Http Services Trade Auth Views App Account Scenario Invariant TradeFacts Safety.
Import ListNotations.
Open Scope string_scope.
Open Scope list_scope.
Open Scope Z_scope.

Definition spent (d : db) (name : string) : Z :=
  sumZ (fun h => h_shares h * h_price h) (filter (logged_by name) (history d)).

Definition traded (name sym : string) (h : history_row) : bool :=
  logged_by name h && String.eqb (h_symbol h) sym.

Definition logged_shares (d : db) (name sym : string) : Z :=
  sumZ h_shares (filter (traded name sym) (history d)).

Definition held_shares (d : db) (name sym : string) : Z :=
  sumZ p_shares (filter (row_key name sym) (portfolio d)).

Definition cash_reconciled (d : db) : Prop :=
  forall u, In u (users d) -> u_cash u = default_cash - spent d (u_username u).

Definition shares_reconciled (d : db) : Prop :=
  forall name sym, held_shares d name sym = logged_shares d name sym.

(** ** Appending a trade to the history *)

Lemma sumZ_filter_snoc {A} (f : A -> Z) (p : A -> bool) l x :
  sumZ f (filter p (l ++ [x])) = sumZ f (filter p l) + (if p x then f x else 0).
Proof. rewrite filter_app, sumZ_app. simpl. destruct (p x); simpl; lia. Qed.

Lemma spent_snoc d d' sym sh price name name' :
  history d' = history d ++ [mk_hrow sym sh price name] ->
  spent d' name' = spent d name' + (if String.eqb name name' then sh * price else 0).
Proof. intros Hh. unfold spent. rewrite Hh, sumZ_filter_snoc. reflexivity. Qed.

Lemma logged_snoc_shares d d' sym sh price name name' sym' :
  history d' = history d ++ [mk_hrow sym sh price name] ->
  logged_shares d' name' sym' =
  logged_shares d name' sym' + (if String.eqb name name' && String.eqb sym sym' then sh else 0).
Proof. intros Hh. unfold logged_shares. rewrite Hh, sumZ_filter_snoc. reflexivity. Qed.

(** ** Cash *)

(** A trade by [u] of [sh] signed shares at [price] debits [sh * price]
    and logs it: the reconciliation survives. *)
Lemma cash_reconciled_trade d d' u c sym sh price :
  wf_db d -> cash_reconciled d -> In u (users d) ->
  c = u_cash u - sh * price ->
  users d' = map (cash_update c (u_id u)) (users d) ->
  history d' = history d ++ [mk_hrow sym sh price (u_username u)] ->
  cash_reconciled d'.
Proof.
  intros Hwf Hrec Hu Hc Hus Hh v Hv. rewrite Hus in Hv.
  apply in_map_iff in Hv as (v0 & <- & Hv0).
  unfold cash_update, set_cash. rewrite (spent_snoc d d' sym sh price (u_username u) _ Hh).
  destruct (user_has_id (u_id u) v0) eqn:Hid; cbn [u_cash u_username u_id u_hash].
  - apply user_has_id_spec in Hid.
    assert (v0 = u) as -> by (apply (nodup_map_eq u_id (users d)); auto using wf_ids).
    rewrite String.eqb_refl. rewrite (Hrec u Hu) in *. lia.
  - destruct (String.eqb_spec (u_username u) (u_username v0)) as [Hn|Hn].
    + assert (v0 = u) by (apply (user_name_inj d Hwf); auto). subst.
      rewrite (proj2 (user_has_id_spec _ _) eq_refl) in Hid. discriminate.
    + rewrite (Hrec v0 Hv0). lia.
Qed.

Lemma spent_unlogged d name : ~ In name (map h_username (history d)) -> spent d name = 0.
Proof.
  intros Hn. unfold spent. rewrite (filter_ext_in _ (fun _ => false)), filter_false; [reflexivity|].
  intros h Hh. unfold logged_by. destruct (String.eqb_spec (h_username h) name) as [<-|]; [|reflexivity].
  exfalso. apply Hn, in_map, Hh.
Qed.

Lemma cash_reconciled_register name h d d' :
  wf_db d -> cash_reconciled d -> insert_user name h d = Some d' -> cash_reconciled d'.
Proof.
  intros Hwf Hrec Hins. destruct (insert_user_users name h d d' Hins) as (Hus & _ & Hh & Hnew).
  intros v Hv. rewrite Hus in Hv. unfold spent. rewrite Hh. fold (spent d (u_username v)).
  apply in_app_or in Hv as [Hv | [<- | []]]; [apply Hrec, Hv|].
  cbn [u_cash u_username]. rewrite spent_unlogged; [reflexivity|].
  intros (x & Hx & Hin)%in_map_iff. apply Hnew. rewrite <- Hx. apply (wf_hist d Hwf x Hin).
Qed.

(** ** Shares *)

(** Setting the shares of the one row of a key changes the held shares
    of that key only, by the difference. *)
Lemma held_map_key (rows : list portfolio_row) name sym r sh' (tot : portfolio_row -> Z) name' sym' :
  filter (row_key name sym) rows = [r] ->
  sumZ p_shares (filter (row_key name' sym')
    (map (fun x => if row_key name sym x then set_row sh' (tot x) x else x) rows)) =
  sumZ p_shares (filter (row_key name' sym') rows) +
  (if String.eqb name name' && String.eqb sym sym' then sh' - p_shares r else 0).
Proof.
  intros E. rewrite filter_map_swap.
  replace (filter (fun a => row_key name' sym' (if row_key name sym a then set_row sh' (tot a) a else a)) rows)
    with (filter (row_key name' sym') rows)
    by (apply filter_ext; intros x; destruct (row_key name sym x); reflexivity).
  assert (Hr : In r rows /\ row_key name sym r = true).
  { assert (Hin : In r (filter (row_key name sym) rows)) by (rewrite E; left; reflexivity).
    apply filter_In in Hin. exact Hin. }
  destruct (String.eqb name name' && String.eqb sym sym') eqn:Hk.
  - apply andb_true_iff in Hk as [Hn Hs]. apply String.eqb_eq in Hn, Hs. subst.
    rewrite E. simpl. rewrite (proj2 Hr). simpl. lia.
  - rewrite Z.add_0_r. f_equal.
    transitivity (map id (filter (row_key name' sym') rows)); [|apply map_id].
    apply map_ext_in. intros x Hx. apply filter_In in Hx as [_ Hx'].
    destruct (row_key name sym x) eqn:Hkx; [|reflexivity]. exfalso.
    apply row_key_spec in Hkx, Hx'. rewrite Hkx in Hx'. injection Hx' as -> ->.
    rewrite !String.eqb_refl in Hk. discriminate.
Qed.

(** Deleting rows with no shares changes no sum of shares. *)
Lemma sumZ_drop_zero (k : portfolio_row -> bool) rows :
  sumZ p_shares (filter k (filter (fun r => negb (Z.eqb (p_shares r) 0)) rows)) =
  sumZ p_shares (filter k rows).
Proof.
  induction rows as [|x rows IH]; simpl; [reflexivity|].
  destruct (Z.eqb_spec (p_shares x) 0) as [Hz|Hz]; simpl; destruct (k x); simpl; rewrite ?IH; lia.
Qed.

Section Trades.
Variables (d : db) (u : user_row) (q : quote) (n : Z).
Hypothesis Hwf : wf_db d.
Hypothesis Hu : In u (users d).

Lemma shares_reconciled_buy : shares_reconciled d -> shares_reconciled (buy_effect d u q n).
Proof.
  intros Hrec name' sym'. unfold held_shares.
  rewrite (logged_snoc_shares d _ _ _ _ _ _ _ (buy_effect_history d u q n Hwf)), <- (Hrec name' sym').
  unfold held_shares.
  destruct (buy_effect_cases d u q n Hwf) as [[E ->] | [r [E [Hr ->]]]]; simpl.
  - rewrite sumZ_filter_snoc. reflexivity.
  - rewrite (held_map_key _ _ _ r _ _ _ _ E). f_equal. destruct (_ && _); lia.
Qed.

Lemma shares_reconciled_sell r :
  filter (row_key (u_username u) (q_symbol q)) (portfolio d) = [r] ->
  shares_reconciled d -> shares_reconciled (sell_effect d u q n).
Proof.
  intros E Hrec name' sym'. unfold held_shares.
  rewrite (logged_snoc_shares d _ _ _ _ _ _ _ (sell_effect_history d u q n r E)), <- (Hrec name' sym').
  unfold held_shares. rewrite (sell_effect_row d u q n r E). cbn [portfolio delete_zero_shares update_portfolio_sub trade_log insert_history update_cash].
  rewrite sumZ_drop_zero, (held_map_key _ _ _ r _ _ _ _ E). f_equal. destruct (_ && _); lia.
Qed.
End Trades.

Lemma shares_reconciled_register name h d d' :
  shares_reconciled d -> insert_user name h d = Some d' -> shares_reconciled d'.
Proof.
  intros Hrec Hins name' sym'. destruct (insert_user_users name h d d' Hins) as (_ & Hp & Hh & _).
  unfold held_shares, logged_shares. rewrite Hp, Hh. apply Hrec.
Qed.

(** ** Cash is never negative *)

Definition cash_nonneg (d : db) : Prop := forall u, In u (users d) -> 0 <= u_cash u.

(** The quotes of an environment have non-negative prices. *)
Definition prices_nonneg (e : env) : Prop := forall sym q, quote_service e sym = Some q -> 0 <= q_price q.

Lemma cash_nonneg_update d d' c uid :
  cash_nonneg d -> 0 <= c -> users d' = map (cash_update c uid) (users d) -> cash_nonneg d'.
Proof.
  intros Hnn Hc Hus v Hv. rewrite Hus in Hv. apply in_map_iff in Hv as (v0 & <- & Hv0).
  unfold cash_update. destruct (user_has_id uid v0); [exact Hc | apply Hnn, Hv0].
Qed.

Lemma db_change_cash_nonneg e a d d' :
  prices_nonneg e -> wf_db d -> cash_nonneg d -> db_change e a d d' -> cash_nonneg d'.
Proof.
  intros He Hwf Hnn Hc. destruct Hc as [| u q n _ Hu [sym Hq] Hn Ht | u q n r _ Hu [sym Hq] E Hn Hle | name h d' Hins].
  - exact Hnn.
  - apply (cash_nonneg_update d _ (u_cash u - q_price q * n) (u_id u) Hnn); [lia|].
    apply buy_effect_users; auto.
  - pose proof (He sym q Hq). pose proof (Hnn u Hu).
    apply (cash_nonneg_update d _ (u_cash u + q_price q * n) (u_id u) Hnn); [nia|].
    apply (sell_effect_users d u q n r); auto.
  - destruct (insert_user_users name h d d' Hins) as (Hus & _).
    intros v Hv. rewrite Hus in Hv. apply in_app_or in Hv as [Hv | [<- | []]]; [apply Hnn, Hv|].
    unfold default_cash. simpl. lia.
Qed.

(** ** Over every reachable state *)

Section Reachable.
Context `{PasswordHasher}.

(** C4: in every reachable state, each user's cash is the starting
    balance minus the signed cost of the user's history rows. *)
Theorem reachable_cash_reconciled env_ok s : reachable env_ok s -> cash_reconciled (sdb s).
Proof.
  apply reachable_db_invariant; [intros u []|].
  intros e a d d' _ Hwf Hrec Hc.
  destruct Hc as [| u q n _ Hu _ Hn Ht | u q n r _ Hu _ E Hn Hle | name h d' Hins].
  - exact Hrec.
  - apply (cash_reconciled_trade d _ u (u_cash u - q_price q * n) (q_symbol q) n (q_price q)); auto; try lia.
    + apply buy_effect_users; auto.
    + apply buy_effect_history; auto.
  - apply (cash_reconciled_trade d _ u (u_cash u + q_price q * n) (q_symbol q) ((-1) * n) (q_price q)); auto; try lia.
    + apply (sell_effect_users d u q n r); auto.
    + apply (sell_effect_history d u q n r); auto.
  - eapply cash_reconciled_register; eauto.
Qed.

(** C5: in every reachable state, the shares a user holds of a symbol
    are the net of the user's history rows for it. *)
Theorem reachable_shares_reconciled env_ok s : reachable env_ok s -> shares_reconciled (sdb s).
Proof.
  apply reachable_db_invariant; [intros name sym; reflexivity|].
  intros e a d d' _ Hwf Hrec Hc.
  destruct Hc as [| u q n _ Hu _ Hn Ht | u q n r _ Hu _ E Hn Hle | name h d' Hins].
  - exact Hrec.
  - apply shares_reconciled_buy; auto.
  - apply (shares_reconciled_sell d u q n r E Hrec).
  - eapply shares_reconciled_register; eauto.
Qed.

(** C6: when the quote service never quotes a negative price, no
    reachable state has a user with negative cash. *)
Theorem reachable_cash_nonneg env_ok s :
  (forall e, env_ok e -> prices_nonneg e) -> reachable env_ok s -> cash_nonneg (sdb s).
Proof.
  intros Hok. apply reachable_db_invariant; [intros u []|].
  intros e a d d' He Hwf Hnn Hc. exact (db_change_cash_nonneg e a d d' (Hok e He) Hwf Hnn Hc).
Qed.

End Reachable.

Lemma reachable_cash_reconciled_witness : cash_reconciled (sdb (run_trace init_server spec_trace)).
Proof.
  apply (reachable_cash_reconciled (fun _ => True)).
  apply run_trace_reachable; [apply reachable_init | repeat constructor].
Defined.

Lemma reachable_shares_reconciled_witness : shares_reconciled (sdb (run_trace init_server spec_trace)).
Proof.
  apply (reachable_shares_reconciled (fun _ => True)).
  apply run_trace_reachable; [apply reachable_init | repeat constructor].
Defined.

Lemma reachable_cash_nonneg_witness : cash_nonneg (sdb (run_trace init_server spec_trace)).
Proof.
  apply (reachable_cash_nonneg prices_nonneg); [intros e He; exact He|].
  apply run_trace_reachable; [apply reachable_init|].
  repeat constructor; intros sym q; apply market_prices_nonneg_at; lia.
Defined.

