(* ===== verification/AuthFacts.v ===== *)
(** * AuthFacts: what registration, login and logout do

    The theorems hold for any implementation of the [PasswordHasher]
    interface.  Registration hashes the password before it checks any
    field, so a form without a password field raises instead of being
    refused; it verifies the confirmation against the hash, which accepts
    exactly the confirmations equal to the password; and it relies on the
    UNIQUE index for usernames, so a taken username is an error 500, not a
    refusal.  Login clears the session before anything else, so a failed
    login also logs the client out. *)

From Stdlib Require Import String List ZArith Lia Bool.
From S2P Require Import Prelude Db Http Services Auth App Scenario Invariant TradeFacts.
Import ListNotations.
Open Scope string_scope.
Open Scope list_scope.
Open Scope Z_scope.

Ltac auth_step :=
  cbv [register register_post hash_field exec_insert_user login logout bind ret raise gets modify
       query exec wdb session session_clear session_set].

Section Register.
Context `{PasswordHasher}.
Variables (e : env) (f : list (string * string)) (d : db) (ss : option Z).

(** C17: a registration with an empty or missing username, password or
    confirmation creates no user: it is refused with status 403, or, when
    the password field is missing altogether, raises [TypeError] (line
    186 hashes it before the checks). *)
Theorem register_rejects_missing :
  falsy (form_get f "username") || falsy (form_get f "password") || falsy (form_get f "confirmation") = true ->
  snd (register e POST f (mk_world d ss)) = mk_world d ss /\
  ((exists msg, fst (register e POST f (mk_world d ss)) = Ok (apology msg 403)) \/
   fst (register e POST f (mk_world d ss)) = Raise TypeError).
Proof.
  intros Hf. auth_step.
  destruct (form_get f "password") as [p|] eqn:Hp; [|auto].
  unfold nonempty at 2. simpl in Hf. destruct (form_get f "username") as [name|]; simpl in *.
  - destruct (String.eqb name EmptyString); simpl in *; [eauto|].
    destruct (String.eqb p EmptyString); simpl in *; [eauto|].
    destruct (form_get f "confirmation") as [c|]; simpl in *; [|eauto].
    destruct (String.eqb c EmptyString); simpl in *; [eauto | discriminate].
  - eauto.
Qed.

(** A fresh username is inserted with the next id and the default cash. *)
Lemma insert_fresh_user name h :
  ~ In name (map u_username (users d)) ->
  insert_user name h d = Some (mk_db (users d ++ [mk_user (next_id d) name h default_cash]) (portfolio d) (history d)).
Proof.
  intros Hfresh. unfold insert_user. replace (existsb (fun u => String.eqb (u_username u) name) (users d)) with false;
    [reflexivity|].
  symmetry. apply not_true_iff_false. intros (v & Hv & Heq)%existsb_exists.
  apply String.eqb_eq in Heq. apply Hfresh. rewrite <- Heq. apply in_map, Hv.
Qed.

Lemma register_fresh_run name pw :
  nonempty (form_get f "username") = Some name ->
  nonempty (form_get f "password") = Some pw ->
  form_get f "confirmation" = Some pw ->
  ~ In name (map u_username (users d)) ->
  register e POST f (mk_world d ss) =
    (Ok (Page PRegistered),
     mk_world (mk_db (users d ++ [mk_user (next_id d) name (generate_password_hash (salt e) pw) default_cash])
                     (portfolio d) (history d)) ss).
Proof.
  intros Hname Hpw Hconf Hfresh.
  pose proof (nonempty_some _ _ Hpw) as [Hpw' _]. rewrite Hpw' in Hpw.
  auth_step. rewrite Hpw', Hname, Hpw, Hconf, Hpw, check_generate, String.eqb_refl. simpl.
  rewrite (insert_fresh_user name _ Hfresh). reflexivity.
Qed.

(** C15: a registration with a fresh username and a confirmation equal to
    the password appends one user: the next id, the given name, the
    default cash, and a hash that verifies the password and no other
    text. *)
Theorem register_creates_user name pw :
  nonempty (form_get f "username") = Some name ->
  nonempty (form_get f "password") = Some pw ->
  form_get f "confirmation" = Some pw ->
  ~ In name (map u_username (users d)) ->
  exists u,
    register e POST f (mk_world d ss) =
      (Ok (Page PRegistered),
       mk_world (mk_db (users d ++ [u]) (portfolio d) (history d)) ss) /\
    u_id u = next_id d /\ u_username u = name /\ u_cash u = default_cash /\
    (forall q, check_password_hash (u_hash u) q = true <-> q = pw).
Proof.
  intros Hname Hpw Hconf Hfresh. eexists. split; [apply (register_fresh_run name pw); assumption|].
  do 3 (split; [reflexivity|]). intros t. cbn [u_hash]. rewrite check_generate, String.eqb_eq. split; auto.
Qed.

(** C16: the confirmation is checked against the hash of the password,
    so a confirmation that differs from the password is refused with
    "passwords don't match" and nothing is written. *)
Theorem register_rejects_mismatch name pw conf :
  nonempty (form_get f "username") = Some name ->
  nonempty (form_get f "password") = Some pw ->
  nonempty (form_get f "confirmation") = Some conf ->
  conf <> pw ->
  register e POST f (mk_world d ss) = (Ok (apology "passwords don't match" 403), mk_world d ss).
Proof.
  intros Hname Hpw Hconf Hne.
  pose proof (nonempty_some _ _ Hpw) as [Hpw' _]. rewrite Hpw' in Hpw.
  auth_step. rewrite Hpw', Hname, Hpw, Hconf, check_generate.
  destruct (String.eqb_spec pw conf); [congruence | reflexivity].
Qed.

(** C18: registering a username that is already taken violates the
    UNIQUE index: the insert raises, which the error handler answers with
    a 500 page, and nothing is written. *)
Theorem register_duplicate_raises name pw :
  nonempty (form_get f "username") = Some name ->
  nonempty (form_get f "password") = Some pw ->
  form_get f "confirmation" = Some pw ->
  In name (map u_username (users d)) ->
  register e POST f (mk_world d ss) = (Raise IntegrityError, mk_world d ss).
Proof.
  intros Hname Hpw Hconf Htaken.
  pose proof (nonempty_some _ _ Hpw) as [Hpw' _]. rewrite Hpw' in Hpw.
  assert (Hins : insert_user name (generate_password_hash (salt e) pw) d = None).
  { unfold insert_user. apply in_map_iff in Htaken as (v & Hv & Hin).
    replace (existsb (fun u => String.eqb (u_username u) name) (users d)) with true; [reflexivity|].
    symmetry. apply existsb_exists. exists v. split; [exact Hin | apply String.eqb_eq, Hv]. }
  auth_step. rewrite Hpw', Hname, Hpw, Hconf, Hpw, check_generate, String.eqb_refl. simpl.
  rewrite Hins. reflexivity.
Qed.
End Register.

Section Login.
Context `{PasswordHasher}.
Variables (f : list (string * string)) (d : db) (ss : option Z).
Hypothesis Hwf : wf_db d.

Lemma select_users_by_username_user u :
  In u (users d) -> select_users_by_username d (u_username u) = [u].
Proof.
  intros Hu. unfold select_users_by_username.
  destruct (filter_unique u_username (fun v => String.eqb (u_username v) (u_username u)) (users d)
              (u_username u) (wf_names d Hwf) (fun v => String.eqb_eq _ _)) as [E | [x [E [Hx Hn]]]].
  - assert (Hin : In u (filter (fun v => String.eqb (u_username v) (u_username u)) (users d)))
      by (apply filter_In; split; [exact Hu | apply String.eqb_refl]).
    rewrite E in Hin. contradiction.
  - rewrite E. f_equal. apply (user_name_inj d Hwf); auto.
Qed.

Lemma login_verified_run u pw :
  In u (users d) ->
  nonempty (form_get f "username") = Some (u_username u) ->
  nonempty (form_get f "password") = Some pw ->
  check_password_hash (u_hash u) pw = true ->
  login POST f (mk_world d ss) = (Ok (Redirect "/"), mk_world d (Some (u_id u))).
Proof.
  intros Hu Hname Hpw Hchk. auth_step. rewrite Hname, Hpw.
  cbv [query gets bind wdb]. rewrite (select_users_by_username_user u Hu), Hchk. reflexivity.
Qed.

Lemma login_refused_run name pw :
  nonempty (form_get f "username") = Some name ->
  nonempty (form_get f "password") = Some pw ->
  (forall u, In u (users d) -> u_username u = name -> check_password_hash (u_hash u) pw = false) ->
  login POST f (mk_world d ss) =
    (Ok (apology "invalid username and/or password" 403), mk_world d None).
Proof.
  intros Hname Hpw Hbad. auth_step. rewrite Hname, Hpw. cbv [query gets bind wdb].
  destruct (select_users_by_username d name) as [|u [|v rs]] eqn:Hrows; try reflexivity.
  assert (Hu : In u (select_users_by_username d name)) by (rewrite Hrows; left; reflexivity).
  apply filter_In in Hu as [Hu Hn]. apply String.eqb_eq in Hn.
  rewrite (Hbad u Hu Hn). reflexivity.
Qed.

(** C19: a login with a registered username and the password its hash
    verifies logs that user in and redirects to the portfolio; the
    database is not touched. *)
Theorem login_succeeds u pw :
  In u (users d) ->
  nonempty (form_get f "username") = Some (u_username u) ->
  nonempty (form_get f "password") = Some pw ->
  check_password_hash (u_hash u) pw = true ->
  login POST f (mk_world d ss) = (Ok (Redirect "/"), mk_world d (Some (u_id u))).
Proof. exact (login_verified_run u pw). Qed.

(** C20: a login whose username is not registered, or whose password the
    stored hash does not verify, is refused with status 403 and leaves
    the client logged out, whatever session it had. *)
Theorem login_fails name pw :
  nonempty (form_get f "username") = Some name ->
  nonempty (form_get f "password") = Some pw ->
  (forall u, In u (users d) -> u_username u = name -> check_password_hash (u_hash u) pw = false) ->
  login POST f (mk_world d ss) =
    (Ok (apology "invalid username and/or password" 403), mk_world d None).
Proof. exact (login_refused_run name pw). Qed.
End Login.

(** ** The theorems at concrete forms *)

(** The database after bob registered with password "pw". *)
Definition bob_db : db := sdb (run_trace init_server (firstn 1 spec_trace)).

Definition bob : user_row := mk_user 1 "bob" (generate_password_hash "salt" "pw") default_cash.

Lemma register_rejects_missing_witness :
  let f := [("username", "amy"); ("password", "pw")] in
  snd (register (market 150) POST f (mk_world bob_db None)) = mk_world bob_db None /\
  ((exists msg, fst (register (market 150) POST f (mk_world bob_db None)) = Ok (apology msg 403)) \/
   fst (register (market 150) POST f (mk_world bob_db None)) = Raise TypeError).
Proof. apply register_rejects_missing. reflexivity. Defined.

Lemma register_creates_user_witness :
  exists u,
    register (market 150) POST [("username", "amy"); ("password", "x"); ("confirmation", "x")]
             (mk_world bob_db None) =
      (Ok (Page PRegistered), mk_world (mk_db (users bob_db ++ [u]) (portfolio bob_db) (history bob_db)) None) /\
    u_id u = next_id bob_db /\ u_username u = "amy" /\ u_cash u = default_cash /\
    (forall q, check_password_hash (u_hash u) q = true <-> q = "x").
Proof.
  apply register_creates_user; try reflexivity.
  intros Hin. vm_compute in Hin. destruct Hin as [Hin | []]. discriminate.
Defined.

Lemma register_rejects_mismatch_witness :
  register (market 150) POST [("username", "amy"); ("password", "x"); ("confirmation", "y")]
           (mk_world bob_db None) = (Ok (apology "passwords don't match" 403), mk_world bob_db None).
Proof. apply (register_rejects_mismatch _ _ _ _ "amy" "x" "y"); try reflexivity. discriminate. Defined.

Lemma register_duplicate_raises_witness :
  register (market 150) POST [("username", "bob"); ("password", "x"); ("confirmation", "x")]
           (mk_world bob_db None) = (Raise IntegrityError, mk_world bob_db None).
Proof. apply (register_duplicate_raises _ _ _ _ "bob" "x"); try reflexivity. vm_compute. left. reflexivity. Defined.

Lemma login_succeeds_witness :
  login POST [("username", "bob"); ("password", "pw")] (mk_world bob_db (Some 5)) =
    (Ok (Redirect "/"), mk_world bob_db (Some (u_id bob))).
Proof.
  apply (login_succeeds _ _ _ (wf_dbb_sound bob_db (eq_refl true)) bob "pw").
  - vm_compute. left. reflexivity.
  - reflexivity.
  - reflexivity.
  - vm_compute. reflexivity.
Defined.

Lemma login_fails_witness :
  login POST [("username", "bob"); ("password", "nope")] (mk_world bob_db (Some 1)) =
    (Ok (apology "invalid username and/or password" 403), mk_world bob_db None).
Proof.
  apply (login_fails _ _ _ "bob" "nope"); try reflexivity.
  intros u Hu _. vm_compute in Hu. destruct Hu as [<- | []]. vm_compute. reflexivity.
Defined.
