(* ===== verification/Concurrency.v ===== *)
(** * Concurrency: handlers as sequences of committed statements

    Each [db.execute] of [src/finance/application.py] is its own
    transaction: the CS50 [SQL] class commits every statement, and the
    handlers open no transaction around a trade.  Flask serves requests
    on several threads, so the statements of two requests can interleave.
    A handler is modelled here as a [prog]: a tree of atomic statements
    ([Read] for a [SELECT], whose continuation sees the database at that
    moment; [Write] for an [INSERT], [UPDATE] or [DELETE]) ending in an
    outcome.  [run] executes a program alone; [interleave] executes two
    programs against one database following a schedule of which thread
    takes the next statement.

    [buy_prog] is [buy_post] of [Trade] statement by statement, and
    [buy_prog_sequential] proves that run alone it is [buy_post].  Two
    purchases of the same user whose cash reads both happen before either
    write lose an update: both pass the cash check of line 77 against the
    same balance, both write that balance minus one price, and the user
    pays once for two purchases.  [sell_prog] and [sell_prog_sequential]
    do the same for [sell_post]: two sales of a whole holding whose share
    reads both happen before either write both pass the check of line
    234, and the second is credited and logged before it fails on the
    deleted row, so the user is paid twice.

    [register_prog] is the POST branch of [register]: its checks read
    nothing, and its one statement is the [INSERT] of line 206, a [Check]
    that the UNIQUE index on [username] refuses with [IntegrityError];
    [register_prog_sequential] proves that run alone it is
    [register_post].  [index_prog] is the portfolio page, whose two
    SELECTs are two statements ([ReadSkew] interleaves it with a
    purchase). *)

From Stdlib Require Import String List ZArith Lia Bool.
From S2P Require Import Prelude PyInt Db Http Services Trade Auth Views Scenario Invariant TradeFacts Ledger AuthFacts.
Import ListNotations.
Open Scope string_scope.
Open Scope list_scope.
Open Scope Z_scope.

(** ** Programs of atomic statements *)

Inductive prog (A : Type) : Type :=
| Done (o : outcome exn A)
| Read (k : db -> prog A)
| Write (f : db -> db) (k : prog A)
| Check (f : db -> option db) (ex : exn) (k : prog A).
Arguments Done {A} o.
Arguments Read {A} k.
Arguments Write {A} f k.
Arguments Check {A} f ex k.

Fixpoint pbind {A B} (m : prog A) (k : A -> prog B) : prog B :=
  match m with
  | Done (Ok a) => k a
  | Done (Raise e) => Done (Raise e)
  | Read r => Read (fun d => pbind (r d) k)
  | Write f m' => Write f (pbind m' k)
  | Check f ex m' => Check f ex (pbind m' k)
  end.

Declare Scope prog_scope.
Notation "x <~ m ;; k" := (pbind m (fun x => k))
  (at level 61, m at next level, right associativity) : prog_scope.
Notation "m ;;; k" := (pbind m (fun _ => k))
  (at level 61, right associativity) : prog_scope.
Open Scope prog_scope.

Definition pret {A} (a : A) : prog A := Done (Ok a).
Definition praise {A} (e : exn) : prog A := Done (Raise e).
Definition pquery {A} (q : db -> A) : prog A := Read (fun d => pret (q d)).
Definition pexec (f : db -> db) : prog unit := Write f (pret tt).
(** A statement the database may refuse: a violated constraint raises
    [ex] and writes nothing. *)
Definition pexec_checked (f : db -> option db) (ex : exn) : prog unit := Check f ex (pret tt).
Definition pfirst {A} (l : list A) : prog A :=
  match l with
  | a :: _ => pret a
  | [] => praise IndexError
  end.
Definition pquery_first {A} (q : db -> list A) : prog A := rows <~ pquery q ;; pfirst rows.

(** [lookup] and [int] do not touch the database. *)
Definition plookup (e : env) (symbol : option string) : prog (option quote) :=
  match symbol with
  | None => praise TypeError
  | Some s => pret (quote_service e s)
  end.

Definition pint_field (o : option string) : prog Z :=
  match o with
  | None => praise TypeError
  | Some s => match py_int s with Some n => pret n | None => praise ValueError end
  end.

(** A program run alone from [d]. *)
Fixpoint run {A} (p : prog A) (d : db) : outcome exn A * db :=
  match p with
  | Done o => (o, d)
  | Read k => run (k d) d
  | Write f k => run k (f d)
  | Check f ex k =>
      match f d with
      | Some d' => run k d'
      | None => (Raise ex, d)
      end
  end.

(** One statement of [p]. *)
Definition step {A} (p : prog A) (d : db) : prog A * db :=
  match p with
  | Done o => (Done o, d)
  | Read k => (k d, d)
  | Write f k => (k, f d)
  | Check f ex k =>
      match f d with
      | Some d' => (k, d')
      | None => (Done (Raise ex), d)
      end
  end.

(** Two threads on one database: [true] lets the first take its next
    statement, [false] the second. *)
Fixpoint interleave {A B} (sched : list bool) (p : prog A) (q : prog B) (d : db) : prog A * prog B * db :=
  match sched with
  | [] => (p, q, d)
  | true :: s => let (p', d') := step p d in interleave s p' q d'
  | false :: s => let (q', d') := step q d in interleave s p q' d'
  end.

(** The schedule, then the first thread to its end, then the second. *)
Definition concurrent {A B} (sched : list bool) (p : prog A) (q : prog B) (d : db)
  : outcome exn A * outcome exn B * db :=
  let '(p', q', d1) := interleave sched p q d in
  let (o1, d2) := run p' d1 in
  let (o2, d3) := run q' d2 in
  (o1, o2, d3).

(** ** The purchase, statement by statement (lines 62-101) *)

(** Lines 77-101: what follows the read of the cash on line 74. *)
Definition buy_tail (sd : quote) (user_shares uid : Z) (user_cash : list Z) : prog response :=
  let total_price := q_price sd * user_shares in
  cash0 <~ pfirst user_cash ;;
  if cash0 <? total_price then pret (apology "NO ENOUGH CASH" 400) else
  username <~ pquery_first (fun d => select_username d uid) ;;
  pexec (update_cash (cash0 - total_price) uid) ;;;
  pexec (insert_history (q_symbol sd) user_shares (q_price sd) username) ;;;
  portfolio_shares <~ pquery (sum_shares username (q_symbol sd)) ;;
  match portfolio_shares with
  | None | Some 0 =>
      pexec (insert_portfolio username (q_symbol sd) (q_name sd) user_shares
                              (q_price sd) total_price)
  | Some ps =>
      pexec (update_portfolio_add (ps + user_shares) total_price (q_symbol sd) username)
  end ;;;
  pret (Redirect "/").

Section Buy.
Variable e : env.

Definition buy_prog (f : list (string * string)) (uid : Z) : prog response :=
  let symbol := form_get f "symbol" in
  symbol_data <~ plookup e symbol ;;
  user_shares <~ pint_field (form_get f "shares") ;;
  match checked_quote symbol symbol_data with
  | None => pret (apology "MISSING SYMBOL" 400)
  | Some sd =>
      if user_shares <? 1 then pret (apology "MISSING SHARES" 400) else
      user_cash <~ pquery (fun d => select_cash d uid) ;;
      buy_tail sd user_shares uid user_cash
  end.
End Buy.

(** ** The sale, statement by statement (lines 217-260) *)

(** Lines 233-260: what follows the read of the shares on line 232. *)
Definition sell_tail (sd : quote) (shares_to_sell uid : Z) (rows : list Z) : prog response :=
  current_shares <~ pfirst rows ;;
  if current_shares <? shares_to_sell
  then pret (apology "YOU DON'T OWN THESE SHARES" 400) else
  let total_price := q_price sd * shares_to_sell in
  user_cash <~ pquery (fun d => select_cash d uid) ;;
  username <~ pquery_first (fun d => select_username d uid) ;;
  cash0 <~ pfirst user_cash ;;
  pexec (update_cash (cash0 + total_price) uid) ;;;
  pexec (insert_history (q_symbol sd) ((-1) * shares_to_sell) (q_price sd) username) ;;;
  portfolio_shares <~ pquery (sum_shares username (q_symbol sd)) ;;
  ps <~ match portfolio_shares with
        | None => praise TypeError
        | Some ps => pret ps
        end ;;
  pexec (update_portfolio_sub (ps - shares_to_sell) total_price (q_symbol sd) username) ;;;
  pexec delete_zero_shares ;;;
  pret (Redirect "/").

Section Sell.
Variable e : env.

Definition sell_prog (f : list (string * string)) (uid : Z) : prog response :=
  user_symbols <~ pquery (fun d => select_symbols d uid) ;;
  let symbol := form_get f "symbol" in
  symbol_data <~ plookup e symbol ;;
  shares_to_sell <~ pint_field (form_get f "shares") ;;
  match checked_quote symbol symbol_data with
  | None => pret (apology "MISSING SYMBOL" 400)
  | Some sd =>
      if shares_to_sell <? 1 then pret (apology "MISSING SHARES" 400) else
      rows <~ pquery (fun d => select_shares d uid (q_symbol sd)) ;;
      sell_tail sd shares_to_sell uid rows
  end.
End Sell.

(** ** The registration, statement by statement (lines 186-208) *)

Section Register.
Context `{PasswordHasher}.
Variable e : env.

(** [generate_password_hash(request.form.get("password"))], line 186. *)
Definition phash_field (o : option string) : prog string :=
  match o with
  | None => praise TypeError
  | Some p => pret (generate_password_hash (salt e) p)
  end.

(** The checks do not touch the database; the INSERT of line 206 is one
    statement, refused by the UNIQUE index when the name is taken. *)
Definition register_prog (f : list (string * string)) : prog response :=
  pass_hash <~ phash_field (form_get f "password") ;;
  match nonempty (form_get f "username") with
  | None => pret (apology "must provide username" 403)
  | Some name =>
      match nonempty (form_get f "password") with
      | None => pret (apology "must provide password" 403)
      | Some _ =>
          match nonempty (form_get f "confirmation") with
          | None => pret (apology "must confirm password" 403)
          | Some conf =>
              if negb (check_password_hash pass_hash conf)
              then pret (apology "passwords don't match" 403)
              else pexec_checked (insert_user name pass_hash) IntegrityError ;;;
                   pret (Page PRegistered)
          end
      end
  end.
End Register.

(** ** The portfolio page, statement by statement (lines 44-53) *)

(** [index] for the user of the session: the portfolio and the cash are
    two SELECTs, each its own statement; the [for] loop adds the totals
    of the rows the first one read to the cash the second one read. *)
Definition index_prog (uid : Z) : prog response :=
  portfolio <~ pquery (fun d => select_portfolio d uid) ;;
  cash <~ pquery_first (fun d => select_cash d uid) ;;
  pret (Page (PIndex (total_loop cash portfolio) cash portfolio)).

(** ** Running alone *)

Lemma run_pbind {A B} (m : prog A) (k : A -> prog B) d :
  run (pbind m k) d =
  match run m d with
  | (Ok a, d') => run (k a) d'
  | (Raise ex, d') => (Raise ex, d')
  end.
Proof.
  revert d. induction m as [[a|ex]|r IH|f m IH|f ex m IH]; intros d; simpl; auto.
  destruct (f d); auto.
Qed.

Ltac seq_step :=
  cbv [bind ret raise gets modify first query query_first exec lookup int_field checked_quote wdb session
       pret praise pquery pexec pfirst pquery_first plookup pint_field];
  cbn [pbind run].

(** Run alone, [index_prog] is [index] for a logged-in user. *)
Lemma index_prog_sequential d uid :
  index (mk_world d (Some uid)) = let (o, d') := run (index_prog uid) d in (o, mk_world d' (Some uid)).
Proof.
  unfold index, login_required, session_get, index_prog. seq_step.
  destruct (select_cash d uid); reflexivity.
Qed.

(** Run alone, the statement-level purchase [buy_prog] is
    [buy_post]: same answer, same database, the session untouched. *)
Theorem buy_prog_sequential e f uid d ss :
  buy_post e f uid (mk_world d ss) = let (o, d') := run (buy_prog e f uid) d in (o, mk_world d' ss).
Proof.
  unfold buy_post, buy_prog, buy_tail. seq_step.
  destruct (form_get f "symbol") as [s|]; seq_step; [|reflexivity].
  destruct (form_get f "shares") as [t|]; seq_step; [|reflexivity].
  destruct (py_int t) as [n|]; seq_step; [|reflexivity].
  destruct (falsy (Some s)); [reflexivity|]. destruct (quote_service e s) as [q|]; [|reflexivity].
  destruct (n <? 1); [reflexivity|]. seq_step.
  destruct (select_cash d uid) as [|c cs]; seq_step; [reflexivity|].
  destruct (c <? q_price q * n); [reflexivity|]. seq_step.
  destruct (select_username d uid) as [|name ns]; seq_step; [reflexivity|].
  destruct (sum_shares _ _ _) as [[|ps|ps]|]; reflexivity.
Qed.

(** Run alone, the statement-level sale [sell_prog] is
    [sell_post]: same answer, same database, the session untouched. *)
Theorem sell_prog_sequential e f uid d ss :
  sell_post e f uid (mk_world d ss) = let (o, d') := run (sell_prog e f uid) d in (o, mk_world d' ss).
Proof.
  unfold sell_post, sell_prog, sell_tail. seq_step.
  destruct (form_get f "symbol") as [s|]; seq_step; [|reflexivity].
  destruct (form_get f "shares") as [t|]; seq_step; [|reflexivity].
  destruct (py_int t) as [n|]; seq_step; [|reflexivity].
  destruct (falsy (Some s)); [reflexivity|]. destruct (quote_service e s) as [q|]; [|reflexivity].
  destruct (n <? 1); [reflexivity|]. seq_step.
  destruct (select_shares d uid (q_symbol q)) as [|cur rs]; seq_step; [reflexivity|].
  destruct (cur <? n); [reflexivity|]. seq_step.
  destruct (select_username d uid) as [|name ns]; seq_step; [reflexivity|].
  destruct (select_cash d uid) as [|c cs]; seq_step; [reflexivity|].
  destruct (sum_shares _ _ _) as [ps|]; reflexivity.
Qed.

Section RegisterRun.
Context `{PasswordHasher}.

(** Run alone, the statement-level registration [register_prog] is
    [register_post]: same answer, same database, the session untouched. *)
Theorem register_prog_sequential e f d ss :
  register_post e f (mk_world d ss) = let (o, d') := run (register_prog e f) d in (o, mk_world d' ss).
Proof.
  unfold register_post, register_prog, hash_field, phash_field, exec_insert_user, pexec_checked.
  destruct (form_get f "password") as [p|]; seq_step; [|reflexivity].
  destruct (nonempty (form_get f "username")) as [name|]; seq_step; [|reflexivity].
  destruct (nonempty (Some p)); seq_step; [|reflexivity].
  destruct (nonempty (form_get f "confirmation")) as [c|]; seq_step; [|reflexivity].
  destruct (negb _); seq_step; [reflexivity|].
  destruct (insert_user name _ d); reflexivity.
Qed.

End RegisterRun.

(** ** Two purchases whose cash reads interleave *)

Lemma in_cash_update c u l : In u l -> In (set_cash c u) (map (cash_update c (u_id u)) l).
Proof.
  intros Hu. replace (set_cash c u) with (cash_update c (u_id u) u); [apply in_map, Hu|].
  unfold cash_update. rewrite (proj2 (user_has_id_spec (u_id u) u) eq_refl). reflexivity.
Qed.

Lemma buy_tail_run q n d u c :
  wf_db d -> In u (users d) -> q_price q * n <= c ->
  run (buy_tail q n (u_id u) [c]) d = (Ok (Redirect "/"), buy_write d u q n c).
Proof.
  intros Hwf Hu Hc. unfold buy_tail. seq_step.
  destruct (Z.ltb_spec c (q_price q * n)); [lia|]. seq_step.
  rewrite select_username_user by assumption. seq_step.
  unfold buy_write, trade_log. destruct (sum_shares _ _ _) as [[|ps|ps]|]; reflexivity.
Qed.

Section Race.
Variables (e : env) (f : list (string * string)) (d : db) (u : user_row)
          (sym txt : string) (q : quote) (n : Z).
Hypothesis Hwf : wf_db d.
Hypothesis Hu : In u (users d).
Hypothesis Hsym : nonempty (form_get f "symbol") = Some sym.
Hypothesis Hq : quote_service e sym = Some q.
Hypothesis Ht : form_get f "shares" = Some txt.
Hypothesis Hn : py_int txt = Some n.
Hypothesis Hn1 : 1 <= n.

(** With a valid form, the first statement of a purchase reads the cash. *)
Lemma buy_prog_read : buy_prog e f (u_id u) = Read (fun d' => buy_tail q n (u_id u) (select_cash d' (u_id u))).
Proof.
  apply nonempty_some in Hsym as [Hs Hfalsy].
  rewrite Hs in Hfalsy. unfold buy_prog, checked_quote. rewrite Hs, Ht. cbn [plookup pint_field pbind].
  rewrite Hq, Hn. cbv [pret]. cbn [pbind]. rewrite Hfalsy.
  destruct (Z.ltb_spec n 1); [lia|]. reflexivity.
Qed.

(** Both threads read the cash, then each runs to its end: the second
    writes the balance it read before the first committed. *)
Lemma concurrent_buys_run :
  q_price q * n <= u_cash u ->
  concurrent [true; false] (buy_prog e f (u_id u)) (buy_prog e f (u_id u)) d =
    (Ok (Redirect "/"), Ok (Redirect "/"),
     buy_write (buy_effect d u q n) (set_cash (u_cash u - q_price q * n) u) q n (u_cash u)).
Proof.
  intros Hc. unfold concurrent. rewrite buy_prog_read. cbn [interleave step].
  rewrite (select_cash_user d Hwf u Hu), buy_tail_run by assumption.
  change (buy_write d u q n (u_cash u)) with (buy_effect d u q n).
  replace (u_id u) with (u_id (set_cash (u_cash u - q_price q * n) u)) by reflexivity.
  rewrite buy_tail_run; [reflexivity | apply buy_effect_wf; auto | | lia].
  rewrite buy_effect_users by exact Hwf. apply in_cash_update, Hu.
Qed.

(** C8: two purchases of [n] shares by the same user, served
    concurrently so that both read the cash (line 74) before either writes
    it (line 83), both succeed and both are logged, but the user is
    charged once: the second write stores the balance the first read minus
    one price.  Whatever the balance, even one that covers both
    purchases, the state violates the reconciliation of cash with the
    history that every sequential run keeps. *)
Theorem concurrent_buys_lose_update :
  cash_reconciled d -> 0 < q_price q -> q_price q * n <= u_cash u ->
  let h := mk_hrow (q_symbol q) n (q_price q) (u_username u) in
  let '(o1, o2, d') := concurrent [true; false] (buy_prog e f (u_id u)) (buy_prog e f (u_id u)) d in
  o1 = Ok (Redirect "/") /\ o2 = Ok (Redirect "/") /\
  select_cash d' (u_id u) = [u_cash u - q_price q * n] /\
  history d' = history d ++ [h; h] /\
  ~ cash_reconciled d'.
Proof.
  intros Hrec Hp Hc h. rewrite concurrent_buys_run by exact Hc.
  set (t := q_price q * n). set (u1 := set_cash (u_cash u - t) u).
  assert (Hwf1 : wf_db (buy_effect d u q n)) by (apply buy_effect_wf; auto).
  assert (Hu1 : In u1 (users (buy_effect d u q n)))
    by (rewrite buy_effect_users by exact Hwf; apply in_cash_update, Hu).
  assert (Hu2 : In (set_cash (u_cash u - t) u1) (users (buy_write (buy_effect d u q n) u1 q n (u_cash u))))
    by (rewrite buy_write_users by exact Hwf1; apply in_cash_update, Hu1).
  assert (Hh : history (buy_write (buy_effect d u q n) u1 q n (u_cash u)) = history d ++ [h; h])
    by (rewrite buy_write_history, buy_effect_history by assumption; rewrite <- app_assoc; reflexivity).
  repeat split; auto.
  - apply (select_cash_user _ (buy_write_wf _ u1 q n Hwf1 Hu1 (u_cash u) Hn1) _ Hu2).
  - intros Hrec2. specialize (Hrec2 _ Hu2). specialize (Hrec u Hu). cbn [u_cash u_username set_cash u1] in Hrec2.
    rewrite (spent_snoc (buy_effect d u q n) _ _ _ _ _ (u_username u)) in Hrec2
      by (rewrite buy_write_history by exact Hwf1; reflexivity).
    rewrite (spent_snoc d _ _ _ _ _ (u_username u)) in Hrec2 by (apply buy_effect_history; exact Hwf).
    cbn [u1 set_cash u_username] in Hrec2. rewrite String.eqb_refl in Hrec2. nia.
Qed.
End Race.

(** ** Two sales of a whole holding whose share reads interleave *)

Lemma select_cash_update v uid d : select_cash (update_cash v uid d) uid = map (fun _ => v) (select_cash d uid).
Proof.
  unfold select_cash, update_cash. cbn [users]. induction (users d) as [|x l IH]; [reflexivity|].
  unfold cash_update, user_has_id, set_cash in *. cbn [map filter].
  destruct (Z.eqb (u_id x) uid) eqn:Hx; cbn [u_id]; rewrite Hx; cbn [map u_cash]; [f_equal|]; exact IH.
Qed.

Lemma sell_tail_run q n d u s :
  wf_db d -> In u (users d) -> n <= s ->
  run (sell_tail q n (u_id u) [s]) d =
    (match sum_shares (u_username u) (q_symbol q) d with
     | None => Raise TypeError
     | Some _ => Ok (Redirect "/")
     end, sell_effect d u q n).
Proof.
  intros Hwf Hu Hs. unfold sell_tail. seq_step.
  destruct (Z.ltb_spec s n); [lia|]. seq_step.
  rewrite (select_cash_user d Hwf u Hu), (select_username_user d Hwf u Hu). seq_step.
  unfold sell_effect, trade_log.
  replace (sum_shares (u_username u) (q_symbol q) (insert_history _ _ _ _ (update_cash _ _ d)))
    with (sum_shares (u_username u) (q_symbol q) d) by reflexivity.
  destruct (sum_shares _ _ d); reflexivity.
Qed.

Section SellRace.
Variables (e : env) (f : list (string * string)) (d : db) (u : user_row)
          (sym txt : string) (q : quote) (n : Z) (r : portfolio_row).
Hypothesis Hwf : wf_db d.
Hypothesis Hu : In u (users d).
Hypothesis Hsym : nonempty (form_get f "symbol") = Some sym.
Hypothesis Hq : quote_service e sym = Some q.
Hypothesis Ht : form_get f "shares" = Some txt.
Hypothesis Hn : py_int txt = Some n.
Hypothesis Hn1 : 1 <= n.
Hypothesis E : filter (row_key (u_username u) (q_symbol q)) (portfolio d) = [r].
Hypothesis Hall : p_shares r = n.

(** With a valid form, a sale reads the symbols (line 217), whose rows
    it does not use on POST, then the shares. *)
Lemma sell_prog_read :
  sell_prog e f (u_id u) =
    Read (fun _ => Read (fun d' => sell_tail q n (u_id u) (select_shares d' (u_id u) (q_symbol q)))).
Proof.
  apply nonempty_some in Hsym as [Hs Hfalsy].
  rewrite Hs in Hfalsy. unfold sell_prog, checked_quote. cbv [pquery pret]. cbn [pbind].
  rewrite Hs, Ht. cbn [plookup pint_field pbind].
  rewrite Hq, Hn. cbv [pret]. cbn [pbind]. rewrite Hfalsy.
  destruct (Z.ltb_spec n 1); [lia|]. reflexivity.
Qed.

(** Selling the whole holding deletes its row. *)
Lemma sell_all_closes : filter (row_key (u_username u) (q_symbol q)) (portfolio (sell_effect d u q n)) = [].
Proof.
  rewrite (sell_effect_row d u q n r E).
  cbn [portfolio delete_zero_shares update_portfolio_sub trade_log insert_history update_cash].
  destruct (filter (row_key (u_username u) (q_symbol q)) (filter _ _)) as [|x l] eqn:F; [reflexivity|]. exfalso.
  assert (Hx : In x (x :: l)) by (left; reflexivity). rewrite <- F in Hx.
  apply filter_In in Hx as [Hx Hk]. apply filter_In in Hx as [Hx Hz].
  apply in_map_iff in Hx as (y & <- & Hy). destruct (row_key _ _ y) eqn:Hky.
  - cbn [set_row p_shares] in Hz. rewrite Hall, Z.sub_diag in Hz. discriminate.
  - congruence.
Qed.

(** Both threads read the shares, then each runs to its end: the second
    passes the check on the shares the first has already sold. *)
Lemma concurrent_sells_run :
  concurrent [true; true; false; false] (sell_prog e f (u_id u)) (sell_prog e f (u_id u)) d =
    (Ok (Redirect "/"), Raise TypeError,
     sell_effect (sell_effect d u q n) (set_cash (u_cash u + q_price q * n) u) q n).
Proof.
  unfold concurrent. rewrite sell_prog_read. cbn [interleave step].
  rewrite (select_shares_user d u _ Hwf Hu), E. cbn [map].
  rewrite sell_tail_run, (sum_shares_one _ _ _ r E) by (auto; lia).
  replace (u_id u) with (u_id (set_cash (u_cash u + q_price q * n) u)) by reflexivity.
  rewrite sell_tail_run; [| apply (sell_effect_wf d u q n r); auto; lia
                         | rewrite (sell_effect_users d u q n r E); apply in_cash_update, Hu | lia].
  rewrite sum_shares_none by exact sell_all_closes. reflexivity.
Qed.

(** C9: two sales of a user's whole holding of [n] shares, served
    concurrently so that each reads the symbols (line 217) and the shares
    (line 232) before either writes: the first succeeds; the second passes the check on the shares
    already sold, is credited and logged, and only then fails on the
    missing row (a 500 page), its writes committed.  The user is paid
    twice for [n] shares, the holding is gone, and the ledger records a
    net of [-n] shares: the reconciliation of holdings with the history
    that every sequential run keeps is broken. *)
Theorem concurrent_sells_pay_twice :
  shares_reconciled d ->
  let '(o1, o2, d') := concurrent [true; true; false; false] (sell_prog e f (u_id u)) (sell_prog e f (u_id u)) d in
  o1 = Ok (Redirect "/") /\ o2 = Raise TypeError /\
  select_cash d' (u_id u) = [u_cash u + 2 * (q_price q * n)] /\
  held_shares d' (u_username u) (q_symbol q) = 0 /\
  logged_shares d' (u_username u) (q_symbol q) = - n /\
  ~ shares_reconciled d'.
Proof.
  intros Hrec. rewrite concurrent_sells_run.
  set (t := q_price q * n). set (u1 := set_cash (u_cash u + t) u). set (d1 := sell_effect d u q n).
  assert (Hwf1 : wf_db d1) by (apply (sell_effect_wf d u q n r); auto; lia).
  assert (Hu1 : In u1 (users d1)) by (unfold d1; rewrite (sell_effect_users d u q n r E); apply in_cash_update, Hu).
  assert (Hd2 : sell_effect d1 u1 q n = trade_log d1 u1 q (u_cash u1 + t) ((-1) * n))
    by (unfold sell_effect; rewrite sum_shares_none by exact sell_all_closes; reflexivity).
  assert (Hheld : held_shares (sell_effect d1 u1 q n) (u_username u) (q_symbol q) = 0)
    by (unfold held_shares; rewrite Hd2; cbn [portfolio trade_log insert_history update_cash];
        unfold d1; rewrite sell_all_closes; reflexivity).
  assert (Hlog : logged_shares (sell_effect d1 u1 q n) (u_username u) (q_symbol q) = - n).
  { rewrite (logged_snoc_shares d1 _ _ _ _ _ _ _ (eq_ind_r (fun x => history x = _) eq_refl Hd2)).
    rewrite <- (shares_reconciled_sell d u q n r E Hrec). unfold held_shares, d1. rewrite sell_all_closes.
    cbn [u1 set_cash u_username]. rewrite !String.eqb_refl. cbn. destruct n; reflexivity. }
  repeat split; auto.
  - rewrite Hd2.
    change (select_cash (trade_log d1 u1 q (u_cash u1 + t) ((-1) * n)) (u_id u))
      with (select_cash (update_cash (u_cash u1 + t) (u_id u1) d1) (u_id u1)).
    rewrite select_cash_update, (select_cash_user d1 Hwf1 u1 Hu1). cbn [map]. unfold u1, t. cbn [set_cash u_cash]. f_equal. lia.
  - intros Hrec2. specialize (Hrec2 (u_username u) (q_symbol q)). rewrite Hheld, Hlog in Hrec2. lia.
Qed.
End SellRace.

(** Bob, just registered with 10000, sends two purchases of 10 Apple
    shares at 150 at once: he gets 20 shares for 1500. *)
Lemma concurrent_buys_lose_update_witness :
  let h := mk_hrow "AAPL" 10 150 "bob" in
  let '(o1, o2, d') := concurrent [true; false] (buy_prog (market 150) [("symbol", "aapl"); ("shares", "10")] 1)
                                  (buy_prog (market 150) [("symbol", "aapl"); ("shares", "10")] 1) bob_db in
  o1 = Ok (Redirect "/") /\ o2 = Ok (Redirect "/") /\
  select_cash d' 1 = [8500] /\ history d' = history bob_db ++ [h; h] /\ ~ cash_reconciled d'.
Proof.
  apply (concurrent_buys_lose_update (market 150) [("symbol", "aapl"); ("shares", "10")] bob_db bob
           "aapl" "10" (apple 150) 10).
  - apply wf_dbb_sound. vm_compute. reflexivity.
  - vm_compute. left. reflexivity.
  - reflexivity.
  - reflexivity.
  - reflexivity.
  - vm_compute. reflexivity.
  - lia.
  - intros v Hv. vm_compute in Hv. destruct Hv as [<- | []]. vm_compute. reflexivity.
  - simpl. lia.
  - simpl. unfold default_cash. lia.
Defined.

(** Bob holds 10 Apple shares bought at 150 and sends two sales of all
    10 at 200 at once: he is credited 4000 for 10 shares, and the ledger
    shows -10. *)
Definition bob_holding_db : db := buy_effect bob_db bob (apple 150) 10.

Lemma concurrent_sells_pay_twice_witness :
  let '(o1, o2, d') := concurrent [true; true; false; false] (sell_prog (market 200) [("symbol", "aapl"); ("shares", "10")] 1)
                                  (sell_prog (market 200) [("symbol", "aapl"); ("shares", "10")] 1) bob_holding_db in
  o1 = Ok (Redirect "/") /\ o2 = Raise TypeError /\
  select_cash d' 1 = [8500 + 2 * (200 * 10)] /\
  held_shares d' "bob" "AAPL" = 0 /\ logged_shares d' "bob" "AAPL" = - 10 /\ ~ shares_reconciled d'.
Proof.
  apply (concurrent_sells_pay_twice (market 200) [("symbol", "aapl"); ("shares", "10")] bob_holding_db
           (mk_user 1 "bob" (generate_password_hash "salt" "pw") 8500) "aapl" "10" (apple 200) 10
           (mk_prow "bob" "AAPL" "Apple" 10 150 1500)).
  - apply wf_dbb_sound. vm_compute. reflexivity.
  - vm_compute. left. reflexivity.
  - reflexivity.
  - reflexivity.
  - reflexivity.
  - vm_compute. reflexivity.
  - lia.
  - vm_compute. reflexivity.
  - reflexivity.
  - apply (shares_reconciled_buy bob_db bob (apple 150) 10).
    + apply wf_dbb_sound. vm_compute. reflexivity.
    + intros name sym. vm_compute. reflexivity.
Defined.
