(* ===== verification/Schedules.v ===== *)
(** * Schedules: running a thread to its end, and two registrations

    [within n p] states that [p] reaches its outcome after at most [n]
    atomic statements, whatever the database holds when each statement
    runs.  A purchase runs at most 6 (two reads of [users], the cash
    update, the history insert, the [SUM(shares)] read, the portfolio
    write), so six turns in a row run it to its end as [run] does
    ([interleave_second_run], used by [ReadSkew]).

    A thread that has ended, or whose next statement the database refuses,
    [stays]: nothing the other thread does changes its outcome.  Two
    registrations of the same fresh name are therefore serialized under
    every schedule: the thread the schedule runs first inserts the user,
    and the other's INSERT is refused by the UNIQUE index. *)

From Stdlib Require Import String List ZArith Lia Bool.
From S2P Require Import Prelude PyInt Db Http Services Trade Auth Scenario TradeFacts AuthFacts Concurrency.
Import ListNotations.
Open Scope string_scope.
Open Scope list_scope.
Open Scope Z_scope.

Inductive within {A} : nat -> prog A -> Prop :=
| within_done n o : within n (Done o)
| within_read n k : (forall d, within n (k d)) -> within (S n) (Read k)
| within_write n f k : within n k -> within (S n) (Write f k)
| within_check n f ex k : within n k -> within (S n) (Check f ex k).


#[export] Hint Constructors within : finance.

(** Turns given to a thread that has ended change nothing. *)
Lemma interleave_second_ended {A B} k (p : prog A) (o : outcome exn B) d :
  interleave (repeat false k) p (Done o) d = (p, Done o, d).
Proof. induction k as [|k IH]; [reflexivity|]. exact IH. Qed.

(** [n] turns in a row to a thread bounded by [n] run it to its end, as
    [run] does. *)
Lemma interleave_second_run {A B} n (p : prog A) (q : prog B) d :
  within n q -> interleave (repeat false n) p q d = (p, Done (fst (run q d)), snd (run q d)).
Proof.
  intros Hq. revert d. induction Hq as [n o|n k _ IH|n f k _ IH|n f ex k _ IH]; intros d.
  - apply interleave_second_ended.
  - apply IH.
  - apply IH.
  - cbn [repeat interleave step run]. destruct (f d); [apply IH | apply interleave_second_ended].
Qed.

(** Unfold the program and split on every test, reading off the bound. *)
Ltac within_tac :=
  repeat (cbn [pbind];
          first [ apply within_done
                | apply within_read; intros ?
                | apply within_write
                | apply within_check
                | match goal with
                  | |- context [match ?x with _ => _ end] => destruct x
                  | |- context [if ?x then _ else _] => destruct x
                  end ]).

Ltac unfold_progs :=
  cbv [buy_prog buy_tail sell_prog sell_tail register_prog phash_field pquery pexec pexec_checked pfirst
       pquery_first plookup pint_field pret praise].

Lemma buy_prog_within e f uid : within 6 (buy_prog e f uid).
Proof. unfold_progs. within_tac. Qed.

(** ** Two registrations of one name *)

(** A thread that has ended, or whose next statement the database
    refuses in the state [d], ends with [o] and leaves [d] as it is. *)
Inductive stays {A} (d : db) : prog A -> outcome exn A -> Prop :=
| stays_done o : stays d (Done o) o
| stays_check f ex k : f d = None -> stays d (Check f ex k) (Raise ex).

Lemma stays_step {A} d (p : prog A) o : stays d p o -> snd (step p d) = d /\ stays d (fst (step p d)) o.
Proof.
  destruct 1 as [o|f ex k Hf]; cbn [step fst snd]; [split; [reflexivity | constructor]|].
  rewrite Hf. split; [reflexivity | constructor].
Qed.

Lemma stays_run {A} d (p : prog A) o : stays d p o -> run p d = (o, d).
Proof. destruct 1 as [o|f ex k Hf]; cbn [run]; [reflexivity | now rewrite Hf]. Qed.

Lemma concurrent_cons {A B} b sched (p : prog A) (q : prog B) d :
  concurrent (b :: sched) p q d =
    if b then let (p', d') := step p d in concurrent sched p' q d'
    else let (q', d') := step q d in concurrent sched p q' d'.
Proof. unfold concurrent; destruct b; cbn [interleave]; [destruct (step p d) | destruct (step q d)]; reflexivity. Qed.

(** Two such threads keep the state, under any schedule. *)
Lemma concurrent_stays {A B} sched (p : prog A) (q : prog B) o1 o2 d :
  stays d p o1 -> stays d q o2 -> concurrent sched p q d = (o1, o2, d).
Proof.
  revert p q. induction sched as [|b sched IH]; intros p q Hp Hq.
  - unfold concurrent; cbn [interleave]. rewrite (stays_run _ _ _ Hp), (stays_run _ _ _ Hq). reflexivity.
  - rewrite concurrent_cons. destruct b.
    + destruct (stays_step _ _ _ Hp) as [Hd Hp']. destruct (step p d) as [p' d']. cbn in Hd, Hp'; subst. auto.
    + destruct (stays_step _ _ _ Hq) as [Hd Hq']. destruct (step q d) as [q' d']. cbn in Hd, Hq'; subst. auto.
Qed.

(** Two one-statement threads whose statements exclude each other: the
    one the schedule runs first succeeds, the other is refused. *)
Lemma concurrent_exclusive_checks {A B} sched f1 f2 ex (a : A) (b : B) d d1 d2 :
  f1 d = Some d1 -> f2 d = Some d2 -> f2 d1 = None -> f1 d2 = None ->
  concurrent sched (Check f1 ex (Done (Ok a))) (Check f2 ex (Done (Ok b))) d =
    if hd true sched then (Ok a, Raise ex, d1) else (Raise ex, Ok b, d2).
Proof.
  intros H1 H2 H21 H12. destruct sched as [|[|] sched].
  - unfold concurrent; cbn [interleave run hd]. rewrite H1; cbn [run]. rewrite H21. reflexivity.
  - rewrite concurrent_cons; cbn [step hd]. rewrite H1.
    apply concurrent_stays; constructor. exact H21.
  - rewrite concurrent_cons; cbn [step hd]. rewrite H2.
    apply concurrent_stays; constructor. exact H12.
Qed.

(** The fields of a registration form that passes the checks of lines 188-202. *)
Definition valid_registration (f : list (string * string)) (name pw : string) : Prop :=
  nonempty (form_get f "username") = Some name /\ nonempty (form_get f "password") = Some pw /\
  form_get f "confirmation" = Some pw.

Lemma insert_user_fresh name h d :
  existsb (fun u => String.eqb (u_username u) name) (users d) = false ->
  insert_user name h d = Some {| users := users d ++ [mk_user (next_id d) name h default_cash];
                                 portfolio := portfolio d; history := history d |}.
Proof. intros Hf. unfold insert_user. rewrite Hf. reflexivity. Qed.

Lemma insert_user_taken name h h' d :
  insert_user name h {| users := users d ++ [mk_user (next_id d) name h' default_cash];
                        portfolio := portfolio d; history := history d |} = None.
Proof.
  unfold insert_user; cbn [users]. rewrite existsb_app; cbn. rewrite String.eqb_refl, orb_true_r. reflexivity.
Qed.

Section Registrations.
Context `{PasswordHasher}.

(** C31: two registrations of the same fresh username, run in two threads
    under any schedule, are serialized by the UNIQUE index: the one whose
    INSERT runs first gets the "registered" page, the other the
    IntegrityError, and exactly one user with that name is added, holding
    the winner's password hash and the default cash. *)
Theorem concurrent_registrations_serialize e f1 f2 name pw1 pw2 sched d :
  valid_registration f1 name pw1 -> valid_registration f2 name pw2 ->
  existsb (fun u => String.eqb (u_username u) name) (users d) = false ->
  concurrent sched (register_prog e f1) (register_prog e f2) d =
    let winner := if hd true sched then pw1 else pw2 in
    let d' := {| users := users d ++ [mk_user (next_id d) name (generate_password_hash (salt e) winner) default_cash];
                 portfolio := portfolio d; history := history d |} in
    if hd true sched then (Ok (Page PRegistered), Raise IntegrityError, d')
    else (Raise IntegrityError, Ok (Page PRegistered), d').
Proof.
  intros [Hn1 [Hp1 Hc1]] [Hn2 [Hp2 Hc2]] Hfresh.
  destruct (nonempty_some _ _ Hp1) as [Hp1' _], (nonempty_some _ _ Hp2) as [Hp2' _].
  rewrite Hp1' in Hp1; rewrite Hp2' in Hp2.
  unfold register_prog, phash_field, pexec_checked. rewrite Hp1', Hp2'. cbn [pbind pret].
  rewrite Hn1, Hc1, Hp1, Hn2, Hc2, Hp2, !check_generate, !String.eqb_refl. cbn [negb]. unfold pret.
  rewrite (concurrent_exclusive_checks sched _ _ _ _ _ d _ _ (insert_user_fresh _ _ _ Hfresh)
             (insert_user_fresh _ _ _ Hfresh) (insert_user_taken _ _ _ _) (insert_user_taken _ _ _ _)).
  cbv zeta. destruct (hd true sched); reflexivity.
Qed.
End Registrations.

(** Amy and Ann both try to register as "amy"; the schedule runs the second thread first. *)
Lemma concurrent_registrations_serialize_witness :
  concurrent [false; true] (register_prog (market 150) [("username", "amy"); ("password", "x"); ("confirmation", "x")])
             (register_prog (market 150) [("username", "amy"); ("password", "y"); ("confirmation", "y")]) bob_db =
    (Raise IntegrityError, Ok (Page PRegistered),
     {| users := users bob_db ++ [mk_user (next_id bob_db) "amy" (generate_password_hash (salt (market 150)) "y") default_cash];
        portfolio := portfolio bob_db; history := history bob_db |}).
Proof.
  apply (concurrent_registrations_serialize (market 150) _ _ "amy" "x" "y" [false; true] bob_db);
    [repeat split | repeat split | reflexivity].
Defined.
