(* ===== verification/Responses.v ===== *)
(** * Responses: what the server answers, seen from the client

    Theorems about whole requests through [serve]: the routing, the
    [login_required] guard, the error handler and the [after_request]
    hook, and the session store.  Two of them record where the code
    answers differently from the specification: an unparsable [shares]
    field and the sale of a symbol that is not held both end in an
    uncaught Python exception, which the error handler turns into a 500
    page, where the specification expects a validation or an
    insufficient-shares error. *)

From Stdlib Require Import String List ZArith Lia Bool.
From S2P Require Import Prelude PyInt Db Http Services Trade Auth Views App Account Scenario Invariant TradeFacts Refinement Safety.
Import ListNotations.
Open Scope string_scope.
Open Scope list_scope.
Open Scope Z_scope.

(** The routes behind [login_required]. *)
Definition guarded (rt : route) : bool :=
  match rt with
  | RIndex | RBuy | RHistory | RQuote | RSell => true
  | RLogin | RLogout | RRegister => false
  end.

(** The request reaches the handler of route [rt]: its path is the
    route's, its method one the rule accepts, and not OPTIONS. *)
Definition routed (r : request) (rt : route) : Prop :=
  exists ms, match_route (path r) = Some (rt, ms) /\
             existsb (meth_eqb (method r)) (rule_methods ms) = true /\
             meth_eqb (method r) options_meth = false.


Section Serve.
Context `{PasswordHasher}.

Lemma serve_eq e cookie r s :
  serve e cookie r s =
  (respond (fst (dispatch e r (mk_world (sdb s) (session_of s cookie)))),
   mk_server (wdb (snd (dispatch e r (mk_world (sdb s) (session_of s cookie)))))
             (store_session cookie (session (snd (dispatch e r (mk_world (sdb s) (session_of s cookie)))))
                            (sessions s))).
Proof.
  unfold serve, handle. destruct (dispatch e r (mk_world (sdb s) (session_of s cookie))). reflexivity.
Qed.

(** C14: a client without a session that requests any page behind
    [login_required] is redirected to the login form, and nothing of the
    handler runs: the database is unchanged. *)
Theorem unauthenticated_redirected e cookie r s rt :
  session_of s cookie = None -> routed r rt -> guarded rt = true ->
  fst (serve e cookie r s) = respond (Ok (Redirect "/login")) /\
  sdb (snd (serve e cookie r s)) = sdb s.
Proof.
  intros Hs (ms & Hr & Hm & Ho) Hg. rewrite serve_eq, Hs. unfold dispatch. rewrite Hr, Hm, Ho.
  destruct rt; try discriminate; split; reflexivity.
Qed.

(** C22: the request [GET /logout] ends the client's session and
    redirects to [/]; the client's next request for [/] is redirected to
    the login form.  The other clients' sessions and the database are not
    touched. *)
Theorem logout_ends_session e e' cookie s :
  let s' := snd (serve e cookie (mk_request GET "/logout" []) s) in
  body (fst (serve e cookie (mk_request GET "/logout" []) s)) = Redirect "/" /\
  session_of s' cookie = None /\ sdb s' = sdb s /\
  (forall c, c <> cookie -> session_of s' c = session_of s c) /\
  body (fst (serve e' cookie (mk_request GET "/" []) s')) = Redirect "/login".
Proof.
  cbv zeta. rewrite !serve_eq. simpl. rewrite !session_of_store, Z.eqb_refl. repeat split.
  intros c Hc. rewrite session_of_store. replace (Z.eqb cookie c) with false by (symmetry; apply Z.eqb_neq; congruence). reflexivity.
Qed.





(** ** The headers of every response *)

Lemma set_header_has k v hs : In (k, v) (set_header k v hs).
Proof. unfold set_header. apply in_or_app. right. left. reflexivity. Qed.

Lemma set_header_keeps k v kv hs : fst kv <> k -> In kv hs -> In kv (set_header k v hs).
Proof.
  intros Hk Hin. unfold set_header. apply in_or_app. left. apply filter_In. split; [exact Hin|].
  apply negb_true_iff, String.eqb_neq, Hk.
Qed.

(** C24: every response the server sends, pages, redirects and error
    pages alike, carries the three headers that forbid caching. *)
Theorem every_response_uncached e cookie r s :
  let hs := headers (fst (serve e cookie r s)) in
  In ("Cache-Control", "no-cache, no-store, must-revalidate") hs /\
  In ("Expires", "0") hs /\ In ("Pragma", "no-cache") hs.
Proof.
  cbv zeta. rewrite serve_eq. unfold respond, after_request. cbn [headers].
  split; [|split]; repeat (apply set_header_keeps; [discriminate|]); apply set_header_has.
Qed.

(** ** Uncaught exceptions: the two 500 pages of the trade forms *)

(** C25: a logged-in user who posts to [/buy] or [/sell] a shares field
    that [int] cannot parse gets a 500 page and nothing is written,
    whatever the symbol field holds: [int] runs on line 64 (223) before
    the fields are checked, and its [ValueError] is not caught. *)
Theorem bad_shares_internal_error e cookie s uid p f txt :
  session_of s cookie = Some uid -> (p = "/buy" \/ p = "/sell") ->
  form_get f "shares" = Some txt -> py_int txt = None ->
  fst (serve e cookie (mk_request POST p f) s) = respond (Ok (apology "Internal Server Error" 500)) /\
  sdb (snd (serve e cookie (mk_request POST p f) s)) = sdb s.
Proof.
  intros Hs Hp Ht Hn. rewrite serve_eq, Hs.
  destruct Hp as [-> | ->]; cbn [dispatch match_route url_map find path method form fst snd
                                 String.eqb Ascii.eqb Bool.eqb existsb meth_eqb orb handler rule_methods app options_meth];
    unfold buy, sell, buy_post, sell_post; run_step;
    destruct (form_get f "symbol"); run_step; rewrite ?Ht, ?Hn; split; reflexivity.
Qed.

(** C26: in a valid server state, a logged-in user who sells a symbol of
    which no row is held gets a 500 page, not the apology of the other
    refusals: [[0]] on the empty result of line 232 raises [IndexError].
    Nothing is written. *)
Theorem sell_unheld_internal_error e cookie s u f sym q txt n :
  wf_server s -> session_of s cookie = Some (u_id u) -> In u (users (sdb s)) ->
  nonempty (form_get f "symbol") = Some sym -> quote_service e sym = Some q ->
  form_get f "shares" = Some txt -> py_int txt = Some n -> 1 <= n ->
  filter (row_key (u_username u) (q_symbol q)) (portfolio (sdb s)) = [] ->
  fst (serve e cookie (mk_request POST "/sell" f) s) = respond (Ok (apology "Internal Server Error" 500)) /\
  sdb (snd (serve e cookie (mk_request POST "/sell" f) s)) = sdb s.
Proof.
  intros [Hwf _] Hs Hu Hsym Hq Ht Hn Hn1 E. rewrite serve_eq, Hs.
  cbn [dispatch match_route url_map find path method form fst snd
       String.eqb Ascii.eqb Bool.eqb existsb meth_eqb orb handler rule_methods app options_meth].
  unfold sell. run_step.
  rewrite (sell_post_run e f (sdb s) _ u sym q txt n Hwf Hu Hsym Hq Ht Hn), E.
  destruct (Z.ltb_spec n 1); [lia|]. split; reflexivity.
Qed.

(** C29: a logged-in user who posts to [/buy] or [/sell] a symbol the
    quote service does not know, or a shares value below 1, is refused
    with "MISSING SYMBOL" or "MISSING SHARES" (status 400) and nothing is
    written: section 8 of the specification, on both trade routes. *)
Theorem invalid_trade_refused e cookie s uid p f sym txt n :
  session_of s cookie = Some uid -> (p = "/buy" \/ p = "/sell") ->
  nonempty (form_get f "symbol") = Some sym -> form_get f "shares" = Some txt -> py_int txt = Some n ->
  (quote_service e sym = None \/ n < 1) ->
  fst (serve e cookie (mk_request POST p f) s) =
    respond (Ok (apology (match quote_service e sym with
                          | None => "MISSING SYMBOL"
                          | Some _ => "MISSING SHARES"
                          end) 400)) /\
  sdb (snd (serve e cookie (mk_request POST p f) s)) = sdb s.
Proof.
  intros Hs Hp Hsym Ht Hn Hbad. apply nonempty_some in Hsym as [Hsym Hfalsy].
  rewrite serve_eq, Hs.
  destruct Hp as [-> | ->]; cbn [dispatch match_route url_map find path method form fst snd
                                 String.eqb Ascii.eqb Bool.eqb existsb meth_eqb orb handler rule_methods app options_meth];
    unfold buy, sell, buy_post, sell_post, checked_quote; rewrite Hfalsy, Hsym, Ht; run_step;
    rewrite Hn; run_step;
    (destruct (quote_service e sym) as [q|]; [destruct Hbad as [Hbad | Hbad]; [discriminate|] |]);
    try (destruct (Z.ltb_spec n 1); [|lia]); split; reflexivity.
Qed.

Lemma head_in_rule ms : existsb (meth_eqb GET) ms = true -> existsb (meth_eqb head_meth) (rule_methods ms) = true.
Proof.
  intros Hg. unfold rule_methods. rewrite Hg, !existsb_app. cbn [existsb meth_eqb head_meth].
  rewrite String.eqb_refl, !orb_true_r. reflexivity.
Qed.

Lemma get_in_rule ms : existsb (meth_eqb GET) ms = true -> existsb (meth_eqb GET) (rule_methods ms) = true.
Proof. intros Hg. unfold rule_methods. rewrite existsb_app, Hg. reflexivity. Qed.

(** C30: on every route that lists GET, a HEAD request runs the same
    view as GET and has the same outcome and the same effect on the
    database and the session: every handler treats a method other than
    POST as GET. *)
Theorem head_is_get e p f w rt ms :
  match_route p = Some (rt, ms) -> existsb (meth_eqb GET) ms = true ->
  dispatch e (mk_request head_meth p f) w = dispatch e (mk_request GET p f) w.
Proof.
  intros Hr Hg. unfold dispatch. cbn [path method form]. rewrite Hr, (head_in_rule ms Hg), (get_in_rule ms Hg).
  destruct rt; reflexivity.
Qed.
End Serve.

(** The server after bob registered and logged in with cookie 7. *)
Definition logged_in : server := run_trace init_server (firstn 2 spec_trace).

Lemma unauthenticated_redirected_witness :
  fst (serve (market 150) 8 (buy_req "aapl" "1") logged_in) = respond (Ok (Redirect "/login")) /\
  sdb (snd (serve (market 150) 8 (buy_req "aapl" "1") logged_in)) = sdb logged_in.
Proof.
  apply (unauthenticated_redirected (market 150) 8 (buy_req "aapl" "1") logged_in RBuy).
  - vm_compute. reflexivity.
  - exists [GET; POST]. repeat split.
  - reflexivity.
Defined.


Lemma bad_shares_internal_error_witness :
  fst (serve (market 150) 7 (buy_req "aapl" "1.5") logged_in) = respond (Ok (apology "Internal Server Error" 500)) /\
  sdb (snd (serve (market 150) 7 (buy_req "aapl" "1.5") logged_in)) = sdb logged_in.
Proof.
  apply (bad_shares_internal_error (market 150) 7 logged_in 1 "/buy" _ "1.5").
  - vm_compute. reflexivity.
  - left. reflexivity.
  - reflexivity.
  - vm_compute. reflexivity.
Defined.

Lemma sell_unheld_internal_error_witness :
  fst (serve (market 150) 7 (sell_req "aapl" "1") logged_in) = respond (Ok (apology "Internal Server Error" 500)) /\
  sdb (snd (serve (market 150) 7 (sell_req "aapl" "1") logged_in)) = sdb logged_in.
Proof.
  apply (sell_unheld_internal_error (market 150) 7 logged_in
           (mk_user 1 "bob" (generate_password_hash "salt" "pw") default_cash) _ "aapl" (apple 150) "1" 1).
  - apply wf_serverb_sound. vm_compute. reflexivity.
  - vm_compute. reflexivity.
  - vm_compute. left. reflexivity.
  - reflexivity.
  - reflexivity.
  - reflexivity.
  - reflexivity.
  - lia.
  - vm_compute. reflexivity.
Defined.

Lemma invalid_trade_refused_witness :
  fst (serve (market 150) 7 (sell_req "aapl" "0") logged_in) = respond (Ok (apology "MISSING SHARES" 400)) /\
  sdb (snd (serve (market 150) 7 (sell_req "aapl" "0") logged_in)) = sdb logged_in.
Proof.
  apply (invalid_trade_refused (market 150) 7 logged_in 1 "/sell" _ "aapl" "0" 0).
  - vm_compute. reflexivity.
  - right. reflexivity.
  - reflexivity.
  - reflexivity.
  - reflexivity.
  - right. lia.
Defined.

(** [HEAD /login] logs bob out, as [GET /login] does. *)
Lemma head_is_get_witness :
  dispatch (market 150) (mk_request head_meth "/login" []) (mk_world (sdb logged_in) (Some 1)) =
  dispatch (market 150) (mk_request GET "/login" []) (mk_world (sdb logged_in) (Some 1)).
Proof. apply (head_is_get _ _ _ _ RLogin [GET; POST]); reflexivity. Defined.
