(* ===== verification/Sessions.v ===== *)
(** * Sessions: only a successful login authenticates a client

    The session of a client names a user only after a [POST /login] whose
    username is registered and whose password the stored hash verifies
    (lines 127-143).  The other handlers either keep the session (they
    only read it, through [login_required]) or clear it ([logout], and
    every request to [/login]).  The proofs follow each handler with the
    [keeps] rules of the prelude, for the state predicate "the session is
    [v]". *)

From Stdlib Require Import String List ZArith Lia Bool.
From S2P Require Import Prelude Db Http Services Trade Auth Views App Scenario Invariant TradeFacts Safety Responses.
Import ListNotations.
Open Scope string_scope.
Open Scope list_scope.
Open Scope Z_scope.
Open Scope fin_scope.

Definition session_is (v : option Z) (w : world) : Prop := session w = v.

Lemma keeps_exec v f : keeps (session_is v) (exec f).
Proof. intros w H. exact H. Qed.

Lemma keeps_query v {A} (q : db -> A) : keeps (session_is v) (query q).
Proof. apply keeps_gets. Qed.

#[export] Hint Resolve keeps_ret keeps_raise keeps_gets keeps_first keeps_exec keeps_query : finance.

(** Follow a handler statement by statement, splitting on its tests. *)
Ltac keeps_tac :=
  repeat first
    [ progress cbv beta
    | apply keeps_bind; intros
    | solve [eauto with finance]
    | match goal with
      | |- keeps _ (match ?x with _ => _ end) => destruct x
      | |- keeps _ (if ?x then _ else _) => destruct x
      end ].

Lemma buy_keeps_session e m f v : keeps (session_is v) (buy e m f).
Proof.
  cbv [buy buy_post login_required session_get lookup int_field query_first]. keeps_tac.
Qed.

Lemma sell_keeps_session e m f v : keeps (session_is v) (sell e m f).
Proof.
  cbv [sell sell_post login_required session_get lookup int_field query_first]. keeps_tac.
Qed.

Lemma match_route_login p ms : match_route p = Some (RLogin, ms) -> p = "/login".
Proof.
  unfold match_route, url_map. cbn [find fst].
  destruct (String.eqb_spec "/" p); [intros H; discriminate H|].
  destruct (String.eqb_spec "/buy" p); [intros H; discriminate H|].
  destruct (String.eqb_spec "/history" p); [intros H; discriminate H|].
  destruct (String.eqb_spec "/login" p); [auto|].
  destruct (String.eqb_spec "/logout" p); [intros H; discriminate H|].
  destruct (String.eqb_spec "/quote" p); [intros H; discriminate H|].
  destruct (String.eqb_spec "/register" p); [intros H; discriminate H|].
  destruct (String.eqb_spec "/sell" p); intros H; discriminate H.
Qed.

Section Login.
Context `{PasswordHasher}.

Lemma register_keeps_session e m f v : keeps (session_is v) (register e m f).
Proof. cbv [register register_post hash_field exec_insert_user]. keeps_tac. Qed.

(** The one way [login] leaves a session: a registered username whose
    stored hash verifies the password. *)
Lemma login_session m f w uid :
  session (snd (login m f w)) = Some uid ->
  m = POST /\
  exists u pw, In u (users (wdb w)) /\ u_id u = uid /\
    nonempty (form_get f "username") = Some (u_username u) /\
    nonempty (form_get f "password") = Some pw /\ check_password_hash (u_hash u) pw = true.
Proof.
  destruct w as [d ss]. unfold login. run_step.
  destruct m; [discriminate | | discriminate].
  destruct (nonempty (form_get f "username")) as [name|] eqn:Hname; [|discriminate].
  destruct (nonempty (form_get f "password")) as [pw|] eqn:Hpw; [|discriminate]. run_step.
  destruct (select_users_by_username d name) as [|u [|v rs]] eqn:Hrows; try discriminate.
  destruct (check_password_hash (u_hash u) pw) eqn:Hc; [|discriminate]. run_step.
  intros Huid. injection Huid as <-. split; [reflexivity|].
  assert (Hu : In u (select_users_by_username d name)) by (rewrite Hrows; left; reflexivity).
  apply filter_In in Hu as [Hu Hn]. apply String.eqb_eq in Hn. subst name.
  exists u, pw. auto.
Qed.

(** C12: if a request leaves the client's session naming user [uid] and
    the session did not name [uid] before, the request was [POST /login]
    with the username of [uid] and a password that [uid]'s stored hash
    verifies.  No other route, method or form authenticates a client. *)
Theorem session_only_by_login e cookie r s uid :
  session_of (snd (serve e cookie r s)) cookie = Some uid -> session_of s cookie <> Some uid ->
  method r = POST /\ path r = "/login" /\
  exists u pw, In u (users (sdb s)) /\ u_id u = uid /\
    nonempty (form_get (form r) "username") = Some (u_username u) /\
    nonempty (form_get (form r) "password") = Some pw /\ check_password_hash (u_hash u) pw = true.
Proof.
  rewrite serve_eq. cbn [snd]. rewrite session_of_store, Z.eqb_refl. intros Hs Hne.
  set (w := mk_world (sdb s) (session_of s cookie)) in Hs.
  assert (Hkeep : forall (m : M response), keeps (session_is (session w)) m ->
                  session (snd (m w)) = Some uid -> False)
    by (intros m Hm Hsw; apply Hne; rewrite <- Hsw; symmetry; apply Hm; reflexivity).
  unfold dispatch in Hs.
  destruct (match_route (path r)) as [[rt ms]|] eqn:Hr;
    [|destruct (match_route (merge_slashes (path r))); contradiction].
  destruct (existsb (meth_eqb (method r)) (rule_methods ms)); [|contradiction].
  destruct (meth_eqb (method r) options_meth); [contradiction|].
  destruct rt; cbn [handler] in Hs.
  - rewrite index_readonly in Hs. contradiction.
  - exfalso. exact (Hkeep _ (buy_keeps_session _ _ _ _) Hs).
  - rewrite history_readonly in Hs. contradiction.
  - destruct (login_session _ _ _ _ Hs) as [Hm Hlog]. split; [exact Hm|].
    split; [apply (match_route_login _ _ Hr) | exact Hlog].
  - discriminate.
  - rewrite quote_readonly in Hs. contradiction.
  - exfalso. exact (Hkeep _ (register_keeps_session _ _ _ _) Hs).
  - exfalso. exact (Hkeep _ (sell_keeps_session _ _ _ _) Hs).
Qed.
End Login.

(** Bob, registered, logs in with cookie 7. *)
Lemma session_only_by_login_witness :
  let s := run_trace init_server (firstn 1 spec_trace) in
  method (login_req "bob" "pw") = POST /\ path (login_req "bob" "pw") = "/login" /\
  exists u pw, In u (users (sdb s)) /\ u_id u = 1 /\
    nonempty (form_get (form (login_req "bob" "pw")) "username") = Some (u_username u) /\
    nonempty (form_get (form (login_req "bob" "pw")) "password") = Some pw /\
    check_password_hash (u_hash u) pw = true.
Proof.
  apply (session_only_by_login (market 150) 7 (login_req "bob" "pw")).
  - vm_compute. reflexivity.
  - vm_compute. discriminate.
Defined.
