(* ===== verification/FloatMoney.v ===== *)
(** * FloatMoney: the cash arithmetic of the source, in binary64

    The rest of the development counts money as an exact integer number
    of dollars, which is what the code computes when every price is a
    whole number of dollars, as in the example of the specification.
    The source computes with Python floats: [lookup] returns the price as
    a [float], [total_price = float(price * shares)] (line 73) is a
    binary64 product, the purchase is refused when [total_price] exceeds
    the cash (line 77), and the cash is debited (line 82) or credited
    (line 243) by binary64 subtraction and addition.  This file models
    those lines with Rocq's primitive binary64 floats, which round as
    Python's do, and shows a consequence the exact model cannot: rounding
    accumulates, and a purchase that costs exactly the cash the user has
    left is refused. *)

From Stdlib Require Import String List ZArith Floats.
From S2P Require Import Prelude Http Account.
Import ListNotations.
Local Set Warnings "-inexact-float".
Open Scope string_scope.
Open Scope Z_scope.

(** Python's [float(n)] on an integer: rounding to nearest, exact below
    [2 ^ 53] in absolute value; a negative integer is the negation of the
    float of its absolute value.  Faithful for [|n| < 2 ^ 63], the range
    of SQLite's INTEGER. *)
Definition py_float_of_int (n : Z) : float :=
  if n <? 0 then PrimFloat.opp (PrimFloat.of_uint63 (Uint63.of_Z (- n)))
  else PrimFloat.of_uint63 (Uint63.of_Z n).

(** [total_price = float(symbol_data["price"] * user_shares)], line 73
    (and line 237 for a sale). *)
Definition float_total (price : float) (shares : Z) : float :=
  PrimFloat.mul price (py_float_of_int shares).

(** [if total_price > user_cash[0]["cash"]], line 77. *)
Definition float_refused (cash total : float) : bool := PrimFloat.ltb cash total.

(** Lines 73-83 of a purchase on the cash: refused, or the new balance. *)
Definition float_buy (cash price : float) (shares : Z) : option float :=
  let total := float_total price shares in
  if float_refused cash total then None else Some (PrimFloat.sub cash total).

(** Lines 237-244 of a sale on the cash. *)
Definition float_sell (cash price : float) (shares : Z) : float :=
  PrimFloat.add cash (float_total price shares).

(** Purchases one after the other, as long as none is refused. *)
Fixpoint float_buys (cash : float) (orders : list (float * Z)) : option float :=
  match orders with
  | [] => Some cash
  | (price, shares) :: rest =>
      match float_buy cash price shares with
      | Some cash' => float_buys cash' rest
      | None => None
      end
  end.

(** A new user (cash 10000.00) buys one share at 0.10 ten times,
    which costs exactly 1.00, and is left with 9998.999999999996 instead
    of 9999.00; a purchase costing 9999.00 is then refused.  Counted
    exactly (in cents, with the abstract account of [Account]), the same
    user has 999900 cents left and the same purchase is accepted. *)
Theorem float_cash_drift :
  float_buys 10000 (repeat (0.1%float, 1) 10) = Some 9998.999999999996%float /\
  float_buy 9998.999999999996%float 9999 1 = None /\
  acct_buy (mk_account (1000000 - 10 * 10) [] []) (mk_quote "Apple" 999900 "AAPL") 1 <> None.
Proof. split; [|split]; [vm_compute; reflexivity | vm_compute; reflexivity | vm_compute; discriminate]. Qed.
