(* ===== verification/ReadSkew.v ===== *)
(** * ReadSkew: the portfolio page read across a purchase

    [index] (lines 44-53) reads the portfolio (line 48) and the cash
    (line 49) in two statements, each committed on its own.  Run alone,
    before or after a purchase, the grand total it shows is the account's
    value at the prices paid, [Account.acct_value], which a purchase
    conserves: the price leaves the cash and enters the total of the
    holding ([Account.acct_buy_value]).  A purchase of the same user that
    commits between the two reads is seen half: the page adds the new,
    lower cash to the old holdings, and shows a total short by the price
    of the purchase, a value the account has in no state. *)

From Stdlib Require Import String List ZArith Lia Bool.
From S2P Require Import Prelude PyInt Db Http Services Trade Auth Views Account Scenario Invariant TradeFacts ViewFacts AuthFacts Concurrency Schedules.
Import ListNotations.
Open Scope string_scope.
Open Scope list_scope.
Open Scope Z_scope.

(** The grand total of a portfolio page. *)
Definition shown_total (o : outcome exn response) : option Z :=
  match o with
  | Ok (Page (PIndex total _ _)) => Some total
  | _ => None
  end.

(** The first thread takes one statement, then the second runs six. *)
Definition one_then_six : list bool := true :: repeat false 6.

(** Run alone, the portfolio page of a user shows the value of the
    user's account and the user's cash. *)
Lemma run_index_prog d u :
  wf_db d -> In u (users d) ->
  run (index_prog (u_id u)) d =
    (Ok (Page (PIndex (acct_value (account_of_user d u)) (u_cash u) (select_portfolio d (u_id u)))), d).
Proof.
  intros Hwf Hu. unfold index_prog. seq_step.
  rewrite (select_cash_user d Hwf u Hu). seq_step.
  rewrite total_loop_sum, (select_portfolio_user d Hwf u Hu).
  unfold acct_value, account_of_user. cbn [acash aholdings]. rewrite sumZ_map. reflexivity.
Qed.

Lemma index_shows_value d u :
  wf_db d -> In u (users d) ->
  shown_total (fst (index (mk_world d (Some (u_id u))))) = Some (acct_value (account_of_user d u)).
Proof. intros Hwf Hu. rewrite index_prog_sequential, run_index_prog by assumption. reflexivity. Qed.

Section Skew.
Variables (e : env) (f : list (string * string)) (d : db) (u : user_row)
          (sym txt : string) (q : quote) (n : Z).
Hypothesis Hwf : wf_db d.
Hypothesis Hu : In u (users d).
Hypothesis Hsym : nonempty (form_get f "symbol") = Some sym.
Hypothesis Hq : quote_service e sym = Some q.
Hypothesis Ht : form_get f "shares" = Some txt.
Hypothesis Hn : py_int txt = Some n.
Hypothesis Hn1 : 1 <= n.
Hypothesis Hc : q_price q * n <= u_cash u.

Let u' := set_cash (u_cash u - q_price q * n) u.

Lemma buyer_after : In u' (users (buy_effect d u q n)).
Proof. rewrite buy_effect_users by exact Hwf. apply in_cash_update, Hu. Qed.

Lemma run_buy_prog : run (buy_prog e f (u_id u)) d = (Ok (Redirect "/"), buy_effect d u q n).
Proof.
  rewrite (buy_prog_read e f u sym txt q n Hsym Hq Ht Hn Hn1). cbn [run].
  rewrite (select_cash_user d Hwf u Hu). apply buy_tail_run; assumption.
Qed.

(** Run alone after the purchase, the page shows the same value. *)
Lemma buy_keeps_value : acct_value (account_of_user (buy_effect d u q n) u') = acct_value (account_of_user d u).
Proof.
  apply acct_buy_value with (q := q) (n := n); [apply account_wf_user; exact Hwf|].
  rewrite <- (buy_effect_self d u q n Hwf Hu Hn1 Hc).
  change (u_id u) with (u_id u').
  apply account_of_user_row; [apply buy_effect_wf; assumption | exact buyer_after].
Qed.

(** C32: the portfolio page and a purchase of [n] shares by the same
    user.  Run alone before the purchase, or alone after it, the page
    shows as grand total the value [v] of the user's account.  Served
    concurrently so that the page reads the portfolio (line 48), the
    purchase then runs to its end, and the page reads the cash (line 49),
    both succeed, the database is the one the purchase alone leaves, and
    the page shows the new cash beside the old holdings: a grand total
    of [v] minus the price of the purchase. *)
Theorem index_read_skew :
  let v := acct_value (account_of_user d u) in
  let t := q_price q * n in
  shown_total (fst (index (mk_world d (Some (u_id u))))) = Some v /\
  shown_total (fst (index (mk_world (buy_effect d u q n) (Some (u_id u))))) = Some v /\
  concurrent one_then_six (index_prog (u_id u)) (buy_prog e f (u_id u)) d =
    (Ok (Page (PIndex (v - t) (u_cash u - t) (select_portfolio d (u_id u)))), Ok (Redirect "/"),
     buy_effect d u q n).
Proof.
  intros v t. split; [apply index_shows_value; assumption|]. split.
  - change (u_id u) with (u_id u'). rewrite index_shows_value by (apply buy_effect_wf || apply buyer_after; assumption).
    f_equal. apply buy_keeps_value.
  - unfold concurrent, one_then_six, index_prog. cbv [pquery pret]. cbn [pbind interleave step].
    rewrite (interleave_second_run 6 _ _ d (buy_prog_within e f (u_id u))), run_buy_prog.
    assert (Hcash : select_cash (buy_effect d u q n) (u_id u) = [u_cash u - t])
      by exact (select_cash_user _ (buy_effect_wf d u q n Hwf Hu Hn1) u' buyer_after).
    cbn [fst snd]. seq_step. rewrite Hcash. seq_step.
    unfold v, t, acct_value, account_of_user. cbn [acash aholdings].
    rewrite total_loop_sum, (select_portfolio_user d Hwf u Hu), sumZ_map.
    change (fun r => htotal (holding_of r)) with p_total.
    match goal with |- context [PIndex (?x - ?y + ?s) _ _] => replace (x - y + s) with (x + s - y) by lia end.
    reflexivity.
Qed.
End Skew.

(** Bob, with no holdings and 10000 in cash, loads his portfolio page
    while buying 10 Apple shares at 150: the page shows 8500 as grand
    total, where it shows 10000 before and after the purchase. *)
Lemma index_read_skew_witness :
  let v := acct_value (account_of_user bob_db bob) in
  let t := q_price (apple 150) * 10 in
  shown_total (fst (index (mk_world bob_db (Some (u_id bob))))) = Some v /\
  shown_total (fst (index (mk_world (buy_effect bob_db bob (apple 150) 10) (Some (u_id bob))))) = Some v /\
  concurrent one_then_six (index_prog (u_id bob)) (buy_prog (market 150) [("symbol", "aapl"); ("shares", "10")] (u_id bob)) bob_db =
    (Ok (Page (PIndex (v - t) (u_cash bob - t) (select_portfolio bob_db (u_id bob)))), Ok (Redirect "/"),
     buy_effect bob_db bob (apple 150) 10).
Proof.
  apply (index_read_skew (market 150) [("symbol", "aapl"); ("shares", "10")] bob_db bob "aapl" "10" (apple 150) 10).
  - apply wf_dbb_sound. vm_compute. reflexivity.
  - vm_compute. left. reflexivity.
  - reflexivity.
  - reflexivity.
  - reflexivity.
  - vm_compute. reflexivity.
  - lia.
  - simpl. unfold default_cash. lia.
Defined.
