(* ===== verification/Locality.v ===== *)
(** * Locality: requests of different users do not interfere

    The specification (section 6) states that operations are scoped to
    the acting user's own rows, so that no cross-user locking is needed.
    This file gives that statement a form and proves that it makes any
    interleaving of two users' requests look serial to each of them.

    A user [a] ([owner]: the id of the session and the username of that
    id) sees of the database its [view]: its row of [users], its
    portfolio rows with a nonzero number of shares, its history rows, in
    table order.  [agrees a d s] relates the shared database [d] to the
    state [s] that [a]'s request would have reached alone: the same view,
    and no zero-share rows of [a] in [d] that [s] does not have either
    (the [DELETE FROM portfolio WHERE shares = 0] of a sale, line 258, is
    not scoped to the user: another user's sale may remove them early).
    [ready a s]: the id of [a] has [a]'s username and [a] has no zero-share
    rows, which every reachable state satisfies.

    [local a P p]: every read of [p] in a state related to one satisfying
    the precondition reached so far returns what it returns there, every
    write keeps the relation and leaves the view of every other user as
    it was (at most removing zero-share rows).  [concurrent_local]: two
    local programs of distinct users, under any schedule, end each with
    the outcome it has alone, each user's view is the one its request
    leaves alone, and the views of all other users are untouched. *)

From Stdlib Require Import String List ZArith Lia Bool.
From S2P Require Import Prelude Db Http Account Concurrency.
Import ListNotations.
Open Scope string_scope.
Open Scope list_scope.
Open Scope Z_scope.

Record owner := mk_owner { o_id : Z; o_name : string }.

(** The owner of a row of [users]. *)
Definition owner_of (u : user_row) : owner := mk_owner (u_id u) (u_username u).

Definition distinct (a b : owner) : Prop := o_id a <> o_id b /\ o_name a <> o_name b.

Definition own_rows (a : owner) (d : db) : list portfolio_row := filter (owned_by (o_name a)) (portfolio d).

Definition nonzero (r : portfolio_row) : bool := negb (Z.eqb (p_shares r) 0).

Definition zero_rows (a : owner) (d : db) : list portfolio_row := filter (fun r => negb (nonzero r)) (own_rows a d).

Definition view (a : owner) (d : db) : list user_row * list portfolio_row * list history_row :=
  (filter (user_has_id (o_id a)) (users d), filter nonzero (own_rows a d),
   filter (logged_by (o_name a)) (history d)).

Definition agrees (a : owner) (d s : db) : Prop := view a d = view a s /\ incl (zero_rows a d) (zero_rows a s).

Definition owns (a : owner) (d : db) : Prop := select_username d (o_id a) = [o_name a].

Definition clean (a : owner) (d : db) : Prop := zero_rows a d = [].

Definition ready (a : owner) (d : db) : Prop := owns a d /\ clean a d.

(** Locality of a program of user [a], from states satisfying [P]. *)
Inductive local {A} (a : owner) : (db -> Prop) -> prog A -> Prop :=
| local_done P o : local a P (Done o)
| local_read P k :
    (forall d s, P s -> agrees a d s -> k d = k s) ->
    (forall s, P s -> local a P (k s)) ->
    local a P (Read k)
| local_write P Q f k :
    (forall d s, P s -> agrees a d s -> agrees a (f d) (f s)) ->
    (forall d b, distinct a b -> agrees b (f d) d) ->
    (forall s, P s -> Q (f s)) ->
    local a Q k ->
    local a P (Write f k).

(** Thread [p] in the shared state [d] is where the solo run of [p0]
    from [s0] is, in a state that [d] agrees with. *)
Definition tracks {A} (a : owner) (p0 : prog A) (s0 : db) (p : prog A) (d : db) : Prop :=
  exists P s, run p0 s0 = run p s /\ local a P p /\ P s /\ agrees a d s.

(** ** The relation *)

Lemma distinct_sym a b : distinct a b -> distinct b a.
Proof. unfold distinct. intros [H1 H2]. split; congruence. Qed.

Lemma agrees_refl a d : agrees a d d.
Proof. split; [reflexivity | apply incl_refl]. Qed.

Lemma agrees_trans a d1 d2 d3 : agrees a d1 d2 -> agrees a d2 d3 -> agrees a d1 d3.
Proof. intros [V1 Z1] [V2 Z2]. split; [congruence | eapply incl_tran; eassumption]. Qed.

#[export] Hint Resolve agrees_refl distinct_sym : finance.

(** Equal users, portfolio and history rows of [a] make two states agree. *)
Lemma agrees_of_eq a d s :
  filter (user_has_id (o_id a)) (users d) = filter (user_has_id (o_id a)) (users s) ->
  own_rows a d = own_rows a s ->
  filter (logged_by (o_name a)) (history d) = filter (logged_by (o_name a)) (history s) ->
  agrees a d s.
Proof.
  intros U P H. unfold agrees, view, zero_rows. rewrite U, P, H. split; [reflexivity | apply incl_refl].
Qed.

Lemma agrees_users a d s :
  agrees a d s -> filter (user_has_id (o_id a)) (users d) = filter (user_has_id (o_id a)) (users s).
Proof. intros [V _]. unfold view in V. congruence. Qed.

Lemma agrees_history a d s :
  agrees a d s -> filter (logged_by (o_name a)) (history d) = filter (logged_by (o_name a)) (history s).
Proof. intros [V _]. unfold view in V. congruence. Qed.

Lemma agrees_owns a d s : agrees a d s -> owns a s -> owns a d.
Proof. unfold owns, select_username. intros H. rewrite (agrees_users a d s H). auto. Qed.

Lemma agrees_clean a d s : agrees a d s -> clean a s -> clean a d.
Proof.
  unfold clean. intros [_ Z] Hs. rewrite Hs in Z.
  destruct (zero_rows a d) as [|r rs]; [reflexivity|]. destruct (Z r (or_introl eq_refl)).
Qed.

Lemma agrees_ready a d s : agrees a d s -> ready a s -> ready a d.
Proof. intros H [Ho Hc]. split; [exact (agrees_owns a d s H Ho) | exact (agrees_clean a d s H Hc)]. Qed.

Lemma clean_rows a d : clean a d -> filter nonzero (own_rows a d) = own_rows a d.
Proof.
  unfold clean, zero_rows. induction (own_rows a d) as [|r l IH]; [reflexivity|]. cbn [filter].
  destruct (nonzero r); cbn [negb]; [intros H; f_equal; exact (IH H) | discriminate].
Qed.

(** Against a clean state, agreement is equality of the rows of [a]. *)
Lemma agrees_rows a d s : agrees a d s -> clean a s -> own_rows a d = own_rows a s.
Proof.
  intros H Hs. rewrite <- (clean_rows a d (agrees_clean a d s H Hs)), <- (clean_rows a s Hs).
  destruct H as [V _]. unfold view in V. congruence.
Qed.

(** ** A local program, run alone *)

Section Run.
Context {A : Type} (a : owner).

(** From agreeing states a local program gives the same outcome and
    agreeing states. *)
Lemma run_agrees P (p : prog A) :
  local a P p -> forall d s, P s -> agrees a d s ->
  fst (run p d) = fst (run p s) /\ agrees a (snd (run p d)) (snd (run p s)).
Proof.
  induction 1 as [P o|P k Hk _ IH|P Q f k Hf _ HQ _ IH]; intros d s Hs Hds; cbn [run].
  - auto.
  - rewrite (Hk d s Hs Hds). apply IH; assumption.
  - apply IH; auto.
Qed.

(** It leaves the view of every other user as it was, up to zero-share
    rows removed. *)
Lemma run_frame P (p : prog A) :
  local a P p -> forall d s b, P s -> agrees a d s -> distinct a b -> agrees b (snd (run p d)) d.
Proof.
  induction 1 as [P o|P k Hk _ IH|P Q f k Hf Hb HQ _ IH]; intros d s b Hs Hds Hab; cbn [run].
  - apply agrees_refl.
  - rewrite (Hk d s Hs Hds). exact (IH s Hs d s b Hs Hds Hab).
  - apply agrees_trans with (f d); [exact (IH (f d) (f s) b (HQ s Hs) (Hf d s Hs Hds) Hab) | exact (Hb d b Hab)].
Qed.

(** One statement of a local program in the shared state is one
    statement of its solo run. *)
Lemma step_local P (p : prog A) d s :
  local a P p -> P s -> agrees a d s ->
  exists P' s', run p s = run (fst (step p d)) s' /\ local a P' (fst (step p d)) /\ P' s' /\
    agrees a (snd (step p d)) s' /\ forall b, distinct a b -> agrees b (snd (step p d)) d.
Proof.
  destruct 1 as [P o|P k Hk Hl|P Q f k Hf Hb HQ Hl]; intros Hs Hds; cbn [step fst snd run].
  - exists P, s. refine (conj eq_refl (conj (local_done _ _ _) (conj Hs (conj Hds _)))). intros; apply agrees_refl.
  - exists P, s. rewrite (Hk d s Hs Hds).
    refine (conj eq_refl (conj (Hl s Hs) (conj Hs (conj Hds _)))). intros; apply agrees_refl.
  - exists Q, (f s). exact (conj eq_refl (conj Hl (conj (HQ s Hs) (conj (Hf d s Hs Hds) (fun b H => Hb d b H))))).
Qed.
End Run.

(** ** Two threads of distinct users *)

Lemma tracks_agrees {A} a (p0 : prog A) s0 p d d' : tracks a p0 s0 p d -> agrees a d' d -> tracks a p0 s0 p d'.
Proof. intros (P & s & R & L & Hs & Hd) H. exists P, s. repeat (split; [eassumption|]). eapply agrees_trans; eassumption. Qed.

Lemma tracks_step {A} a (p0 : prog A) s0 p d :
  tracks a p0 s0 p d ->
  tracks a p0 s0 (fst (step p d)) (snd (step p d)) /\ forall b, distinct a b -> agrees b (snd (step p d)) d.
Proof.
  intros (P & s & R & L & Hs & Hd). destruct (step_local a P p d s L Hs Hd) as (P' & s' & R' & L' & Hs' & Hd' & Hb).
  split; [|exact Hb]. exists P', s'. rewrite R, R'. auto.
Qed.

Lemma interleave_local {A B} a1 a2 sched (p1 p01 : prog A) (p2 p02 : prog B) s01 s02 d :
  distinct a1 a2 -> tracks a1 p01 s01 p1 d -> tracks a2 p02 s02 p2 d ->
  let r := interleave sched p1 p2 d in
  tracks a1 p01 s01 (fst (fst r)) (snd r) /\ tracks a2 p02 s02 (snd (fst r)) (snd r) /\
  forall b, distinct a1 b -> distinct a2 b -> agrees b (snd r) d.
Proof.
  intros H12. revert p1 p2 d. induction sched as [|[|] sched IH]; intros p1 p2 d T1 T2; cbn [interleave].
  - split; [exact T1 | split; [exact T2 | intros; apply agrees_refl]].
  - destruct (tracks_step a1 p01 s01 p1 d T1) as [T1' F1]. destruct (step p1 d) as [p1' d'].
    cbn [fst snd] in T1', F1. destruct (IH p1' p2 d' T1' (tracks_agrees a2 _ _ _ _ _ T2 (F1 a2 H12))) as (A1 & A2 & Ab).
    split; [exact A1 | split; [exact A2 |]]. intros b H1 H2. eapply agrees_trans; [apply Ab | apply F1]; auto.
  - destruct (tracks_step a2 p02 s02 p2 d T2) as [T2' F2]. destruct (step p2 d) as [p2' d'].
    cbn [fst snd] in T2', F2.
    destruct (IH p1 p2' d' (tracks_agrees a1 _ _ _ _ _ T1 (F2 a1 (distinct_sym _ _ H12))) T2') as (A1 & A2 & Ab).
    split; [exact A1 | split; [exact A2 |]]. intros b H1 H2. eapply agrees_trans; [apply Ab | apply F2]; auto.
Qed.

(** Two local programs of distinct users, under any schedule: each ends
    with the outcome it has alone, each user's view is the one its
    program leaves alone, and every other user's view is as it was. *)
Lemma concurrent_local {A B} a1 a2 P1 P2 (p1 : prog A) (p2 : prog B) sched d :
  distinct a1 a2 -> local a1 P1 p1 -> local a2 P2 p2 -> P1 d -> P2 d ->
  let '(o1, o2, d') := concurrent sched p1 p2 d in
  o1 = fst (run p1 d) /\ o2 = fst (run p2 d) /\
  agrees a1 d' (snd (run p1 d)) /\ agrees a2 d' (snd (run p2 d)) /\
  forall b, distinct a1 b -> distinct a2 b -> agrees b d' d.
Proof.
  intros H12 L1 L2 H1 H2.
  assert (T1 : tracks a1 p1 d p1 d) by (exists P1, d; auto using agrees_refl).
  assert (T2 : tracks a2 p2 d p2 d) by (exists P2, d; auto using agrees_refl).
  destruct (interleave_local a1 a2 sched p1 p1 p2 p2 d d d H12 T1 T2) as (T1' & T2' & Fb).
  unfold concurrent. destruct (interleave sched p1 p2 d) as [[q1 q2] dc]. cbn [fst snd] in T1', T2', Fb.
  destruct T1' as (Q1 & s1 & R1 & M1 & Hs1 & Hd1). destruct T2' as (Q2 & s2 & R2 & M2 & Hs2 & Hd2).
  rewrite R1, R2.
  destruct (run_agrees a1 Q1 q1 M1 dc s1 Hs1 Hd1) as [E1 A1].
  pose proof (fun b => run_frame a1 Q1 q1 M1 dc s1 b Hs1 Hd1) as G1. pose proof (G1 a2 H12) as F1.
  destruct (run q1 dc) as [o1 d2]. cbn [fst snd] in E1, A1, F1, G1.
  destruct (run_agrees a2 Q2 q2 M2 d2 s2 Hs2 (agrees_trans _ _ _ _ F1 Hd2)) as [E2 A2].
  pose proof (fun b => run_frame a2 Q2 q2 M2 d2 s2 b Hs2 (agrees_trans _ _ _ _ F1 Hd2)) as G2.
  pose proof (G2 a1 (distinct_sym _ _ H12)) as F2.
  destruct (run q2 d2) as [o2 d3]. cbn [fst snd] in E2, A2, F2, G2.
  split; [exact E1|]. split; [exact E2|]. split; [exact (agrees_trans _ _ _ _ F2 A1)|]. split; [exact A2|].
  intros b Hb1 Hb2. exact (agrees_trans _ _ _ _ (G2 b Hb2) (agrees_trans _ _ _ _ (G1 b Hb1) (Fb b Hb1 Hb2))).
Qed.
