(* ===== verification/LocalTrades.v ===== *)
(** * LocalTrades: purchases, sales and portfolio pages are local

    Every statement of [buy_prog], [sell_prog] and [index_prog] is local
    to the user of the session in the sense of [Locality]: each SELECT
    filters by the user's id or username, each UPDATE and INSERT writes the
    user's row, the user's portfolio rows or a history row in the user's
    name.  The one exception, the [DELETE FROM portfolio WHERE shares = 0]
    of line 258, removes every user's zero-share rows; it changes no
    user's view.  Hence ([concurrent_local]) a purchase, a sale or a page
    of one user interleaved in any way with one of another user behaves
    as if each ran alone: the update lost by two purchases of one user
    ([Concurrency.concurrent_buys_lose_update]) and the torn portfolio
    page ([ReadSkew.index_read_skew]) need the same user. *)

From Stdlib Require Import String List ZArith Lia Bool.
From S2P Require Import Prelude PyInt Db Http Services Trade Auth Views App Account Scenario Invariant TradeFacts AuthFacts Concurrency Locality.
Import ListNotations.
Open Scope string_scope.
Open Scope list_scope.
Open Scope Z_scope.

(** A write of user [a] from states satisfying [P] to states satisfying [Q]. *)
Definition write_ok (a : owner) (P Q : db -> Prop) (f : db -> db) : Prop :=
  (forall d s, P s -> agrees a d s -> agrees a (f d) (f s)) /\
  (forall d b, distinct a b -> agrees b (f d) d) /\
  (forall s, P s -> Q (f s)).

(** The requests of a logged-in user that read or write the database's
    account tables: a purchase, a sale, the portfolio page. *)
Inductive request_kind := KBuy | KSell | KIndex.

Definition user_prog (e : env) (k : request_kind) (f : list (string * string)) (uid : Z) : prog response :=
  match k with
  | KBuy => buy_prog e f uid
  | KSell => sell_prog e f uid
  | KIndex => index_prog uid
  end.

Lemma local_write_ok {A} a P Q f (k : prog A) : write_ok a P Q f -> local a Q k -> local a P (Write f k).
Proof. intros (H1 & H2 & H3) Hk. exact (local_write a P Q f k H1 H2 H3 Hk). Qed.

(** ** Reads *)

Section Reads.
Variables (a : owner) (d s : db).
Hypothesis Hs : ready a s.
Hypothesis Hds : agrees a d s.

Lemma select_cash_agrees : select_cash d (o_id a) = select_cash s (o_id a).
Proof. unfold select_cash. rewrite (agrees_users a d s Hds). reflexivity. Qed.

Lemma select_username_agrees : select_username d (o_id a) = select_username s (o_id a).
Proof. unfold select_username. rewrite (agrees_users a d s Hds). reflexivity. Qed.

Lemma own_filter_agrees (p : portfolio_row -> bool) :
  (forall r, p r = true -> owned_by (o_name a) r = true) -> filter p (portfolio d) = filter p (portfolio s).
Proof.
  intros Hp. rewrite <- (filter_weaker p _ (portfolio d) Hp), <- (filter_weaker p _ (portfolio s) Hp).
  change (filter p (own_rows a d) = filter p (own_rows a s)). rewrite (agrees_rows a d s Hds (proj2 Hs)).
  reflexivity.
Qed.

Lemma sum_shares_agrees sym : sum_shares (o_name a) sym d = sum_shares (o_name a) sym s.
Proof. unfold sum_shares. rewrite (own_filter_agrees _ (row_key_owned (o_name a) sym)). reflexivity. Qed.

Lemma username_owns x : owns a x -> username_of_id x (o_id a) = Some (o_name a).
Proof.
  unfold owns, select_username, username_of_id. destruct (filter _ (users x)) as [|u us]; [discriminate|].
  intros [= -> _]. reflexivity.
Qed.

Lemma sql_eq_owned name r : sql_eq_opt (p_username r) (Some name) = owned_by name r.
Proof. reflexivity. Qed.

Lemma select_shares_agrees sym : select_shares d (o_id a) sym = select_shares s (o_id a) sym.
Proof.
  unfold select_shares. rewrite (username_owns d (agrees_owns a d s Hds (proj1 Hs))), (username_owns s (proj1 Hs)).
  rewrite (own_filter_agrees _ (fun r H => proj1 (proj1 (andb_true_iff _ _) H))). reflexivity.
Qed.

Lemma select_portfolio_agrees : select_portfolio d (o_id a) = select_portfolio s (o_id a).
Proof.
  unfold select_portfolio. rewrite (username_owns d (agrees_owns a d s Hds (proj1 Hs))), (username_owns s (proj1 Hs)).
  apply own_filter_agrees. intros r H. exact H.
Qed.
End Reads.

(** ** Writes *)

Section Writes.
Variable a : owner.

Lemma agrees_parts d s :
  filter (user_has_id (o_id a)) (users d) = filter (user_has_id (o_id a)) (users s) ->
  filter nonzero (own_rows a d) = filter nonzero (own_rows a s) ->
  filter (logged_by (o_name a)) (history d) = filter (logged_by (o_name a)) (history s) ->
  incl (zero_rows a d) (zero_rows a s) -> agrees a d s.
Proof. intros U N H Z. split; [unfold view; rewrite U, N, H; reflexivity | exact Z]. Qed.

Lemma agrees_nonzero d s : agrees a d s -> filter nonzero (own_rows a d) = filter nonzero (own_rows a s).
Proof. intros [V _]. unfold view in V. congruence. Qed.

Lemma update_cash_ok c : write_ok a (ready a) (ready a) (update_cash c (o_id a)).
Proof.
  assert (U : forall x uid, filter (user_has_id uid) (users (update_cash c (o_id a) x)) =
                           map (cash_update c (o_id a)) (filter (user_has_id uid) (users x))).
  { intros x uid. rewrite users_update_cash, filter_map_swap. f_equal. apply filter_ext. intros u.
    unfold cash_update. destruct (user_has_id (o_id a) u); reflexivity. }
  split; [|split].
  - intros d s _ H. apply agrees_parts; [rewrite !U, (agrees_users a d s H); reflexivity |
      exact (agrees_nonzero d s H) | exact (agrees_history a d s H) | exact (proj2 H)].
  - intros d b [Hid _]. apply agrees_of_eq; [|reflexivity|reflexivity].
    rewrite U. apply map_id_on. intros u Hu. apply filter_In in Hu as [_ Hu]. unfold cash_update.
    destruct (user_has_id (o_id a) u) eqn:Ha; [|reflexivity].
    unfold user_has_id in *. apply Z.eqb_eq in Ha, Hu. congruence.
  - intros s [Ho Hc]. split; [|exact Hc]. unfold owns, select_username in *. rewrite U, map_map.
    erewrite map_ext; [exact Ho|]. intros u. unfold cash_update. destruct (user_has_id _ u); reflexivity.
Qed.

Lemma insert_history_ok sym sh price : write_ok a (ready a) (ready a) (insert_history sym sh price (o_name a)).
Proof.
  split; [|split].
  - intros d s _ H. apply agrees_parts; [exact (agrees_users a d s H) | exact (agrees_nonzero d s H) | | exact (proj2 H)].
    cbn [history insert_history]. rewrite !logged_snoc, (agrees_history a d s H). reflexivity.
  - intros d b [_ Hn]. apply agrees_of_eq; [reflexivity | reflexivity |].
    apply logged_snoc_other. congruence.
  - intros s Hs. exact Hs.
Qed.

Lemma insert_portfolio_ok sym nm sh price total :
  write_ok a (ready a) (fun _ => True) (insert_portfolio (o_name a) sym nm sh price total).
Proof.
  split; [|split].
  - intros d s _ H. unfold own_rows in *.
    apply agrees_parts; [exact (agrees_users a d s H) | | exact (agrees_history a d s H) |];
      unfold zero_rows, own_rows; cbn [portfolio insert_portfolio]; rewrite !owned_snoc, ?filter_app.
    + f_equal. exact (agrees_nonzero d s H).
    + apply incl_app_app; [exact (proj2 H) | apply incl_refl].
  - intros d b [_ Hn]. apply agrees_of_eq; [reflexivity | | reflexivity].
    apply owned_snoc_other. congruence.
  - trivial.
Qed.

Lemma filter_owned_map name (g : portfolio_row -> portfolio_row) rows :
  (forall r, owned_by name (g r) = owned_by name r) ->
  filter (owned_by name) (map g rows) = map g (filter (owned_by name) rows).
Proof. intros Hg. rewrite filter_map_swap. f_equal. apply filter_ext. exact Hg. Qed.

(** An UPDATE of the rows of one (username, symbol) of [a]. *)
Lemma update_rows_ok sym (g : portfolio_row -> portfolio_row) :
  (forall name r, owned_by name (g r) = owned_by name r) ->
  write_ok a (ready a) (fun _ => True)
    (fun x => {| users := users x;
                 portfolio := map (fun r => if row_key (o_name a) sym r then g r else r) (portfolio x);
                 history := history x |}).
Proof.
  intros Hg. assert (Hg' : forall name r, owned_by name (if row_key (o_name a) sym r then g r else r) = owned_by name r)
    by (intros name r; destruct (row_key _ _ r); auto).
  split; [|split].
  - intros d s [_ Hc] H. apply agrees_of_eq; [exact (agrees_users a d s H) | | exact (agrees_history a d s H)].
    unfold own_rows; cbn [portfolio]. rewrite !filter_owned_map by apply Hg'.
    change (filter (owned_by (o_name a)) (portfolio d)) with (own_rows a d).
    change (filter (owned_by (o_name a)) (portfolio s)) with (own_rows a s).
    rewrite (agrees_rows a d s H Hc). reflexivity.
  - intros d b [_ Hn]. apply agrees_of_eq; [reflexivity | | reflexivity].
    apply owned_update_other; [congruence | apply Hg].
  - trivial.
Qed.

Lemma update_portfolio_add_ok sh t sym :
  write_ok a (ready a) (fun _ => True) (update_portfolio_add sh t sym (o_name a)).
Proof. apply (update_rows_ok sym (fun r => set_row sh (p_total r + t) r)). reflexivity. Qed.

Lemma update_portfolio_sub_ok sh t sym :
  write_ok a (ready a) (fun _ => True) (update_portfolio_sub sh t sym (o_name a)).
Proof. apply (update_rows_ok sym (fun r => set_row sh (p_total r - t) r)). reflexivity. Qed.

(** The DELETE of line 258 removes zero-share rows of every user, which
    no view shows. *)
Lemma delete_nonzero b x : filter nonzero (own_rows b (delete_zero_shares x)) = filter nonzero (own_rows b x).
Proof.
  unfold own_rows; cbn [portfolio delete_zero_shares]. change (fun r => negb (Z.eqb (p_shares r) 0)) with nonzero.
  rewrite (filter_comm (owned_by (o_name b)) nonzero). apply filter_weaker. auto.
Qed.

Lemma delete_zero_rows b x : zero_rows b (delete_zero_shares x) = [].
Proof.
  unfold zero_rows, own_rows; cbn [portfolio delete_zero_shares]. change (fun r => negb (Z.eqb (p_shares r) 0)) with nonzero.
  rewrite (filter_comm (owned_by (o_name b)) nonzero).
  induction (filter (owned_by (o_name b)) (portfolio x)) as [|r l IH]; [reflexivity|].
  cbn [filter]. destruct (nonzero r) eqn:Hr; [cbn [filter]; rewrite Hr; exact IH | exact IH].
Qed.

Lemma delete_ok P : write_ok a P (fun _ => True) delete_zero_shares.
Proof.
  split; [|split].
  - intros d s _ H. apply agrees_parts; [exact (agrees_users a d s H) | | exact (agrees_history a d s H) |].
    + rewrite !delete_nonzero. exact (agrees_nonzero d s H).
    + rewrite delete_zero_rows. apply incl_nil_l.
  - intros d b _. split; [unfold view; rewrite delete_nonzero; reflexivity |].
    rewrite delete_zero_rows. apply incl_nil_l.
  - trivial.
Qed.
End Writes.


(** ** The handlers *)

Create HintDb locality.
#[export] Hint Resolve update_cash_ok insert_history_ok insert_portfolio_ok update_portfolio_add_ok
  update_portfolio_sub_ok delete_ok : locality.

(** Build the derivation of [local] statement by statement: a read is
    answered alike in agreeing states, a write is one of the lemmas
    above, a test on data already read is split. *)
Ltac local_tac :=
  repeat (cbn [pbind];
    first
    [ apply local_done
    | apply local_read;
        [ let d := fresh "d" in let s := fresh "s" in let Hs := fresh "Hs" in let Hds := fresh "Hds" in
          intros d s Hs Hds;
          first [ rewrite (select_cash_agrees _ _ _ Hds)
                | rewrite (select_username_agrees _ _ _ Hds)
                | rewrite (sum_shares_agrees _ _ _ Hs Hds)
                | rewrite (select_shares_agrees _ _ _ Hs Hds)
                | rewrite (select_portfolio_agrees _ _ _ Hs Hds)
                | idtac ]; reflexivity
        | intros ?s ?Hs;
          try match goal with
              | H : ready ?a ?x |- context [select_username ?x _] =>
                  rewrite (proj1 H : select_username x (o_id a) = [o_name a])
              end ]
    | eapply local_write_ok; [solve [eauto with locality] |]
    | match goal with
      | |- context [match ?x with _ => _ end] => destruct x
      | |- context [if ?x then _ else _] => destruct x
      end ]).

Ltac unfold_handlers :=
  cbv [buy_prog buy_tail sell_prog sell_tail index_prog pquery pexec pfirst pquery_first plookup pint_field
       pret praise checked_quote].

Lemma buy_prog_local e f a : local a (ready a) (buy_prog e f (o_id a)).
Proof. unfold_handlers. local_tac. Qed.

Lemma sell_prog_local e f a : local a (ready a) (sell_prog e f (o_id a)).
Proof. unfold_handlers. local_tac. Qed.

Lemma index_prog_local a : local a (ready a) (index_prog (o_id a)).
Proof. unfold_handlers. local_tac. Qed.

Lemma user_prog_local e k f a : local a (ready a) (user_prog e k f (o_id a)).
Proof. destruct k; [apply buy_prog_local | apply sell_prog_local | apply index_prog_local]. Qed.

(** ** Trades of two users *)

Section TwoUsers.
Variable d : db.
Hypothesis Hwf : wf_db d.

Lemma wf_ready u : In u (users d) -> ready (owner_of u) d.
Proof.
  intros Hu. split; [exact (select_username_user d Hwf u Hu)|].
  unfold clean, zero_rows, own_rows. apply filter_none. intros r Hr.
  apply filter_In in Hr as [Hr _]. pose proof (wf_pos d Hwf r Hr) as Hp.
  unfold nonzero. destruct (Z.eqb_spec (p_shares r) 0); [lia | reflexivity].
Qed.

Lemma wf_distinct u v : In u (users d) -> In v (users d) -> u <> v -> distinct (owner_of u) (owner_of v).
Proof.
  intros Hu Hv Hne. split; cbn [o_id o_name owner_of]; intros E; apply Hne.
  - exact (nodup_map_eq u_id _ u v (wf_ids d Hwf) Hu Hv E).
  - exact (nodup_map_eq u_username _ u v (wf_names d Hwf) Hu Hv E).
Qed.

(** C11: two requests, each a purchase, a sale or the portfolio page, of
    two different users of a well-formed database, served concurrently
    under any schedule of their statements: each ends with the outcome
    it has alone (a page shows what it shows alone); each user's row,
    holdings and ledger are those its request leaves alone (up to
    zero-share rows that the other's DELETE may remove early); every
    other user's are as they were.  No interleaving of two users'
    requests loses an update, pays twice or tears a page. *)
Theorem requests_of_two_users_serialize e k1 k2 f1 f2 u1 u2 sched :
  In u1 (users d) -> In u2 (users d) -> u1 <> u2 ->
  let p1 := user_prog e k1 f1 (u_id u1) in
  let p2 := user_prog e k2 f2 (u_id u2) in
  let '(o1, o2, d') := concurrent sched p1 p2 d in
  o1 = fst (run p1 d) /\ o2 = fst (run p2 d) /\
  agrees (owner_of u1) d' (snd (run p1 d)) /\ agrees (owner_of u2) d' (snd (run p2 d)) /\
  forall v, In v (users d) -> v <> u1 -> v <> u2 -> agrees (owner_of v) d' d.
Proof.
  intros H1 H2 H12 p1 p2.
  pose proof (concurrent_local (owner_of u1) (owner_of u2) _ _ p1 p2 sched d (wf_distinct u1 u2 H1 H2 H12)
                (user_prog_local e k1 f1 (owner_of u1)) (user_prog_local e k2 f2 (owner_of u2))
                (wf_ready u1 H1) (wf_ready u2 H2)) as H.
  destruct (concurrent sched p1 p2 d) as [[o1 o2] d']. destruct H as (E1 & E2 & A1 & A2 & Ab).
  refine (conj E1 (conj E2 (conj A1 (conj A2 _)))).
  intros v Hv Hv1 Hv2. apply Ab; apply wf_distinct; auto.
Qed.
End TwoUsers.

(** Bob holds 10 Apple shares; Amy has just registered and logged in. *)
Definition bob_and_amy : db :=
  sdb (run_trace init_server
         (firstn 3 spec_trace ++
          [(market 150, 8, register_req "amy" "pw2" "pw2"); (market 150, 8, login_req "amy" "pw2")])).

(** Bob sells 4 and Amy buys 5 at 200, their statements alternating. *)
Lemma requests_of_two_users_serialize_witness :
  let p1 := user_prog (market 200) KSell [("symbol", "aapl"); ("shares", "4")] (u_id (nth 0 (users bob_and_amy) bob)) in
  let p2 := user_prog (market 200) KBuy [("symbol", "aapl"); ("shares", "5")] (u_id (nth 1 (users bob_and_amy) bob)) in
  let '(o1, o2, d') := concurrent [true; false; true; false; true; false; true; false] p1 p2 bob_and_amy in
  o1 = fst (run p1 bob_and_amy) /\ o2 = fst (run p2 bob_and_amy) /\
  agrees (owner_of (nth 0 (users bob_and_amy) bob)) d' (snd (run p1 bob_and_amy)) /\
  agrees (owner_of (nth 1 (users bob_and_amy) bob)) d' (snd (run p2 bob_and_amy)) /\
  forall v, In v (users bob_and_amy) -> v <> nth 0 (users bob_and_amy) bob -> v <> nth 1 (users bob_and_amy) bob ->
    agrees (owner_of v) d' bob_and_amy.
Proof.
  apply (requests_of_two_users_serialize bob_and_amy).
  - apply wf_dbb_sound. vm_compute. reflexivity.
  - vm_compute. left. reflexivity.
  - vm_compute. right. left. reflexivity.
  - vm_compute. discriminate.
Defined.
