(* ===== verification/RoundTrips.v ===== *)
(** * RoundTrips: a purchase undone by a sale

    A logged-in user who buys [n] shares of a symbol (POST [/buy], lines
    181-207) and then sells the same [n] shares (POST [/sell], lines
    217-260) at an unchanged price gets back to the cash and the holdings
    the account had before; only the history keeps both trades.  The
    proof composes the two handler refinements of [Refinement] with the
    account-level round trip [Account.acct_buy_sell], and carries the
    invariant of [Invariant] across the purchase with [Safety].

    A client who registers a fresh username (lines 181-208) can then log
    in with it (lines 116-150): a login with that username succeeds
    exactly when its password is the one registered, and logs the client
    in as the new user. *)

From Stdlib Require Import String List ZArith Lia Bool.
From S2P Require Import Prelude PyInt Db Http Services Trade Auth Account Scenario Invariant TradeFacts Refinement AuthFacts Safety.
Import ListNotations.
Open Scope string_scope.
Open Scope list_scope.
Open Scope Z_scope.

Section RoundTrip.
Variables (e : env) (f : list (string * string)) (d : db) (uid : Z) (a : account).
Variables (sym txt : string) (q : quote) (n : Z).
Hypothesis Hwf : wf_db d.
Hypothesis Hacc : account_of d uid = Some a.
Hypothesis Hsym : nonempty (form_get f "symbol") = Some sym.
Hypothesis Hq : quote_service e sym = Some q.
Hypothesis Hf : form_get f "shares" = Some txt.
Hypothesis Hn : py_int txt = Some n.

Lemma acct_buy_defined : 1 <= n -> q_price q * n <= acash a -> exists a1, acct_buy a q n = Some a1.
Proof.
  intros H1 Hc. unfold acct_buy. destruct (Z.ltb_spec n 1); [lia|].
  destruct (Z.ltb_spec (acash a) (q_price q * n)); [lia|]. eexists. reflexivity.
Qed.

Lemma start_world_wf : wf_world (mk_world d (Some uid)).
Proof.
  split; [exact Hwf|]. intros uid' Hs. cbn in Hs. injection Hs as <-.
  destruct (account_of_some d uid a Hacc) as (u & Hu & <- & _). apply in_map, Hu.
Qed.

(** C7: a purchase of [n] shares followed by the sale of the same [n]
    shares, submitted with the same form at the same price, both succeed
    and redirect to [/]; the user stays logged in, no other account
    changes, and the user's account has its former cash and holdings
    again, with the two trades appended to its history. *)
Theorem buy_then_sell_roundtrip (H1 : 1 <= n) (Hc : q_price q * n <= acash a) :
  let (o1, w1) := buy e POST f (mk_world d (Some uid)) in
  let (o2, w2) := sell e POST f w1 in
  o1 = Ok (Redirect "/") /\ o2 = Ok (Redirect "/") /\ session w2 = Some uid /\
  (forall uid', uid' <> uid -> account_of (wdb w2) uid' = account_of d uid') /\
  exists a2, account_of (wdb w2) uid = Some a2 /\ acash a2 = acash a /\ aholdings a2 = aholdings a /\
    aledger a2 = aledger a ++ [(q_symbol q, n, q_price q); (q_symbol q, - n, q_price q)].
Proof.
  destruct (acct_buy_defined H1 Hc) as [a1 Ha1].
  destruct (account_of_some d uid a Hacc) as (u & _ & _ & Hau).
  destruct (acct_buy_sell a q n a1) as (a2 & Ha2 & Hcash & Hhold & Hled); [| |exact Ha1|].
  { rewrite Hau. apply account_wf_user, Hwf. }
  { rewrite Hau. apply account_pos_user, Hwf. }
  pose proof (buy_handler e f d uid a sym txt q n Hwf Hacc Hsym Hq Hf Hn) as B.
  pose proof (run_change_wf e _ _ start_world_wf (buy_change e POST f _ start_world_wf)) as [[Hwf1 _] _].
  destruct (buy e POST f (mk_world d (Some uid))) as [o1 [d1 s1]]. rewrite Ha1 in B.
  cbn [session wdb snd] in B, Hwf1. destruct B as (-> & Hoth1 & -> & Hacc1).
  pose proof (sell_handler e f d1 uid a1 sym txt q n Hwf1 Hacc1 Hsym Hq Hf Hn) as S.
  destruct (sell e POST f (mk_world d1 (Some uid))) as [o2 w2]. rewrite Ha2 in S.
  destruct S as (Hs2 & Hoth2 & -> & Hacc2).
  repeat split; auto.
  - intros uid' Hne. rewrite Hoth2, Hoth1 by exact Hne. reflexivity.
  - exists a2. auto.
Qed.
End RoundTrip.

Section Accounts.
Context `{PasswordHasher}.
Variables (e : env) (fr fl : list (string * string)) (d : db) (ss ss' : option Z).

(** C21: after a registration of a fresh username with a confirmed
    password, which answers with the registered page, a login with that
    username succeeds, whichever client sends it, exactly when its
    password is the registered one, and then logs the client in as the
    new user (the next id); with any other password it is refused with
    403 and the client is logged out. *)
Theorem register_then_login name pw :
  wf_db d ->
  nonempty (form_get fr "username") = Some name ->
  nonempty (form_get fr "password") = Some pw ->
  form_get fr "confirmation" = Some pw ->
  ~ In name (map u_username (users d)) ->
  nonempty (form_get fl "username") = Some name ->
  let (o1, w1) := register e POST fr (mk_world d ss) in
  o1 = Ok (Page PRegistered) /\
  (forall pw', nonempty (form_get fl "password") = Some pw' ->
     login POST fl (mk_world (wdb w1) ss') =
       if String.eqb pw' pw then (Ok (Redirect "/"), mk_world (wdb w1) (Some (next_id d)))
       else (Ok (apology "invalid username and/or password" 403), mk_world (wdb w1) None)).
Proof.
  intros Hwf Hname Hpw Hconf Hfresh Hlname.
  rewrite (register_fresh_run e fr d ss name pw Hname Hpw Hconf Hfresh). split; [reflexivity|].
  intros pw' Hpw'. cbn [wdb].
  set (u := mk_user (next_id d) name (generate_password_hash (salt e) pw) default_cash).
  set (d' := mk_db (users d ++ [u]) (portfolio d) (history d)).
  assert (Hwf' : wf_db d') by exact (proj1 (insert_user_wf _ _ d d' Hwf (insert_fresh_user d name _ Hfresh))).
  assert (Hu : In u (users d')) by (apply in_or_app; right; left; reflexivity).
  destruct (String.eqb_spec pw' pw) as [-> | Hne].
  - apply (login_verified_run fl d' ss' Hwf' u pw Hu); [exact Hlname | exact Hpw' |].
    cbn [u u_hash]. rewrite check_generate. apply String.eqb_refl.
  - apply (login_refused_run fl d' ss' name pw' Hlname Hpw'). intros v Hv Hvn.
    apply in_app_or in Hv as [Hv | [<- | []]].
    + exfalso. apply Hfresh. rewrite <- Hvn. apply in_map, Hv.
    + cbn [u u_hash]. rewrite check_generate. apply String.eqb_neq. congruence.
Qed.
End Accounts.

(** Bob buys 4 Apple shares at 150 and sells them again: both trades
    redirect, and his account is back to 10000 in cash and 10 shares. *)
Lemma buy_then_sell_roundtrip_witness :
  let f := [("symbol", "aapl"); ("shares", "4")] in
  let (o1, w1) := buy demo_env POST f (mk_world demo_db (Some 1)) in
  let (o2, w2) := sell demo_env POST f w1 in
  o1 = Ok (Redirect "/") /\ o2 = Ok (Redirect "/") /\ session w2 = Some 1 /\
  (forall uid', uid' <> 1 -> account_of (wdb w2) uid' = account_of demo_db uid') /\
  exists a2, account_of (wdb w2) 1 = Some a2 /\ acash a2 = acash demo_account /\
    aholdings a2 = aholdings demo_account /\
    aledger a2 = aledger demo_account ++ [(q_symbol demo_quote, 4, q_price demo_quote); (q_symbol demo_quote, - 4, q_price demo_quote)].
Proof.
  apply (buy_then_sell_roundtrip demo_env _ demo_db 1 demo_account "aapl" "4" demo_quote 4).
  - apply wf_dbb_sound. vm_compute. reflexivity.
  - vm_compute. reflexivity.
  - vm_compute. reflexivity.
  - vm_compute. reflexivity.
  - vm_compute. reflexivity.
  - vm_compute. reflexivity.
  - lia.
  - cbn. lia.
Defined.

(** Amy registers with password "x" next to bob; a login as amy with
    "x", from the client logged in as bob, then logs that client in as
    user 2. *)
Lemma register_then_login_witness :
  let (o1, w1) := register (market 150) POST [("username", "amy"); ("password", "x"); ("confirmation", "x")]
                           (mk_world bob_db None) in
  o1 = Ok (Page PRegistered) /\
  (forall pw', nonempty (form_get [("username", "amy"); ("password", "x")] "password") = Some pw' ->
     login POST [("username", "amy"); ("password", "x")] (mk_world (wdb w1) (Some 1)) =
       if String.eqb pw' "x" then (Ok (Redirect "/"), mk_world (wdb w1) (Some (next_id bob_db)))
       else (Ok (apology "invalid username and/or password" 403), mk_world (wdb w1) None)).
Proof.
  apply (register_then_login (market 150) _ _ bob_db None (Some 1) "amy" "x").
  - apply wf_dbb_sound. vm_compute. reflexivity.
  - reflexivity.
  - reflexivity.
  - reflexivity.
  - intros Hin. vm_compute in Hin. destruct Hin as [Hin | []]. discriminate.
  - reflexivity.
Defined.
